(** * dynamic-earth-net-challenge: [utils.py]

    A shallow embedding of the patch tiler, the RGB/class palette codec,
    the per-class pixel counter and the [ChangeDetectionDataset] index
    builder of [src/utils.py], with the properties of the tiling and
    indexing logic proved over it.

    Conventions.
    - A NumPy array is a strided view of a buffer: shape, strides and
      offset (counted in elements, not bytes) over a total function from
      buffer position to element.
    - Python exceptions are values of [exn]; code that can raise or print
      lives in the monad [M], which carries the lines written to standard
      output and either a value or the exception raised.
    - The file system, the image decoders, the YAML parser, the natural
      sort and the floating-point arithmetic are collaborators outside
      [utils.py]; they are the fields of [world] and [arith]. *)

From Stdlib Require Import Arith ZArith QArith Qminmax Lia List String Ascii Bool.
From stdpp Require Import base gmap strings list.

Local Open Scope string_scope.
Local Open Scope list_scope.
Local Open Scope nat_scope.

(** ** Exceptions, standard output *)

Inductive exn : Type :=
| ZeroDivisionError
| IndexError
| ValueError
| TypeError
| KeyError
| UnboundLocalError (name : string)
| YAMLError (msg : string)
| OSError.

Inductive res (A : Type) : Type :=
| Ok (a : A)
| Raise (e : exn).
Arguments Ok {A} a.
Arguments Raise {A} e.

Definition M (A : Type) : Type := (list string * res A)%type.

Definition ret {A} (a : A) : M A := ([], Ok a).
Definition raise {A} (e : exn) : M A := ([], Raise e).
Definition print (s : string) : M unit := ([s], Ok tt).

Definition bind {A B} (m : M A) (k : A -> M B) : M B :=
  match m with
  | (out, Ok a) => let '(out', r) := k a in (out ++ out', r)
  | (out, Raise e) => (out, Raise e)
  end.

Definition stdout {A} (m : M A) : list string := fst m.
Definition result {A} (m : M A) : res A := snd m.

Declare Scope py_scope.
Delimit Scope py_scope with py.
Notation "'let!' x ':=' m 'in' k" := (bind m (fun x => k))
  (at level 10, x pattern, m at level 100, k at level 200) : py_scope.
Notation "'do!' m 'in' k" := (bind m (fun _ => k))
  (at level 10, m at level 100, k at level 200) : py_scope.
Local Open Scope py_scope.

(** [for x in xs: st = body st x], stopping at the first exception. *)
Fixpoint for_each {A S} (xs : list A) (body : S -> A -> M S) (st : S) : M S :=
  match xs with
  | [] => ret st
  | x :: xs' => let! st' := body st x in for_each xs' body st'
  end.

(** ** NumPy arrays *)

Record ndarray (A : Type) : Type := NDArray {
  shape : list nat;
  strides : list nat;
  offset : nat;
  buf : nat -> A
}.
Arguments NDArray {A}.
Arguments shape {A}.
Arguments strides {A}.
Arguments offset {A}.
Arguments buf {A}.

Definition prod (sh : list nat) : nat := fold_right Nat.mul 1 sh.

(** Buffer displacement of a multi-index under the given strides. *)
Fixpoint dot (idx st : list nat) : nat :=
  match idx, st with
  | i :: idx', s :: st' => i * s + dot idx' st'
  | _, _ => 0
  end.

(** Strides of a freshly allocated (C-contiguous) array. *)
Fixpoint c_strides (sh : list nat) : list nat :=
  match sh with
  | [] => []
  | _ :: ds => prod ds :: c_strides ds
  end.

(** Multi-index of the [k]-th element in row-major order. *)
Fixpoint unravel (sh : list nat) (k : nat) : list nat :=
  match sh with
  | [] => []
  | _ :: ds => k / prod ds :: unravel ds (k mod prod ds)
  end.

Fixpoint in_bounds (idx sh : list nat) : bool :=
  match idx, sh with
  | [], [] => true
  | i :: idx', d :: sh' => (i <? d) && in_bounds idx' sh'
  | _, _ => false
  end.

Section NDArray.
Context {A : Type}.

Definition ndim (a : ndarray A) : nat := length (shape a).
Definition size (a : ndarray A) : nat := prod (shape a).

(** [a[i0, i1, ...]] once the index is known to be in range. *)
Definition item (a : ndarray A) (idx : list nat) : A :=
  buf a (offset a + dot idx (strides a)).

(** [a[i0, i1, ...]] with NumPy's bounds check. *)
Definition getitem (a : ndarray A) (idx : list nat) : M A :=
  if in_bounds idx (shape a) then ret (item a idx) else raise IndexError.

(** The [k]-th element of [a] in logical row-major order ([a.flat[k]]). *)
Definition flat (a : ndarray A) (k : nat) : A := item a (unravel (shape a) k).

(** A fresh C-contiguous array whose row-major elements are [f 0, f 1, ...]. *)
Definition fresh (sh : list nat) (f : nat -> A) : ndarray A :=
  NDArray sh (c_strides sh) 0 f.

(** [a.shape[i]] and [a.strides[i]]; a missing axis is an [IndexError]. *)
Definition shape_at (a : ndarray A) (i : nat) : M nat :=
  match shape a !! i with Some d => ret d | None => raise IndexError end.
Definition strides_at (a : ndarray A) (i : nat) : M nat :=
  match strides a !! i with Some d => ret d | None => raise IndexError end.

(** [numpy.lib.stride_tricks.as_strided]: the same buffer under a new
    shape and new strides, with no check of any kind. *)
Definition as_strided (a : ndarray A) (sh st : list nat) : ndarray A :=
  NDArray sh st (offset a) (buf a).

(** [a.reshape(sh)]: same elements in row-major order; the element
    counts must agree. *)
Definition reshape (a : ndarray A) (sh : list nat) : M (ndarray A) :=
  if size a =? prod sh then ret (fresh sh (flat a)) else raise ValueError.

(** [a.reshape((-1, k))]: the number of rows is inferred. *)
Definition reshape_rows (a : ndarray A) (k : nat) : M (ndarray A) :=
  if k =? 0 then raise ValueError
  else if negb (size a mod k =? 0) then raise ValueError
  else reshape a [size a / k; k].

(** [a.transpose(2, 0, 1)] of a 3-D array: the axes, and with them the
    strides, are permuted; no element moves. *)
Definition transpose_201 (a : ndarray A) : M (ndarray A) :=
  match shape a, strides a with
  | [d0; d1; d2], [s0; s1; s2] =>
      ret (NDArray [d2; d0; d1] [s2; s0; s1] (offset a) (buf a))
  | _, _ => raise ValueError
  end.

(** [a[i]]: the sub-array at position [i] of the first axis. *)
Definition subarray (a : ndarray A) (i : nat) : ndarray A :=
  NDArray (tail (shape a)) (tail (strides a))
          (offset a + i * hd 0 (strides a)) (buf a).

(** [for i in range(0, a.shape[0]): out.append(torch.from_numpy(a[i]))]:
    the sub-arrays [a[0], ..., a[shape[0]-1]] appended to [out], in order. *)
Definition append_each (out : list (ndarray A)) (a : ndarray A)
  : M (list (ndarray A)) :=
  let! n := shape_at a 0 in
  ret (out ++ map (subarray a) (seq 0 n)).

(** [np.squeeze(a)]: every axis of length one is dropped. *)
Definition squeeze (a : ndarray A) : ndarray A :=
  let keep := filter (fun ds => negb (fst ds =? 1)) (zip (shape a) (strides a)) in
  NDArray (map fst keep) (map snd keep) (offset a) (buf a).

(** The elements of [a] in row-major order. *)
Definition elements (a : ndarray A) : list A := map (flat a) (seq 0 (size a)).
End NDArray.

(** ** The patch tiler *)

Definition not_multiple_msg : string :=
  "The patch size is not a full multiple of the complete patch size".

(** Python's [a // b] and [a % b] on non-negative integers. *)
Definition floordiv (a b : nat) : M nat :=
  if b =? 0 then raise ZeroDivisionError else ret (a / b).
Definition pymod (a b : nat) : M nat :=
  if b =? 0 then raise ZeroDivisionError else ret (a mod b).

Definition cut_image_strided {A} (image : ndarray A) (new_size : nat * nat)
  : M (ndarray A) :=
  let! bands := shape_at image 0 in
  let '(new_size_y, new_size_x) := new_size in
  let! old_size_y := shape_at image 1 in
  let! old_size_x := shape_at image 2 in
  let! nr_images_x := floordiv old_size_x (snd new_size) in
  let! nr_images_y := floordiv old_size_y (fst new_size) in
  let! rx := pymod old_size_x new_size_x in
  do! (if negb (rx =? 0) then print not_multiple_msg
       else let! ry := pymod old_size_y new_size_y in
            if negb (ry =? 0) then print not_multiple_msg else ret tt) in
  let! s1 := strides_at image 1 in
  let! s2 := strides_at image 2 in
  let! s0 := strides_at image 0 in
  ret (as_strided image
         [nr_images_y; nr_images_x; bands; new_size_y; new_size_x]
         [s1 * new_size_y; s2 * new_size_x; s0; s1; s2]).

(** ** The palette codec *)

(** The palette, a dict literal written twice in the source ([mask2rgb]
    and [ChangeDetectionDataset.__init__]); iteration follows the order
    of insertion. *)
Definition color_label_dict : list (Z * (Z * Z * Z)) :=
  [ (0, (0, 0, 0)); (1, (128, 0, 0)); (2, (0, 128, 0)); (3, (128, 128, 0));
    (4, (0, 0, 128)); (5, (128, 0, 128)); (6, (0, 128, 128));
    (7, (128, 128, 128)) ]%Z.

(** [d[key]] *)
Definition dict_get {V} (d : list (Z * V)) (key : Z) : M V :=
  match find (fun kv => (fst kv =? key)%Z) d with
  | Some kv => ret (snd kv)
  | None => raise KeyError
  end.

Definition triple_nth (v : Z * Z * Z) (j : nat) : Z :=
  let '(r, g, b) := v in
  match j with 0 => r | 1 => g | _ => b end.

(** [a == v] (element-wise against a scalar) and buffer-wise maps. *)
Definition map_nd {A B} (f : A -> B) (a : ndarray A) : ndarray B :=
  NDArray (shape a) (strides a) (offset a) (fun k => f (buf a k)).
Definition eq_scalar (a : ndarray Z) (v : Z) : ndarray bool :=
  map_nd (fun x => (x =? v)%Z) a.

(** [np.all(rows == color, axis=1)] for [rows] of shape [(n, 3)] and a
    colour triple broadcast along the first axis. *)
Definition all_rows_eq (rows : ndarray Z) (color : Z * Z * Z) : M (ndarray bool) :=
  match shape rows with
  | [n; 3] =>
      ret (fresh [n] (fun r =>
             forallb (fun j => (item rows [r; j] =? triple_nth color j)%Z) (seq 0 3)))
  | _ => raise ValueError
  end.

(** [arr[:, :, i] = plane] on a 3-D integer array, the booleans stored
    as 0 and 1. *)
Definition set_channel (arr : ndarray Z) (i : nat) (plane : ndarray bool)
  : M (ndarray Z) :=
  match shape arr with
  | [d0; d1; c] =>
      if negb (i <? c) then raise IndexError
      else if bool_decide (shape plane = [d0; d1]) then
        ret (fresh [d0; d1; c] (fun k =>
               if k mod c =? i then (if flat plane (k / c) then 1 else 0)%Z
               else flat arr k))
      else raise ValueError
  | _ => raise IndexError
  end.

(** [np.zeros(shape)] *)
Definition zeros (sh : list nat) : ndarray Z := fresh sh (fun _ => 0%Z).

Definition enumerate {A} (l : list A) : list (nat * A) := zip (seq 0 (length l)) l.

(** Line 228, the body of the loop of [rgb_to_onehot]:
    [arr[:, :, i] = np.all(rgb_arr.reshape((-1, 3)) == color_label_dict[i],
    axis=1).reshape(shape[:2])]. *)
Definition onehot_channel (rgb_arr : ndarray Z) (shape : list nat)
    (arr : ndarray Z) (i : nat) : M (ndarray Z) :=
  let! rows := reshape_rows rgb_arr 3 in
  let! color := dict_get color_label_dict (Z.of_nat i) in
  let! hit := all_rows_eq rows color in
  let! plane := reshape hit (take 2 shape) in
  set_channel arr i plane.

Definition rgb_to_onehot (rgb_arr : ndarray Z) : M (ndarray Z) :=
  let num_classes := length color_label_dict in
  let shape := take 2 (shape rgb_arr) ++ [num_classes] in
  let arr := zeros shape in
  for_each (enumerate color_label_dict)
    (fun arr icls => onehot_channel rgb_arr shape arr (fst icls)) arr.

(** Index of the first maximum of a non-empty list. *)
Fixpoint argmax_from (best_i : nat) (best : Z) (i : nat) (l : list Z) : nat :=
  match l with
  | [] => best_i
  | x :: l' =>
      if (best <? x)%Z then argmax_from i x (S i) l'
      else argmax_from best_i best (S i) l'
  end.
Definition argmax_list (l : list Z) : nat :=
  match l with [] => 0 | x :: l' => argmax_from 0 x 1 l' end.

(** [np.argmax(a, axis=2)] of a 3-D array. [rgb_to_onehot] returns a
    3-D array or raises, so no other rank reaches this call. *)
Definition argmax_axis2 (a : ndarray Z) : M (ndarray Z) :=
  match shape a with
  | [d0; d1; c] =>
      if c =? 0 then raise ValueError
      else ret (fresh [d0; d1] (fun k =>
             Z.of_nat (argmax_list
               (map (fun j => item a [k / d1; k mod d1; j]) (seq 0 c)))))
  | _ => raise ValueError
  end.

(** Lines 153-154 of [__init__]: the class-index mask of an RGB label. *)
Definition decode_mask (cm_rgb_np : ndarray Z) : M (ndarray Z) :=
  let! cm_encoded := rgb_to_onehot cm_rgb_np in
  argmax_axis2 cm_encoded.

(** [inverse_ohe]. [np.where] of the 2-D slice [ohe_labels[..., ch]]
    gives the two index arrays that [ys, xs = ...] unpacks; a slice of
    any other rank does not unpack into two names. The image cells are
    floats that hold small integers, written here as integers. *)
Definition inverse_ohe (ohe_labels : ndarray Z) : M (ndarray Z) :=
  let inverse_ohe_img := zeros (take 2 (shape ohe_labels) ++ [1]) in
  let! channels :=
    match last (shape ohe_labels) with
    | Some n => ret n
    | None => raise IndexError
    end in
  let! inverse_ohe_img :=
    for_each (seq 0 channels) (fun inverse_ohe_img ch =>
      if negb (ndim ohe_labels =? 3) then raise ValueError
      else
        ret (fresh (shape inverse_ohe_img) (fun k =>
               match unravel (shape inverse_ohe_img) k with
               | y :: x :: _ =>
                   if negb (item ohe_labels [y; x; ch] =? 0)%Z then Z.of_nat ch
                   else flat inverse_ohe_img k
               | _ => flat inverse_ohe_img k
               end))) inverse_ohe_img in
  match shape inverse_ohe_img with
  | [h; w; d] =>
      ret (fresh [h; w; d * 3] (fun k =>
             match unravel [h; w; d * 3] k with
             | [y; x; j] => item inverse_ohe_img [y; x; j / 3]
             | _ => 0%Z
             end))
  | _ => raise ValueError
  end.

(** Number of [true] cells, and of [true] cells before row-major
    position [k]. *)
Definition count_nonzero (a : ndarray bool) : nat :=
  length (filter (fun b : bool => b) (elements a)).
Definition rank_true (a : ndarray bool) (k : nat) : nat :=
  length (filter (fun b : bool => b) (map (flat a) (seq 0 k))).

(** [arr[bm] = v] for a boolean array [bm] and a colour triple [v].
    NumPy matches the shape of [bm] against the leading axes of [arr]
    and broadcasts [v] over what is selected. *)
Definition setitem_bool (arr : ndarray Z) (bm : ndarray bool) (v : Z * Z * Z)
  : M (ndarray Z) :=
  let k := ndim bm in
  if k =? 0 then
    if bool_decide (last (shape arr) = Some 3) then
      ret (if item bm [] then fresh (shape arr) (fun pos => triple_nth v (pos mod 3))
           else arr)
    else raise ValueError
  else if ndim arr <? k then raise IndexError
  else if negb (bool_decide (shape bm = take k (shape arr))) then raise IndexError
  else if k =? ndim arr then
    if count_nonzero bm =? 3 then
      ret (fresh (shape arr) (fun pos =>
             if flat bm pos then triple_nth v (rank_true bm pos) else flat arr pos))
    else raise ValueError
  else
    if bool_decide (last (shape arr) = Some 3) then
      ret (fresh (shape arr) (fun pos =>
             if item bm (take k (unravel (shape arr) pos))
             then triple_nth v (pos mod 3) else flat arr pos))
    else raise ValueError.

(** [np.empty(sh)]: a fresh array whose cells hold whatever [garbage]
    the allocator left there. *)
Definition empty (garbage : nat -> Z) (sh : list nat) : ndarray Z := fresh sh garbage.

(** [a.astype(np.uint8)] *)
Definition astype_uint8 (a : ndarray Z) : ndarray Z :=
  fresh (shape a) (fun k => (flat a k mod 256)%Z).

Definition mask2rgb (garbage : nat -> Z) (mask : ndarray Z) : M (ndarray Z) :=
  let! h := shape_at mask 1 in
  let! w := shape_at mask 2 in
  let maskRGB := empty garbage [h; w; 3] in
  let mask := squeeze mask in
  let! maskRGB :=
    for_each (map fst color_label_dict) (fun maskRGB key =>
      let! pixel_value := dict_get color_label_dict key in
      setitem_bool maskRGB (eq_scalar mask key) pixel_value) maskRGB in
  ret (astype_uint8 maskRGB).

(** ** Strings and paths *)

(** [sub in s] *)
Fixpoint str_contains (sub s : string) : bool :=
  String.prefix sub s ||
  match s with
  | EmptyString => false
  | String _ s' => str_contains sub s'
  end.

(** [s.split(sep)[0]]: what precedes the first [sep], or all of [s]. *)
Fixpoint split_head (sep : ascii) (s : string) : string :=
  match s with
  | EmptyString => EmptyString
  | String c s' => if Ascii.eqb c sep then EmptyString else String c (split_head sep s')
  end.

(** A slice bound counted from the end when negative, clamped to the
    string as Python does. *)
Definition slice_bound (n : nat) (i : Z) : nat :=
  if (i <? 0)%Z then Z.to_nat (Z.of_nat n + i) else Nat.min (Z.to_nat i) n.

(** [s[start:stop]] *)
Definition py_slice (s : string) (start stop : Z) : string :=
  let n := String.length s in
  let a := slice_bound n start in
  let b := slice_bound n stop in
  String.substring a (b - a) s.

(** [os.path.join(a, b)] on a POSIX system. *)
Definition path_join (a b : string) : string :=
  if String.prefix "/" b then b
  else if (String.length a =? 0) then b
  else if String.eqb (String.substring (String.length a - 1) 1 a) "/" then a +:+ b
  else a +:+ "/" +:+ b.

(** ** The dataset index *)

(** What the constructor asks of the world around it. *)
Record world (F : Type) : Type := World {
  read_text : string -> M string;
  safe_load : string -> M (gmap string (gmap string string));
  listdir : string -> M (list string);
  isfile : string -> bool;
  imread : string -> M (ndarray F);
  image_open_rgb : string -> M (ndarray Z);
  natsorted : list string -> list string
}.
Arguments read_text {F}.
Arguments safe_load {F}.
Arguments listdir {F}.
Arguments isfile {F}.
Arguments imread {F}.
Arguments image_open_rgb {F}.
Arguments natsorted {F}.

(** Arithmetic on raster samples (NumPy floating point), and Python's
    [int / int]. *)
Record arith (F : Type) : Type := Arith {
  fadd : F -> F -> F;
  fsub : F -> F -> F;
  fmul : F -> F -> F;
  fdiv : F -> F -> F;
  fmin : F -> F -> F;
  fmax : F -> F -> F;
  of_int : Z -> F;
  mean_of : list F -> F;
  std_of : list F -> F;
  int_truediv : nat -> nat -> F
}.
Arguments fadd {F}.
Arguments fsub {F}.
Arguments fmul {F}.
Arguments fdiv {F}.
Arguments fmin {F}.
Arguments fmax {F}.
Arguments of_int {F}.
Arguments mean_of {F}.
Arguments std_of {F}.
Arguments int_truediv {F}.

(** The loop-carried state of [__init__]: the three patch lists and the
    pixel counters. *)
Record build (F : Type) : Type := Build {
  imgs_1 : list (ndarray F);
  imgs_2 : list (ndarray F);
  labels : list (ndarray Z);
  n_pix : nat;
  n_pixs : nat * nat * nat * nat * nat * nat * nat * nat
}.
Arguments Build {F}.
Arguments imgs_1 {F}.
Arguments imgs_2 {F}.
Arguments labels {F}.
Arguments n_pix {F}.
Arguments n_pixs {F}.

Record ChangeDetectionDataset (F : Type) : Type := Dataset {
  ds_label_path : string;
  ds_train : bool;
  ds_imgs_1 : list (ndarray F);
  ds_imgs_2 : list (ndarray F);
  ds_labels : list (ndarray Z);
  ds_n_patches : nat;
  ds_weights : option (list F)
}.
Arguments Dataset {F}.
Arguments ds_label_path {F}.
Arguments ds_train {F}.
Arguments ds_imgs_1 {F}.
Arguments ds_imgs_2 {F}.
Arguments ds_labels {F}.
Arguments ds_n_patches {F}.
Arguments ds_weights {F}.

Record sample (F : Type) : Type := Sample {
  I1 : ndarray F;
  I2 : ndarray F;
  label : option (ndarray Z)
}.
Arguments Sample {F}.
Arguments I1 {F}.
Arguments I2 {F}.
Arguments label {F}.

(** [np.count_nonzero(cm_indices_np == k)] *)
Definition count_eq (cm_indices_np : ndarray Z) (k : Z) : nat :=
  count_nonzero (eq_scalar cm_indices_np k).

Definition compute_for_INS_weights (cm_indices_np : ndarray Z)
    (n_pix n_pix0 n_pix1 n_pix2 n_pix3 n_pix4 n_pix5 n_pix6 n_pix7 : nat)
  : nat * nat * nat * nat * nat * nat * nat * nat :=
  let n_pix := n_pix + prod (shape cm_indices_np) in
  let n_pix0 := n_pix0 + count_eq cm_indices_np 0 in
  let n_pix1 := n_pix1 + count_eq cm_indices_np 1 in
  let n_pix2 := n_pix2 + count_eq cm_indices_np 2 in
  let n_pix3 := n_pix3 + count_eq cm_indices_np 3 in
  let n_pix4 := n_pix4 + count_eq cm_indices_np 4 in
  let n_pix5 := n_pix5 + count_eq cm_indices_np 5 in
  let n_pix6 := n_pix6 + count_eq cm_indices_np 6 in
  let n_pix7 := n_pix7 + count_eq cm_indices_np 7 in
  (n_pix0, n_pix1, n_pix2, n_pix3, n_pix4, n_pix5, n_pix6, n_pix7).

(** [l[i]] on a Python list. *)
Definition list_get {A} (l : list A) (i : nat) : M A :=
  match l !! i with Some x => ret x | None => raise IndexError end.

(** [l[i]] for an integer [i] of either sign: a negative index counts
    from the end. *)
Definition list_index {A} (l : list A) (i : Z) : M A :=
  let i := if (i <? 0)%Z then (i + Z.of_nat (length l))%Z else i in
  if (i <? 0)%Z then raise IndexError else list_get l (Z.to_nat i).

(** [d[key]] on a dict with string keys. *)
Definition subscript {V} (d : gmap string V) (key : string) : M V :=
  match d !! key with Some v => ret v | None => raise KeyError end.

Section Dataset.
Context {F : Type} (W : world F) (N : arith F).

(** [load_config]. The local [config] is bound only when the parse
    succeeds; reading an unbound local raises [UnboundLocalError]. *)
Definition load_config (configfile : string) : M (gmap string (gmap string string)) :=
  let! stream := read_text W configfile in
  let! config :=
    match safe_load W stream with
    | (out, Ok config) => (out, Ok (Some config))
    | (out, Raise (YAMLError exc)) => (out ++ [exc], Ok None)
    | (out, Raise e) => (out, Raise e)
    end in
  match config with
  | Some config => ret config
  | None => raise (UnboundLocalError "config")
  end.

(** [np.min(a)] and [np.max(a)]; an empty array has neither. *)
Definition np_min (a : ndarray F) : M F :=
  match elements a with
  | [] => raise ValueError
  | x :: xs => ret (fold_left (fmin N) xs x)
  end.
Definition np_max (a : ndarray F) : M F :=
  match elements a with
  | [] => raise ValueError
  | x :: xs => ret (fold_left (fmax N) xs x)
  end.

(** [(I - np.min(I)) / (np.max(I) - np.min(I)) * (new_max - new_min) + new_min] *)
Definition rescale (I : ndarray F) (new_min new_max : Z) : M (ndarray F) :=
  let! lo := np_min I in
  let shifted := map_nd (fun x => fsub N x lo) I in
  let! hi := np_max I in
  let! lo' := np_min I in
  let span := fsub N hi lo' in
  let unit := map_nd (fun x => fdiv N x span) shifted in
  let scaled := map_nd (fun x => fmul N x (of_int N (new_max - new_min))) unit in
  ret (map_nd (fun x => fadd N x (of_int N new_min)) scaled).

Definition read_and_normalized_planet_images_from_cm
    (cm_label_path planet_boxes_path : string) : M (ndarray F * ndarray F) :=
  let parallel_number := split_head "_" cm_label_path in
  let planet_east_west_folder_name := py_slice cm_label_path 4 (-20) in
  let original_image_name := py_slice cm_label_path (-11) (-4) +:+ "-01.tif" in
  let changed_image_name := py_slice cm_label_path (-19) (-12) +:+ "-01.tif" in
  let original_image_path :=
    path_join (path_join (path_join (path_join planet_boxes_path parallel_number)
      planet_east_west_folder_name) "L3H-SR") original_image_name in
  let changed_image_path :=
    path_join (path_join (path_join (path_join planet_boxes_path parallel_number)
      planet_east_west_folder_name) "L3H-SR") changed_image_name in
  let! I1 := imread W original_image_path in
  let! I2 := imread W changed_image_path in
  let new_min := (-1)%Z in
  let new_max := 1%Z in
  let! I1 := rescale I1 new_min new_max in
  let! I2 := rescale I2 new_min new_max in
  ret (I1, I2).

(** Lines 157-159: the label mask cut into 16 blocks of 256 x 256. *)
Definition append_label_patches (labels : list (ndarray Z))
    (cm_indices_np : ndarray Z) : M (list (ndarray Z)) :=
  let! cm_reshape := reshape cm_indices_np [16; 256; 256] in
  append_each labels cm_reshape.

(** Lines 161-165 (and 167-171, 192-196, 198-202): a raster tiled by
    [cut_image_strided], the grid flattened row by row, every tile
    appended. *)
Definition append_image_patches {A} (imgs : list (ndarray A)) (I : ndarray A)
  : M (list (ndarray A)) :=
  let! It := transpose_201 I in
  let! I_patches := cut_image_strided It (256, 256) in
  let! d0 := shape_at I_patches 0 in
  let! d1 := shape_at I_patches 1 in
  let! I_patches_reshape := reshape I_patches (d0 * d1 :: drop 2 (shape I_patches)) in
  append_each imgs I_patches_reshape.

(** Lines 152-171: one label file, once its two rasters and its RGB
    mask are in memory. *)
Definition train_sample (st : build F) (I1 I2 : ndarray F) (cm_rgb_np : ndarray Z)
  : M (build F) :=
  let! cm_encoded := rgb_to_onehot cm_rgb_np in
  let! cm_indices_np := argmax_axis2 cm_encoded in
  let '(n_pix0, n_pix1, n_pix2, n_pix3, n_pix4, n_pix5, n_pix6, n_pix7) := n_pixs st in
  let counts := compute_for_INS_weights cm_indices_np (n_pix st)
                  n_pix0 n_pix1 n_pix2 n_pix3 n_pix4 n_pix5 n_pix6 n_pix7 in
  let! labels := append_label_patches (labels st) cm_indices_np in
  let! imgs_1 := append_image_patches (imgs_1 st) I1 in
  let! imgs_2 := append_image_patches (imgs_2 st) I2 in
  ret (Build imgs_1 imgs_2 labels (n_pix st) counts).

(** Lines 147-171: the body of the inner loop of training mode. *)
Definition train_file (config : gmap string (gmap string string))
    (one_location_cm_label_path : string) (st : build F)
    (cm_label_file_name : string) : M (build F) :=
  let cm_label_path := path_join one_location_cm_label_path cm_label_file_name in
  let! dataset := subscript config "dataset" in
  let! planet_boxes_path := subscript dataset "planet_boxes_path" in
  let! I12 := read_and_normalized_planet_images_from_cm
                cm_label_file_name planet_boxes_path in
  let! cm_rgb_np := image_open_rgb W cm_label_path in
  train_sample st (fst I12) (snd I12) cm_rgb_np.

(** Lines 144-171: the body of the outer loop of training mode. *)
Definition train_location (config : gmap string (gmap string string))
    (label_path : string) (st : build F)
    (one_location_cm_label_folder_name : string) : M (build F) :=
  let one_location_cm_label_path :=
    path_join label_path one_location_cm_label_folder_name in
  let! files := listdir W one_location_cm_label_path in
  for_each files (train_file config one_location_cm_label_path) st.

(** [1 / n] on Python integers. *)
Definition py_truediv (a b : nat) : M F :=
  if b =? 0 then raise ZeroDivisionError else ret (int_truediv N a b).

(** Lines 172-173. *)
Definition inverse_weights (counts : nat * nat * nat * nat * nat * nat * nat * nat)
  : M (list F) :=
  let '(n_pix0, n_pix1, n_pix2, n_pix3, n_pix4, n_pix5, n_pix6, n_pix7) := counts in
  let! w0 := py_truediv 1 n_pix0 in
  let! w1 := py_truediv 1 n_pix1 in
  let! w2 := py_truediv 1 n_pix2 in
  let! w3 := py_truediv 1 n_pix3 in
  let! w4 := py_truediv 1 n_pix4 in
  let! w5 := py_truediv 1 n_pix5 in
  let! w6 := py_truediv 1 n_pix6 in
  let! w7 := py_truediv 1 n_pix7 in
  ret [w0; w1; w2; w3; w4; w5; w6; w7].

(** [(I - I.mean()) / I.std()] *)
Definition standardize (I : ndarray F) : ndarray F :=
  let centred := map_nd (fun x => fsub N x (mean_of N (elements I))) I in
  map_nd (fun x => fdiv N x (std_of N (elements I))) centred.

(** Lines 184-202: the loop over the sorted rasters of one location. *)
Definition test_pairs (test_folder_path : string)
    (test_file_name_filtered_and_sort : list string) (st : build F) : M (build F) :=
  for_each (enumerate test_file_name_filtered_and_sort) (fun st it =>
    let idx := fst it in
    let test_file_name := snd it in
    if negb (idx =? 23) then
      let original_image_path := path_join test_folder_path test_file_name in
      let! next_name := list_get test_file_name_filtered_and_sort (idx + 1) in
      let changed_image_path := path_join test_folder_path next_name in
      let! I1 := imread W original_image_path in
      let! I2 := imread W changed_image_path in
      let I1 := standardize I1 in
      let I2 := standardize I2 in
      let! imgs_1 := append_image_patches (imgs_1 st) I1 in
      let! imgs_2 := append_image_patches (imgs_2 st) I2 in
      ret (Build imgs_1 imgs_2 (labels st) (n_pix st) (n_pixs st))
    else ret st) st.

(** Lines 179-202: one location directory of inference mode. *)
Definition test_location (one_lat_test_path : string) (st : build F)
    (one_location_test_folder_name : string) : M (build F) :=
  let test_folder_path :=
    path_join (path_join one_lat_test_path one_location_test_folder_name) "L3H-SR" in
  let! names := listdir W test_folder_path in
  let test_file_name_filtered := filter (fun n => str_contains "-01.tif" n) names in
  let test_file_name_filtered_and_sort := natsorted W test_file_name_filtered in
  test_pairs test_folder_path test_file_name_filtered_and_sort st.

(** Lines 175-202: the body of the outer loop of inference mode. *)
Definition test_lat (config : gmap string (gmap string string)) (st : build F)
    (planet_test_folder_name : string) : M (build F) :=
  let! dataset := subscript config "dataset" in
  let! planet_test_boxes_path := subscript dataset "planet_test_boxes_path" in
  let one_lat_test_path := path_join planet_test_boxes_path planet_test_folder_name in
  if negb (isfile W one_lat_test_path) then
    let! locations := listdir W one_lat_test_path in
    for_each locations (test_location one_lat_test_path) st
  else ret st.

Definition build0 : build F := Build [] [] [] 0 (0, 0, 0, 0, 0, 0, 0, 0).

(** Lines 144-171: the loops of training mode. *)
Definition train_loop (config : gmap string (gmap string string))
    (label_path : string) : M (build F) :=
  let! locations := listdir W label_path in
  for_each locations (train_location config label_path) build0.

(** Lines 175-202: the loops of inference mode. *)
Definition test_loop (config : gmap string (gmap string string))
    (label_path : string) : M (build F) :=
  let! lats := listdir W label_path in
  for_each lats (test_lat config) build0.

(** [ChangeDetectionDataset.__init__(config, transform, train)] *)
Definition init (config : gmap string (gmap string string)) (train : bool)
  : M (ChangeDetectionDataset F) :=
  let! dataset := subscript config "dataset" in
  let! label_path := subscript dataset "semi_supervised_labels_path" in
  if train then
    let! st := train_loop config label_path in
    let! weights := inverse_weights (n_pixs st) in
    ret (Dataset label_path train (imgs_1 st) (imgs_2 st) (labels st) 0 (Some weights))
  else
    let! st := test_loop config label_path in
    ret (Dataset label_path train (imgs_1 st) (imgs_2 st) (labels st) 0 None).

(** [get_img] *)
Definition get_img (self : ChangeDetectionDataset F) (im_name : Z)
  : M (ndarray F * ndarray F * ndarray Z) :=
  let! a := list_index (ds_imgs_1 self) im_name in
  let! b := list_index (ds_imgs_2 self) im_name in
  let! l := list_index (ds_labels self) im_name in
  ret (a, b, l).

(** [__len__] *)
Definition len (self : ChangeDetectionDataset F) : nat := length (ds_imgs_1 self).

(** [__getitem__] *)
Definition getitem_ds (self : ChangeDetectionDataset F) (idx : Z) : M (sample F) :=
  if ds_train self then
    let! a := list_index (ds_imgs_1 self) idx in
    let! b := list_index (ds_imgs_2 self) idx in
    let! l := list_index (ds_labels self) idx in
    ret (Sample a b (Some l))
  else
    let! a := list_index (ds_imgs_1 self) idx in
    let! b := list_index (ds_imgs_2 self) idx in
    ret (Sample a b None).
End Dataset.

(** ** Vocabulary of the properties *)

(** A well-formed array has one stride per axis. *)
Definition wf {A} (a : ndarray A) : Prop := length (strides a) = length (shape a).

(** Reassembly of a tile grid of shape [(ny, nx, b, ty, tx)]: tile
    [(i, j)] goes back to rows [i*ty ..] and columns [j*tx ..] of an
    array of shape [(b, ny*ty, nx*tx)]. Only a tile grid can be
    reassembled: an array of any other rank has no reassembly. *)
Definition untile {A} (tiles : ndarray A) : option (ndarray A) :=
  match shape tiles with
  | [ny; nx; b; ty; tx] =>
      Some (fresh [b; ny * ty; nx * tx] (fun k =>
        match unravel [b; ny * ty; nx * tx] k with
        | [c; y; x] => item tiles [y / ty; x / tx; c; y mod ty; x mod tx]
        | _ => item tiles []
        end))
  | _ => None
  end.

(** The colour at row [r], column [c] of an RGB array of shape [(h, w, 3)]. *)
Definition pixel (rgb : ndarray Z) (r c : nat) : Z * Z * Z :=
  (item rgb [r; c; 0], item rgb [r; c; 1], item rgb [r; c; 2]).

Definition triple_eqb (p q : Z * Z * Z) : bool :=
  forallb (fun j => (triple_nth p j =? triple_nth q j)%Z) (seq 0 3).

(** The palette colour of class [i], when [i] is a class. *)
Definition color_of (i : nat) : option (Z * Z * Z) :=
  snd <$> find (fun kv => (fst kv =? Z.of_nat i)%Z) color_label_dict.

(** A colour is a palette colour. *)
Definition in_palette (p : Z * Z * Z) : Prop :=
  exists kv, In kv color_label_dict /\ snd kv = p.

(** The one-hot bit of class [j] for a pixel of colour [p]. *)
Definition onehot_bit (p : Z * Z * Z) (j : nat) : Z :=
  match color_of j with
  | Some col => if triple_eqb p col then 1%Z else 0%Z
  | None => 0%Z
  end.

(** The class that lines 153-154 give a pixel of colour [p]: the first
    maximum of its one-hot row. *)
Definition class_of_pixel (p : Z * Z * Z) : Z :=
  Z.of_nat (argmax_list (map (onehot_bit p) (seq 0 8))).

(** The 16 blocks that lines 157-159 store for a class-index mask. *)
Definition label_blocks (cm_indices_np : ndarray Z) : list (ndarray Z) :=
  map (subarray (fresh [16; 256; 256] (flat cm_indices_np))) (seq 0 16).

(** The tile at row-major grid position [p] of a 2-D mask cut into
    [ty] x [tx] tiles: row [p / nx], column [p mod nx] of the grid. *)
Definition spatial_tile {A} (m : ndarray A) (ty tx p : nat) : ndarray A :=
  let nx := nth 1 (shape m) 0 / tx in
  fresh [ty; tx] (fun k => item m [p / nx * ty + k / tx; p mod nx * tx + k mod tx]).

(** The patches that lines 161-165 store for a raster of shape
    [(H, W, C)]: the tile grid of its transpose, flattened row by row. *)
Definition raster_grid {A} (I : ndarray A) : ndarray A :=
  NDArray [nth 0 (shape I) 0 / 256; nth 1 (shape I) 0 / 256; nth 2 (shape I) 0; 256; 256]
          [nth 0 (strides I) 0 * 256; nth 1 (strides I) 0 * 256; nth 2 (strides I) 0;
           nth 0 (strides I) 0; nth 1 (strides I) 0]
          (offset I) (buf I).
Definition raster_patches {A} (I : ndarray A) : list (ndarray A) :=
  let ny := nth 0 (shape I) 0 / 256 in
  let nx := nth 1 (shape I) 0 / 256 in
  map (subarray (fresh [ny * nx; nth 2 (shape I) 0; 256; 256] (flat (raster_grid I))))
      (seq 0 (ny * nx)).

(** The counters after one more mask. *)
Definition add_counts (n : nat) (c : nat * nat * nat * nat * nat * nat * nat * nat)
    (m : ndarray Z) : nat * nat * nat * nat * nat * nat * nat * nat :=
  let '(n_pix0, n_pix1, n_pix2, n_pix3, n_pix4, n_pix5, n_pix6, n_pix7) := c in
  compute_for_INS_weights m n n_pix0 n_pix1 n_pix2 n_pix3 n_pix4 n_pix5 n_pix6 n_pix7.

Definition counts_list (c : nat * nat * nat * nat * nat * nat * nat * nat) : list nat :=
  let '(n_pix0, n_pix1, n_pix2, n_pix3, n_pix4, n_pix5, n_pix6, n_pix7) := c in
  [n_pix0; n_pix1; n_pix2; n_pix3; n_pix4; n_pix5; n_pix6; n_pix7].

(** The value a computation returns, if it returns. *)
Definition value_of {A} (m : M A) : option A :=
  match result m with Ok a => Some a | Raise _ => None end.

(** The class-index masks of the label files of a corpus, in the order
    in which training mode walks them. *)
Definition file_mask {F} (W : world F) (dir file : string) : option (ndarray Z) :=
  rgb ← value_of (image_open_rgb W (path_join dir file));
  value_of (decode_mask rgb).
Definition location_masks {F} (W : world F) (label_path location : string)
  : list (ndarray Z) :=
  match value_of (listdir W (path_join label_path location)) with
  | Some files => omap (file_mask W (path_join label_path location)) files
  | None => []
  end.
Definition corpus_masks {F} (W : world F) (label_path : string) : list (ndarray Z) :=
  match value_of (listdir W label_path) with
  | Some locations => locations ≫= location_masks W label_path
  | None => []
  end.

(** [total_count[k]]: over all masks, the number of pixels of class [k]. *)
Definition total_count (masks : list (ndarray Z)) (k : nat) : nat :=
  sum_list_with (fun m => count_eq m (Z.of_nat k)) masks.

(** Counter [k] of the eight. *)
Definition count_at (c : nat * nat * nat * nat * nat * nat * nat * nat) (k : nat) : nat :=
  nth k (counts_list c) 0.

(** The colour [mask2rgb] paints for a mask value that is a palette key. *)
Definition color_for (v : Z) : Z * Z * Z :=
  match find (fun kv => (fst kv =? v)%Z) color_label_dict with
  | Some kv => snd kv
  | None => (0, 0, 0)%Z
  end.

(** The patches inference mode stores for the raster [name] of a
    location folder, and what it takes for a raster to be read. *)
Definition test_patches {F} (W : world F) (N : arith F) (dir name : string)
  : list (ndarray F) :=
  match value_of (imread W (path_join dir name)) with
  | Some img => raster_patches (standardize N img)
  | None => []
  end.
Definition readable_raster {F} (W : world F) (path : string) : Prop :=
  exists img H Wd C, result (imread W path) = Ok img /\ shape img = [H; Wd; C] /\ wf img.

(** The indices a Python list accepts, and the position an accepted
    index reads. *)
Definition valid_index {A} (l : list A) (i : Z) : Prop :=
  (- Z.of_nat (length l) <= i < Z.of_nat (length l))%Z.
Definition position {A} (l : list A) (i : Z) : nat :=
  Z.to_nat (if (i <? 0)%Z then i + Z.of_nat (length l) else i)%Z.

(** The label files of a corpus in the order in which training mode
    walks them, and the two normalised rasters that go with a label file. *)
Definition location_files {F} (W : world F) (label_path location : string)
  : list string :=
  default [] (value_of (listdir W (path_join label_path location))).
Definition corpus_files {F} (W : world F) (label_path : string) : list string :=
  match value_of (listdir W label_path) with
  | Some locations => locations ≫= location_files W label_path
  | None => []
  end.
Definition file_rasters {F} (W : world F) (N : arith F)
    (config : gmap string (gmap string string)) (file : string)
  : option (ndarray F * ndarray F) :=
  dataset ← config !! "dataset";
  planet_boxes_path ← dataset !! "planet_boxes_path";
  value_of (read_and_normalized_planet_images_from_cm W N file planet_boxes_path).
Definition before_patches {F} (W : world F) (N : arith F)
    (config : gmap string (gmap string string)) (file : string) : list (ndarray F) :=
  match file_rasters W N config file with
  | Some R => raster_patches (fst R)
  | None => []
  end.
Definition after_patches {F} (W : world F) (N : arith F)
    (config : gmap string (gmap string string)) (file : string) : list (ndarray F) :=
  match file_rasters W N config file with
  | Some R => raster_patches (snd R)
  | None => []
  end.

(** The raster that the naming convention of line 44 assigns to a
    parallel, a location folder and a 7-character date token. *)
Definition planet_path (planet_boxes_path parallel folder token : string) : string :=
  path_join (path_join (path_join (path_join planet_boxes_path parallel) folder) "L3H-SR")
            (token +:+ "-01.tif").

(** ** A small world to run the code in

    One location with one label file and its two rasters for training,
    one location with three monthly rasters for inference, an empty label
    root, and a configuration file that does not parse. Samples are exact
    rationals; the standard deviation is fixed to one. *)

Definition demo_arith : arith Q :=
  {| fadd := Qplus; fsub := Qminus; fmul := Qmult; fdiv := Qdiv;
     fmin := Qmin; fmax := Qmax; of_int := inject_Z;
     mean_of := fun l => Qdiv (fold_right Qplus 0%Q l) (inject_Z (Z.of_nat (length l)));
     std_of := fun _ => 1%Q;
     int_truediv := fun a b => Qmake (Z.of_nat a) (Pos.of_nat b) |}.

Definition demo_dataset (labels : string) : gmap string string :=
  {[ "semi_supervised_labels_path" := labels;
     "planet_boxes_path" := "boxes";
     "planet_test_boxes_path" := "test_boxes" ]}.
Definition demo_config (labels : string) : gmap string (gmap string string) :=
  {[ "dataset" := demo_dataset labels ]}.

(** A 2 x 2 raster of one band. *)
Definition demo_thumb : ndarray Q := fresh [2; 2; 1] (fun k => inject_Z (Z.of_nat k)).

(** A 1024 x 1024 raster of four bands, and a single 256 x 256 band. *)
Definition demo_raster : ndarray Q :=
  fresh [1024; 1024; 4] (fun k => inject_Z (Z.of_nat k)).
Definition demo_band : ndarray Q :=
  fresh [256; 256; 1] (fun k => inject_Z (Z.of_nat k)).

(** A 1024 x 1024 RGB label: the eight palette colours on the first
    eight pixels of the first row, palette colour 1 at row 0, column 256,
    black elsewhere. *)
Definition demo_rgb : ndarray Z :=
  fresh [1024; 1024; 3] (fun k =>
    if k <? 24 then triple_nth (default (0, 0, 0)%Z (color_of (k / 3))) (k mod 3)
    else if k =? 768 then 128%Z
    else 0%Z).

Definition demo_listdir (path : string) : M (list string) :=
  if String.eqb path "labels" then ret ["10N_1311_3077_13"]
  else if String.eqb path "labels/10N_1311_3077_13"
    then ret ["10N_1311_3077_13_2018-01_2018-02.png"]
  else if String.eqb path "empty" then ret []
  else if String.eqb path "test_boxes/10N_1311_3077_13" then ret ["1311_3077_13"]
  else if String.eqb path "test_boxes/10N_1311_3077_13/1311_3077_13/L3H-SR"
    then ret ["2018-01-01.tif"; "2018-02-01.tif"; "2018-03-01.tif"; "README.txt"]
  else raise OSError.

Definition demo_imread (path : string) : M (ndarray Q) :=
  if String.prefix "boxes/10N/1311_3077_13/L3H-SR/2018-0" path then ret demo_thumb
  else if String.prefix "test_boxes/10N_1311_3077_13/1311_3077_13/L3H-SR/2018-0" path
    then ret demo_band
  else raise OSError.

Definition demo_world : world Q :=
  {| read_text := fun path =>
       if String.eqb path "broken.yml" then ret "dataset: [" else raise OSError;
     safe_load := fun stream =>
       if String.eqb stream "dataset: ["
       then raise (YAMLError "while parsing a flow node: did not find expected node content")
       else ret (demo_config "labels");
     listdir := demo_listdir;
     isfile := fun _ => false;
     imread := demo_imread;
     image_open_rgb := fun path =>
       if String.eqb path "labels/10N_1311_3077_13/10N_1311_3077_13_2018-01_2018-02.png"
       then ret demo_rgb else raise OSError;
     natsorted := fun names => names |}.

(** A 3-band, 4 x 6 array and a 2 x 2 RGB image for small examples. *)
Definition demo_small : ndarray nat := fresh [2; 4; 6] (fun k => k).
Definition demo_small_rgb : ndarray Z :=
  fresh [2; 2; 3] (fun k => nth k [0; 0; 0; 128; 0; 0; 1; 2; 3; 128; 128; 128]%Z 0%Z).

(** A mask of one row and two columns, classes 0 and 1, and a 2 x 2
    mask of classes 3, 7, 0 and 5. *)
Definition demo_row_mask : ndarray Z := fresh [1; 1; 2] (fun k => nth k [0; 1]%Z 0%Z).
Definition demo_square_mask : ndarray Z :=
  fresh [1; 2; 2] (fun k => nth k [3; 7; 0; 5]%Z 0%Z).

(** Twenty-four monthly rasters of one location, already in natural order. *)
Definition demo_months : list string :=
  [ "2018-01-01.tif"; "2018-02-01.tif"; "2018-03-01.tif"; "2018-04-01.tif";
    "2018-05-01.tif"; "2018-06-01.tif"; "2018-07-01.tif"; "2018-08-01.tif";
    "2018-09-01.tif"; "2018-10-01.tif"; "2018-11-01.tif"; "2018-12-01.tif";
    "2019-01-01.tif"; "2019-02-01.tif"; "2019-03-01.tif"; "2019-04-01.tif";
    "2019-05-01.tif"; "2019-06-01.tif"; "2019-07-01.tif"; "2019-08-01.tif";
    "2019-09-01.tif"; "2019-10-01.tif"; "2019-11-01.tif"; "2019-12-01.tif" ].

(** A world for training on full-size data: each of its two label roots
    holds one label file, whose two rasters are 1024 x 1024 with four
    bands. Under [labels] the label is [demo_rgb], which shows all eight
    classes; under [dark] it is an all-black 1024 x 1024 image, which
    shows class 0 only. *)
Definition dark_rgb : ndarray Z := fresh [1024; 1024; 3] (fun _ => 0%Z).
Definition tile_listdir (path : string) : M (list string) :=
  if String.eqb path "labels" then ret ["10N_1311_3077_13"]
  else if String.eqb path "labels/10N_1311_3077_13"
    then ret ["10N_1311_3077_13_2018-01_2018-02.png"]
  else if String.eqb path "dark" then ret ["10N_1311_3077_13"]
  else if String.eqb path "dark/10N_1311_3077_13"
    then ret ["10N_1311_3077_13_2018-01_2018-02.png"]
  else raise OSError.
Definition tile_world : world Q :=
  {| read_text := fun _ => raise OSError;
     safe_load := fun _ => raise OSError;
     listdir := tile_listdir;
     isfile := fun _ => false;
     imread := fun path =>
       if String.prefix "boxes/10N/1311_3077_13/L3H-SR/2018-0" path then ret demo_raster
       else raise OSError;
     image_open_rgb := fun path =>
       if String.eqb path "labels/10N_1311_3077_13/10N_1311_3077_13_2018-01_2018-02.png"
       then ret demo_rgb
       else if String.eqb path "dark/10N_1311_3077_13/10N_1311_3077_13_2018-01_2018-02.png"
       then ret dark_rgb
       else raise OSError;
     natsorted := fun names => names |}.

(** A world whose one test location holds those rasters, each a single
    256 x 256 band. *)
Definition year_world : world Q :=
  {| read_text := fun _ => raise OSError;
     safe_load := fun _ => raise OSError;
     listdir := fun path =>
       if String.eqb path "labels" then ret ["10N"]
       else if String.eqb path "test_boxes/10N" then ret ["1311_3077_13"]
       else if String.eqb path "test_boxes/10N/1311_3077_13/L3H-SR" then ret demo_months
       else raise OSError;
     isfile := fun _ => false;
     imread := fun _ => ret demo_band;
     image_open_rgb := fun _ => raise OSError;
     natsorted := fun names => names |}.

(** * Properties *)

(** ** The monad *)

Lemma bind_ret {A B} (a : A) (k : A -> M B) : bind (ret a) k = k a.
Proof. unfold bind, ret. destruct (k a) as [out r]. reflexivity. Qed.

Lemma bind_raise {A B} (e : exn) (k : A -> M B) : bind (raise e) k = raise e.
Proof. reflexivity. Qed.

Lemma result_bind_ok {A B} (m : M A) (k : A -> M B) (a : A) :
  result m = Ok a -> result (bind m k) = result (k a).
Proof.
  destruct m as [out r]. simpl. intros ->. simpl.
  destruct (k a) as [out' r']. reflexivity.
Qed.

Lemma result_bind_raise {A B} (m : M A) (k : A -> M B) (e : exn) :
  result m = Raise e -> result (bind m k) = Raise e.
Proof. destruct m as [out r]. simpl. intros ->. reflexivity. Qed.

Lemma result_bind_inv {A B} (m : M A) (k : A -> M B) (b : B) :
  result (bind m k) = Ok b -> exists a, result m = Ok a /\ result (k a) = Ok b.
Proof.
  destruct m as [out [a | e]]; simpl.
  - destruct (k a) as [out' r'] eqn:E. simpl. intros ->. exists a.
    rewrite E. split; reflexivity.
  - discriminate.
Qed.

(** One step of a computation whose next result is known. *)
Ltac mstep := first [ rewrite bind_ret | rewrite bind_raise ]; cbv beta.
Ltac msimpl := repeat mstep.

(** ** Index arithmetic *)

Lemma in_bounds_dot_lt (sh idx : list nat) :
  in_bounds idx sh = true -> dot idx (c_strides sh) < prod sh.
Proof.
  revert idx. induction sh as [| d ds IH]; intros [| i idx]; simpl; try discriminate.
  - lia.
  - intros H. apply andb_prop in H as [Hi Hr]. apply Nat.ltb_lt in Hi.
    specialize (IH _ Hr). fold (prod ds). nia.
Qed.

Lemma unravel_dot (sh idx : list nat) :
  in_bounds idx sh = true -> unravel sh (dot idx (c_strides sh)) = idx.
Proof.
  revert idx. induction sh as [| d ds IH]; intros [| i idx]; simpl; try discriminate.
  - reflexivity.
  - intros H. apply andb_prop in H as [Hi Hr].
    pose proof (in_bounds_dot_lt _ _ Hr) as Hlt. fold (prod ds).
    assert (Hq : (i * prod ds + dot idx (c_strides ds)) / prod ds = i).
    { symmetry. apply (Nat.div_unique _ _ _ (dot idx (c_strides ds))); lia. }
    assert (Hm : (i * prod ds + dot idx (c_strides ds)) mod prod ds
                 = dot idx (c_strides ds)).
    { symmetry. apply (Nat.mod_unique _ _ i); lia. }
    rewrite Hq, Hm, (IH _ Hr). reflexivity.
Qed.

Lemma flat_fresh {A} (sh : list nat) (f : nat -> A) (idx : list nat) :
  item (fresh sh f) idx = f (dot idx (c_strides sh)).
Proof. reflexivity. Qed.

(** ** The patch tiler *)

Lemma cut_image_strided_eq {A} (image : ndarray A) B H W s0 s1 s2 Ty Tx :
  shape image = [B; H; W] -> strides image = [s0; s1; s2] -> 0 < Ty -> 0 < Tx ->
  cut_image_strided image (Ty, Tx) =
    (if (W mod Tx =? 0) && (H mod Ty =? 0) then [] else [not_multiple_msg],
     Ok (NDArray [H / Ty; W / Tx; B; Ty; Tx] [s1 * Ty; s2 * Tx; s0; s1; s2]
                 (offset image) (buf image))).
Proof.
  intros Hsh Hst HTy HTx.
  unfold cut_image_strided, shape_at, strides_at, floordiv, pymod, as_strided.
  rewrite Hsh, Hst. cbn [lookup list_lookup fst snd].
  destruct (Nat.eqb_spec Tx 0) as [|_]; [lia|].
  destruct (Nat.eqb_spec Ty 0) as [|_]; [lia|].
  msimpl.
  destruct (W mod Tx =? 0); cbn [negb andb].
  - msimpl. destruct (H mod Ty =? 0); reflexivity.
  - reflexivity.
Qed.

Lemma wf_strides3 {A} (a : ndarray A) d0 d1 d2 :
  shape a = [d0; d1; d2] -> wf a -> exists s0 s1 s2, strides a = [s0; s1; s2].
Proof.
  unfold wf. intros -> Hlen.
  destruct (strides a) as [| s0 [| s1 [| s2 [| ? ?]]]]; try discriminate.
  eauto.
Qed.

Lemma tile_row_covered (H Ty r : nat) :
  0 < Ty ->
  (exists i y, i < H / Ty /\ y < Ty /\ r = i * Ty + y) <-> r < H / Ty * Ty.
Proof.
  intros HTy. split.
  - intros (i & y & Hi & Hy & ->). nia.
  - intros Hr. exists (r / Ty), (r mod Ty). repeat split.
    + apply Nat.Div0.div_lt_upper_bound. lia.
    + apply Nat.mod_upper_bound. lia.
    + pose proof (Nat.div_mod_eq r Ty). lia.
Qed.

(** C7. On a 3-D array of shape (B, H, W) and a tile shape (Ty, Tx) of
    positive sides, [cut_image_strided] returns (it does not raise) an
    array of shape (H/Ty, W/Tx, B, Ty, Tx) whose cell [i, j, b, y, x] is
    the source cell [b, i*Ty + y, j*Tx + x]: the (i, j)-th tile of a grid
    of exactly (H/Ty) * (W/Tx) non-overlapping tiles. A source row or
    column lies in some tile exactly when it is below (H/Ty)*Ty,
    respectively (W/Tx)*Tx, so the trailing partial row and column are
    dropped; the diagnostic is printed exactly when a side is not a
    multiple of the tile side. *)
Theorem cut_image_strided_tiles {A} (image : ndarray A) (B H W Ty Tx : nat) :
  shape image = [B; H; W] -> wf image -> 0 < Ty -> 0 < Tx ->
  exists tiles,
    result (cut_image_strided image (Ty, Tx)) = Ok tiles /\
    shape tiles = [H / Ty; W / Tx; B; Ty; Tx] /\
    (forall i j b y x, i < H / Ty -> j < W / Tx -> b < B -> y < Ty -> x < Tx ->
       item tiles [i; j; b; y; x] = item image [b; i * Ty + y; j * Tx + x]) /\
    prod (take 2 (shape tiles)) = H / Ty * (W / Tx) /\
    (forall r, (exists i y, i < H / Ty /\ y < Ty /\ r = i * Ty + y) <-> r < H / Ty * Ty) /\
    (forall c, (exists j x, j < W / Tx /\ x < Tx /\ c = j * Tx + x) <-> c < W / Tx * Tx) /\
    H / Ty * Ty <= H /\ W / Tx * Tx <= W /\
    stdout (cut_image_strided image (Ty, Tx)) =
      (if (W mod Tx =? 0) && (H mod Ty =? 0) then [] else [not_multiple_msg]).
Proof.
  intros Hsh Hwf HTy HTx.
  destruct (wf_strides3 _ _ _ _ Hsh Hwf) as (s0 & s1 & s2 & Hst).
  rewrite (cut_image_strided_eq image B H W s0 s1 s2 Ty Tx Hsh Hst HTy HTx).
  eexists. split; [reflexivity|]. cbn [shape result stdout fst snd].
  repeat split.
  - intros i j b y x _ _ _ _ _. unfold item. cbn [offset buf strides dot].
    rewrite Hst. cbn [dot]. f_equal. lia.
  - cbn. lia.
  - apply tile_row_covered; assumption.
  - apply tile_row_covered; assumption.
  - apply tile_row_covered; assumption.
  - apply tile_row_covered; assumption.
  - pose proof (Nat.div_mod_eq H Ty). lia.
  - pose proof (Nat.div_mod_eq W Tx). lia.
Qed.

Lemma in_bounds3 (b y x B H W : nat) :
  b < B -> y < H -> x < W -> in_bounds [b; y; x] [B; H; W] = true.
Proof.
  intros Hb Hy Hx. cbn [in_bounds].
  apply Nat.ltb_lt in Hb, Hy, Hx. rewrite Hb, Hy, Hx. reflexivity.
Qed.

(** C8. When H is a multiple of Ty and W a multiple of Tx (tile sides
    positive), [cut_image_strided] returns a tile grid of shape
    (H/Ty, W/Tx, B, Ty, Tx), and putting every tile of that grid back at
    its grid position gives an array of the shape of the source with the
    same element at every index. *)
Theorem untile_cut_image_strided {A} (image : ndarray A) (B H W Ty Tx : nat) :
  shape image = [B; H; W] -> wf image -> 0 < Ty -> 0 < Tx ->
  H mod Ty = 0 -> W mod Tx = 0 ->
  exists tiles whole,
    result (cut_image_strided image (Ty, Tx)) = Ok tiles /\
    shape tiles = [H / Ty; W / Tx; B; Ty; Tx] /\
    untile tiles = Some whole /\
    shape whole = shape image /\
    forall b y x, b < B -> y < H -> x < W ->
      item whole [b; y; x] = item image [b; y; x].
Proof.
  intros Hsh Hwf HTy HTx HmH HmW.
  destruct (wf_strides3 _ _ _ _ Hsh Hwf) as (s0 & s1 & s2 & Hst).
  rewrite (cut_image_strided_eq image B H W s0 s1 s2 Ty Tx Hsh Hst HTy HTx).
  eexists. eexists. split; [reflexivity|]. split; [reflexivity|].
  assert (HH : H / Ty * Ty = H) by (pose proof (Nat.div_mod_eq H Ty); lia).
  assert (HW : W / Tx * Tx = W) by (pose proof (Nat.div_mod_eq W Tx); lia).
  unfold untile. cbn [shape]. split; [reflexivity|].
  cbn [shape fresh]. rewrite HH, HW, Hsh. split; [reflexivity|].
  intros b y x Hb Hy Hx. rewrite flat_fresh.
  rewrite (unravel_dot [B; H; W] [b; y; x]) by (apply in_bounds3; assumption).
  unfold item. cbn [offset buf strides dot]. rewrite Hst. cbn [dot]. f_equal.
  pose proof (Nat.div_mod_eq y Ty). pose proof (Nat.div_mod_eq x Tx). nia.
Qed.

(** ** The palette codec *)

Lemma flat_dot {A} (a : ndarray A) (idx : list nat) (k : nat) :
  in_bounds idx (shape a) = true -> k = dot idx (c_strides (shape a)) ->
  flat a k = item a idx.
Proof. intros Hb ->. unfold flat. rewrite unravel_dot by assumption. reflexivity. Qed.

Lemma in_bounds2 (r c h w : nat) : r < h -> c < w -> in_bounds [r; c] [h; w] = true.
Proof.
  intros Hr Hc. cbn [in_bounds].
  apply Nat.ltb_lt in Hr, Hc. rewrite Hr, Hc. reflexivity.
Qed.

Lemma reshape_rows_rgb (rgb : ndarray Z) (h w : nat) :
  shape rgb = [h; w; 3] ->
  reshape_rows rgb 3 = ret (fresh [h * w; 3] (flat rgb)).
Proof.
  intros Hsh. unfold reshape_rows, reshape, size. rewrite Hsh.
  replace (prod [h; w; 3]) with (h * w * 3) by (cbn [prod fold_right]; lia).
  rewrite Nat.Div0.mod_mul, Nat.div_mul by lia.
  cbn [Nat.eqb negb]. 
  replace (prod [h * w; 3]) with (h * w * 3) by (cbn [prod fold_right]; lia).
  rewrite Nat.eqb_refl. reflexivity.
Qed.

Lemma rows_item (rgb : ndarray Z) (h w r c j : nat) :
  shape rgb = [h; w; 3] -> r < h -> c < w -> j < 3 ->
  item (fresh [h * w; 3] (flat rgb)) [r * w + c; j] = item rgb [r; c; j].
Proof.
  intros Hsh Hr Hc Hj. rewrite flat_fresh. apply flat_dot.
  - rewrite Hsh. apply in_bounds3; assumption.
  - rewrite Hsh. cbn [dot c_strides prod fold_right]. lia.
Qed.

Lemma color_of_lt (i : nat) : i < 8 -> exists col, color_of i = Some col.
Proof.
  intros Hi.
  do 8 (destruct i as [| i]; [eexists; reflexivity|]). lia.
Qed.

Lemma dict_get_color (i : nat) (col : Z * Z * Z) :
  color_of i = Some col -> dict_get color_label_dict (Z.of_nat i) = ret col.
Proof.
  unfold color_of, dict_get.
  destruct (find _ color_label_dict) as [kv|]; simpl; congruence.
Qed.

Lemma triple_eqb_pixel (rgb : ndarray Z) (r c : nat) (col : Z * Z * Z) :
  triple_eqb (pixel rgb r c) col =
    Z.eqb (item rgb [r; c; 0]) (triple_nth col 0) &&
    (Z.eqb (item rgb [r; c; 1]) (triple_nth col 1) &&
     (Z.eqb (item rgb [r; c; 2]) (triple_nth col 2) && true)).
Proof. reflexivity. Qed.

Lemma onehot_channel_spec (rgb arr : ndarray Z) (h w i : nat) (col : Z * Z * Z) :
  shape rgb = [h; w; 3] -> shape arr = [h; w; 8] -> i < 8 -> color_of i = Some col ->
  exists arr',
    onehot_channel rgb [h; w; 8] arr i = ret arr' /\
    shape arr' = [h; w; 8] /\
    forall r c j, r < h -> c < w -> j < 8 ->
      item arr' [r; c; j] =
        if j =? i then (if triple_eqb (pixel rgb r c) col then 1 else 0)%Z
        else item arr [r; c; j].
Proof.
  intros Hrgb Harr Hi Hcol. unfold onehot_channel.
  rewrite (reshape_rows_rgb rgb h w Hrgb). mstep.
  rewrite (dict_get_color i col Hcol). mstep.
  unfold all_rows_eq. cbn [shape fresh]. mstep.
  unfold reshape, size. cbn [shape fresh take].
  replace (prod [h * w] =? prod [h; w]) with true
    by (symmetry; apply Nat.eqb_eq; cbn [prod fold_right]; lia).
  mstep. unfold set_channel. rewrite Harr.
  apply Nat.ltb_lt in Hi as Hi'. rewrite Hi'. cbn [negb shape fresh].
  rewrite bool_decide_eq_true_2 by reflexivity.
  eexists. split; [reflexivity|]. split; [reflexivity|].
  intros r c j Hr Hc Hj. rewrite flat_fresh.
  cbn [dot c_strides prod fold_right].
  replace (r * (w * (8 * 1)) + (c * (8 * 1) + (j * 1 + 0))) with (j + (r * w + c) * 8) by lia.
  rewrite Nat.Div0.mod_add, Nat.div_add, (Nat.mod_small j 8), (Nat.div_small j 8) by lia.
  cbn [Nat.add].
  destruct (j =? i).
  - rewrite (flat_dot _ [r; c]); [| apply in_bounds2; assumption | cbn; lia].
    rewrite flat_fresh.
    rewrite (flat_dot _ [r * w + c]);
      [| cbn [shape fresh in_bounds]; rewrite andb_true_r; apply Nat.ltb_lt; nia
       | cbn; lia].
    rewrite flat_fresh. cbn [dot c_strides prod fold_right forallb seq].
    replace ((r * w + c) * 1 + 0) with (r * w + c) by lia.
    rewrite !(rows_item rgb h w r c) by (assumption || lia).
    rewrite triple_eqb_pixel. reflexivity.
  - apply flat_dot.
    + rewrite Harr. apply in_bounds3; assumption.
    + rewrite Harr. cbn. lia.
Qed.

Lemma onehot_loop (rgb : ndarray Z) (h w : nat) (l : list (nat * (Z * (Z * Z * Z))))
    (arr : ndarray Z) :
  shape rgb = [h; w; 3] -> shape arr = [h; w; 8] ->
  Forall (fun icls => fst icls < 8) l ->
  exists arr',
    for_each l (fun arr icls => onehot_channel rgb [h; w; 8] arr (fst icls)) arr
      = ret arr' /\
    shape arr' = [h; w; 8] /\
    forall r c j, r < h -> c < w -> j < 8 ->
      item arr' [r; c; j] =
        if existsb (Nat.eqb j) (map fst l) then onehot_bit (pixel rgb r c) j
        else item arr [r; c; j].
Proof.
  intros Hrgb. revert arr.
  induction l as [| [i cls] l IH]; intros arr Harr Hall.
  - exists arr. repeat split; try assumption. 
  - inversion Hall as [| ? ? Hi Hall']; subst. cbn [fst] in Hi.
    destruct (color_of_lt i Hi) as [col Hcol].
    destruct (onehot_channel_spec rgb arr h w i col Hrgb Harr Hi Hcol)
      as (arr1 & Hstep & Hsh1 & Hit1).
    destruct (IH arr1 Hsh1 Hall') as (arr' & Hloop & Hsh' & Hit').
    exists arr'. cbn [for_each fst]. rewrite Hstep. mstep.
    repeat split; try assumption.
    intros r c j Hr Hc Hj. rewrite (Hit' r c j Hr Hc Hj).
    cbn [map fst existsb]. rewrite (Hit1 r c j Hr Hc Hj).
    destruct (existsb (Nat.eqb j) (map fst l)).
    + rewrite orb_true_r. reflexivity.
    + rewrite orb_false_r. destruct (Nat.eqb_spec j i) as [-> |]; [|reflexivity].
      unfold onehot_bit. rewrite Hcol. reflexivity.
Qed.

Lemma rgb_to_onehot_spec (rgb : ndarray Z) (h w : nat) :
  shape rgb = [h; w; 3] ->
  exists arr,
    rgb_to_onehot rgb = ret arr /\
    shape arr = [h; w; 8] /\
    forall r c j, r < h -> c < w -> j < 8 ->
      item arr [r; c; j] = onehot_bit (pixel rgb r c) j.
Proof.
  intros Hrgb. unfold rgb_to_onehot. rewrite Hrgb.
  change (take 2 [h; w; 3] ++ [length color_label_dict]) with [h; w; 8].
  destruct (onehot_loop rgb h w (enumerate color_label_dict) (zeros [h; w; 8]) Hrgb)
    as (arr & Hloop & Hsh & Hit).
  - reflexivity.
  - repeat constructor.
  - exists arr. repeat split; try assumption.
    intros r c j Hr Hc Hj. rewrite (Hit r c j Hr Hc Hj).
    do 8 (destruct j as [| j]; [reflexivity|]). lia.
Qed.

Lemma decode_mask_spec (rgb : ndarray Z) (h w : nat) :
  shape rgb = [h; w; 3] ->
  exists m,
    decode_mask rgb = ret m /\
    shape m = [h; w] /\
    forall r c, r < h -> c < w -> item m [r; c] = class_of_pixel (pixel rgb r c).
Proof.
  intros Hrgb. unfold decode_mask.
  destruct (rgb_to_onehot_spec rgb h w Hrgb) as (arr & Heq & Hsh & Hit).
  rewrite Heq. mstep. unfold argmax_axis2. rewrite Hsh. cbn [Nat.eqb].
  eexists. split; [reflexivity|]. split; [reflexivity|].
  intros r c Hr Hc. rewrite flat_fresh. cbn [dot c_strides prod fold_right].
  replace (r * (w * 1) + (c * 1 + 0)) with (c + r * w) by lia.
  rewrite Nat.div_add, Nat.Div0.mod_add, (Nat.div_small c w), (Nat.mod_small c w) by lia.
  cbn [Nat.add]. unfold class_of_pixel. do 2 f_equal.
  apply map_ext_in. intros j Hj. apply in_seq in Hj. apply Hit; lia.
Qed.

Lemma triple_eqb_eq (p q : Z * Z * Z) : triple_eqb p q = true -> p = q.
Proof.
  destruct p as [[a b] c], q as [[a' b'] c']. unfold triple_eqb.
  cbn [forallb seq triple_nth]. rewrite !andb_true_iff, !Z.eqb_eq.
  intros (-> & -> & -> & _). reflexivity.
Qed.

Lemma onehot_bit_unmatched (p : Z * Z * Z) (j : nat) :
  ~ in_palette p -> onehot_bit p j = 0%Z.
Proof.
  intros Hp. unfold onehot_bit, color_of.
  destruct (find _ color_label_dict) as [kv|] eqn:Hfind; cbn [fmap option_fmap option_map]; [|reflexivity].
  destruct (triple_eqb p (snd kv)) eqn:Heq; [|reflexivity].
  exfalso. apply Hp. exists kv. split.
  - apply find_some in Hfind. apply Hfind.
  - symmetry. apply triple_eqb_eq. assumption.
Qed.

(** C4. In an RGB image of shape (h, w, 3), a pixel whose colour is no
    palette colour is decoded ([rgb_to_onehot], then [argmax] over the
    class axis) to class 0, and the decoding returns without raising. *)
Theorem decode_unmatched_pixel (rgb : ndarray Z) (h w r c : nat) :
  shape rgb = [h; w; 3] -> r < h -> c < w -> ~ in_palette (pixel rgb r c) ->
  exists m,
    decode_mask rgb = ret m /\ shape m = [h; w] /\ item m [r; c] = 0%Z.
Proof.
  intros Hrgb Hr Hc Hp.
  destruct (decode_mask_spec rgb h w Hrgb) as (m & Heq & Hsh & Hit).
  exists m. repeat split; try assumption.
  rewrite (Hit r c Hr Hc). unfold class_of_pixel.
  cbn [seq map]. rewrite !(onehot_bit_unmatched _ _ Hp). reflexivity.
Qed.

(** ** [load_config] *)

(** What the code does when the document fails to parse: the [except]
    clause prints the parse failure, and control reaches [return config]
    with [config] never bound, so [UnboundLocalError] is raised inside
    [load_config]. *)
Lemma load_config_parse_failure {F} (W : world F) (configfile stream msg : string)
    (out0 out : list string) :
  read_text W configfile = (out0, Ok stream) ->
  safe_load W stream = (out, Raise (YAMLError msg)) ->
  load_config W configfile =
    (out0 ++ out ++ [msg], Raise (UnboundLocalError "config")).
Proof.
  intros Hread Hparse. unfold load_config. rewrite Hread. cbn [bind].
  rewrite Hparse. cbn [bind raise]. rewrite app_nil_r. reflexivity.
Qed.

Lemma load_config_parse_failure_witness :
  load_config demo_world "broken.yml" =
    (["while parsing a flow node: did not find expected node content"],
     Raise (UnboundLocalError "config")).
Proof.
  exact (load_config_parse_failure demo_world "broken.yml" "dataset: [" _ [] []
           eq_refl eq_refl).
Defined.

(** C3 (code bug). The [except] clause swallows the parse error so that
    [load_config] can go on to its [return], but the name it returns is
    bound only inside the [try]. On a file whose text the parser rejects,
    the parse failure is printed and then [load_config] itself raises
    [UnboundLocalError]: it does not return, and no caller gets to use an
    undefined configuration. *)
Theorem load_config_does_not_return :
  safe_load demo_world "dataset: [" =
    raise (YAMLError "while parsing a flow node: did not find expected node content") /\
  load_config demo_world "broken.yml" =
    (["while parsing a flow node: did not find expected node content"],
     Raise (UnboundLocalError "config")) /\
  ~ exists config, result (load_config demo_world "broken.yml") = Ok config.
Proof.
  split; [reflexivity|]. split.
  - exact (load_config_parse_failure demo_world "broken.yml" "dataset: [" _ [] []
             eq_refl eq_refl).
  - intros [config H]. vm_compute in H. discriminate.
Qed.

Lemma load_config_parse_success {F} (W : world F) (configfile stream : string)
    (out0 out : list string) (config : gmap string (gmap string string)) :
  read_text W configfile = (out0, Ok stream) ->
  safe_load W stream = (out, Ok config) ->
  load_config W configfile = (out0 ++ out, Ok config).
Proof.
  intros Hread Hparse. unfold load_config. rewrite Hread. cbn [bind].
  rewrite Hparse. cbn [bind ret]. rewrite app_nil_r. reflexivity.
Qed.

(** ** Loops *)

Lemma for_each_cons_ok {A S} (x : A) (xs : list A) (body : S -> A -> M S) (st st' : S) :
  result (for_each (x :: xs) body st) = Ok st' ->
  exists st1, result (body st x) = Ok st1 /\ result (for_each xs body st1) = Ok st'.
Proof. cbn [for_each]. apply result_bind_inv. Qed.

Lemma for_each_ok_in {A S} (l : list A) (body : S -> A -> M S) (st st' : S) :
  result (for_each l body st) = Ok st' ->
  forall x, x ∈ l -> exists s s1, result (body s x) = Ok s1.
Proof.
  revert st. induction l as [| y l IH]; intros st Hok x Hin.
  - inversion Hin.
  - apply for_each_cons_ok in Hok as (st1 & Hy & Hrest).
    apply elem_of_cons in Hin as [-> | Hin]; eauto.
Qed.

Lemma enumerate_lookup {A} (l : list A) (i : nat) (x : A) :
  l !! i = Some x -> enumerate l !! i = Some (i, x).
Proof.
  intros Hx. unfold enumerate. rewrite lookup_zip_with, Hx.
  rewrite lookup_seq_lt by (eapply lookup_lt_Some; eassumption).
  reflexivity.
Qed.

(** ** Inference mode *)

(** The loop over the rasters of one location can only complete on an
    empty list or on a list of exactly 24 names: 23 is the one index for
    which no successor is fetched. *)
Lemma test_pairs_ok_length {F} (W : world F) (N : arith F) (dir : string)
    (names : list string) (st st' : build F) :
  result (test_pairs W N dir names st) = Ok st' ->
  length names = 0 \/ length names = 24.
Proof.
  intros Hok. destruct (decide (length names = 0)) as [|Hne]; [left; assumption|].
  right. destruct (decide (length names = 24)) as [|Hne24]; [assumption|]. exfalso.
  destruct (lookup_lt_is_Some_2 names (length names - 1)) as [x Hx]; [lia|].
  unfold test_pairs in Hok.
  destruct (for_each_ok_in _ _ _ _ Hok (length names - 1, x)) as (s & s1 & Hbody).
  { apply list_elem_of_lookup. eexists. apply enumerate_lookup. eassumption. }
  cbn [fst snd] in Hbody.
  destruct (Nat.eqb_spec (length names - 1) 23) as [|_]; [lia|].
  cbn [negb] in Hbody. unfold list_get in Hbody.
  rewrite lookup_ge_None_2 in Hbody by lia.
  rewrite bind_raise in Hbody. discriminate.
Qed.

(** C2 at a location that holds three monthly rasters: the names are
    filtered and sorted, the pairs (0, 1) and (1, 2) are read, and at the
    last index, 2, the constructor fetches the name at index 3 and raises
    [IndexError]; the last index is not skipped, because the index that
    the code skips is the constant 23. *)
Theorem init_inference_three_rasters :
  natsorted demo_world
    (filter (fun n => str_contains "-01.tif" n)
       ["2018-01-01.tif"; "2018-02-01.tif"; "2018-03-01.tif"; "README.txt"])
    = ["2018-01-01.tif"; "2018-02-01.tif"; "2018-03-01.tif"] /\
  result (test_pairs demo_world demo_arith
            "test_boxes/10N_1311_3077_13/1311_3077_13/L3H-SR"
            ["2018-01-01.tif"; "2018-02-01.tif"; "2018-03-01.tif"] build0)
    = Raise IndexError /\
  result (init demo_world demo_arith (demo_config "labels") false) = Raise IndexError.
Proof.
  split; [reflexivity|]. split; vm_compute; reflexivity.
Qed.

(** ** Training mode: one label file *)

Lemma append_label_patches_ok (labels : list (ndarray Z)) (m : ndarray Z) :
  size m = 16 * 256 * 256 ->
  append_label_patches labels m = ret (labels ++ label_blocks m).
Proof.
  intros Hsz. unfold append_label_patches, reshape.
  replace (size m =? prod [16; 256; 256]) with true.
  - mstep. unfold append_each, shape_at. cbn [shape fresh lookup list_lookup].
    mstep. reflexivity.
  - symmetry. apply Nat.eqb_eq. rewrite Hsz. cbn [prod fold_right]. lia.
Qed.

Lemma append_label_patches_fail (labels : list (ndarray Z)) (m : ndarray Z) :
  size m <> 16 * 256 * 256 ->
  append_label_patches labels m = raise ValueError.
Proof.
  intros Hsz. unfold append_label_patches, reshape.
  replace (size m =? prod [16; 256; 256]) with false.
  - reflexivity.
  - symmetry. apply Nat.eqb_neq. cbn [prod fold_right]. lia.
Qed.

Lemma length_label_blocks (m : ndarray Z) : length (label_blocks m) = 16.
Proof. reflexivity. Qed.

Lemma grid_flatten_item {A} (P : ndarray A) (ny nx C ty tx p b y x : nat) :
  shape P = [ny; nx; C; ty; tx] -> p < ny * nx -> b < C -> y < ty -> x < tx ->
  item (subarray (fresh [ny * nx; C; ty; tx] (flat P)) p) [b; y; x]
    = item P [p / nx; p mod nx; b; y; x].
Proof.
  intros Hsh Hp Hb Hy Hx.
  assert (Hnx : 0 < nx) by nia.
  unfold subarray, item at 1.
  cbn [shape strides offset buf fresh tail hd c_strides prod fold_right dot].
  apply flat_dot; rewrite Hsh.
  - cbn [in_bounds].
    assert (H1 : p / nx < ny) by (apply Nat.Div0.div_lt_upper_bound; lia).
    assert (H2 : p mod nx < nx) by (apply Nat.mod_upper_bound; lia).
    apply Nat.ltb_lt in H1, H2, Hb, Hy, Hx. rewrite H1, H2, Hb, Hy, Hx. reflexivity.
  - cbn [dot c_strides prod fold_right].
    pose proof (Nat.div_mod_eq p nx) as Hdm.
    set (q := p / nx) in *. set (r := p mod nx) in *. rewrite Hdm. ring.
Qed.

Lemma append_image_patches_ok {A} (imgs : list (ndarray A)) (I : ndarray A)
    (H W C : nat) :
  shape I = [H; W; C] -> wf I ->
  result (append_image_patches imgs I) = Ok (imgs ++ raster_patches I).
Proof.
  intros Hsh Hwf.
  destruct (wf_strides3 _ _ _ _ Hsh Hwf) as (s0 & s1 & s2 & Hst).
  unfold append_image_patches, transpose_201. rewrite Hsh, Hst. mstep.
  erewrite result_bind_ok;
    [| rewrite (cut_image_strided_eq _ C H W s2 s0 s1 256 256) by (reflexivity || lia);
       reflexivity].
  unfold shape_at. cbn [shape lookup list_lookup drop]. msimpl.
  unfold reshape, size. cbn [shape].
  replace (prod [H / 256; W / 256; C; 256; 256] =? prod [H / 256 * (W / 256); C; 256; 256])
    with true by (symmetry; apply Nat.eqb_eq; cbn [prod fold_right]; ring).
  mstep. unfold append_each, shape_at. cbn [shape fresh lookup list_lookup]. mstep.
  unfold raster_patches, raster_grid. rewrite Hsh, Hst. reflexivity.
Qed.

Lemma length_raster_patches {A} (I : ndarray A) (H W C : nat) :
  shape I = [H; W; C] -> length (raster_patches I) = H / 256 * (W / 256).
Proof.
  intros Hsh. unfold raster_patches. rewrite Hsh. cbn [nth].
  rewrite length_map, length_seq. reflexivity.
Qed.

(** Patch [p] of a raster is its spatial tile at row [p / nx], column
    [p mod nx] of the grid, bands first. *)
Lemma raster_patches_item {A} (I : ndarray A) (H W C p b y x : nat) (t : ndarray A) :
  shape I = [H; W; C] -> wf I ->
  raster_patches I !! p = Some t -> b < C -> y < 256 -> x < 256 ->
  shape t = [C; 256; 256] /\
  item t [b; y; x] =
    item I [p / (W / 256) * 256 + y; p mod (W / 256) * 256 + x; b].
Proof.
  intros Hsh Hwf Hp Hb Hy Hx.
  destruct (wf_strides3 _ _ _ _ Hsh Hwf) as (s0 & s1 & s2 & Hst).
  unfold raster_patches in Hp. rewrite Hsh in Hp. cbn [nth] in Hp.
  apply list_lookup_fmap_Some in Hp as (q & -> & Hq).
  apply lookup_seq in Hq as [-> Hlt]. cbn [Nat.add] in *.
  split; [reflexivity|].
  rewrite (grid_flatten_item _ (H / 256) (W / 256) C 256 256 p b y x)
    by (try assumption; unfold raster_grid; rewrite Hsh; reflexivity).
  unfold item, raster_grid. cbn [offset buf strides dot].
  rewrite Hst. cbn [nth dot]. f_equal. ring.
Qed.

Lemma bind_assoc {A B C} (m : M A) (f : A -> M B) (g : B -> M C) :
  bind (bind m f) g = bind m (fun x => bind (f x) g).
Proof.
  destruct m as [out [a | e]]; cbn [bind]; [|reflexivity].
  destruct (f a) as [out1 [b | e1]]; cbn [bind]; [|reflexivity].
  destruct (g b) as [out2 r]. rewrite app_assoc. reflexivity.
Qed.

(** What [train_sample] does once the mask is decoded. *)
Lemma train_sample_decoded {F} (st : build F) (I1 I2 : ndarray F) (cm_rgb_np : ndarray Z) :
  train_sample st I1 I2 cm_rgb_np =
    bind (decode_mask cm_rgb_np) (fun cm_indices_np =>
      let '(n_pix0, n_pix1, n_pix2, n_pix3, n_pix4, n_pix5, n_pix6, n_pix7) := n_pixs st in
      let counts := compute_for_INS_weights cm_indices_np (n_pix st)
                      n_pix0 n_pix1 n_pix2 n_pix3 n_pix4 n_pix5 n_pix6 n_pix7 in
      let! labels := append_label_patches (labels st) cm_indices_np in
      let! imgs_1 := append_image_patches (imgs_1 st) I1 in
      let! imgs_2 := append_image_patches (imgs_2 st) I2 in
      ret (Build imgs_1 imgs_2 labels (n_pix st) counts)).
Proof. unfold train_sample, decode_mask. rewrite bind_assoc. reflexivity. Qed.

Lemma size_mask (m : ndarray Z) (h w : nat) : shape m = [h; w] -> size m = h * w.
Proof. intros Hsh. unfold size. rewrite Hsh. cbn [prod fold_right]. lia. Qed.

(** C10. For an RGB label of shape (h, w, 3), whatever the two rasters:
    if h * w is not 16 * 256 * 256 the step raises the reshape error
    ([ValueError]); if it is, and the rasters are 3-D arrays of shapes
    (H1, W1, C1) and (H2, W2, C2), the step returns, having appended
    exactly 16 label blocks, while the number of image patches it has
    appended is (H1/256) * (W1/256), respectively (H2/256) * (W2/256). *)
Theorem label_chunking_fixed {F} (st : build F) (I1 I2 : ndarray F) (cm_rgb_np : ndarray Z)
    (h w H1 W1 C1 H2 W2 C2 : nat) :
  shape cm_rgb_np = [h; w; 3] ->
  shape I1 = [H1; W1; C1] -> wf I1 -> shape I2 = [H2; W2; C2] -> wf I2 ->
  (h * w <> 16 * 256 * 256 ->
     result (train_sample st I1 I2 cm_rgb_np) = Raise ValueError) /\
  (h * w = 16 * 256 * 256 ->
     exists st',
       result (train_sample st I1 I2 cm_rgb_np) = Ok st' /\
       length (labels st') = length (labels st) + 16 /\
       length (imgs_1 st') = length (imgs_1 st) + H1 / 256 * (W1 / 256) /\
       length (imgs_2 st') = length (imgs_2 st) + H2 / 256 * (W2 / 256)).
Proof.
  intros Hrgb Hs1 Hwf1 Hs2 Hwf2.
  destruct (decode_mask_spec cm_rgb_np h w Hrgb) as (m & Hdec & Hsh & _).
  rewrite train_sample_decoded, Hdec. mstep.
  destruct (n_pixs st) as [[[[[[[n0 n1] n2] n3] n4] n5] n6] n7]. cbv zeta.
  split; intros Hsz.
  - rewrite append_label_patches_fail by (rewrite (size_mask m h w Hsh); assumption).
    reflexivity.
  - rewrite append_label_patches_ok by (rewrite (size_mask m h w Hsh); assumption).
    mstep.
    erewrite result_bind_ok by (eapply append_image_patches_ok; eassumption).
    erewrite result_bind_ok by (eapply append_image_patches_ok; eassumption).
    eexists. split; [reflexivity|]. cbn [labels imgs_1 imgs_2].
    rewrite !length_app, length_label_blocks.
    rewrite (length_raster_patches I1 H1 W1 C1 Hs1), (length_raster_patches I2 H2 W2 C2 Hs2).
    repeat split.
Qed.

Lemma train_sample_ok {F} (st : build F) (I1 I2 : ndarray F) (cm_rgb_np m : ndarray Z)
    (h w H1 W1 C1 H2 W2 C2 : nat) :
  shape cm_rgb_np = [h; w; 3] -> h * w = 16 * 256 * 256 ->
  shape I1 = [H1; W1; C1] -> wf I1 -> shape I2 = [H2; W2; C2] -> wf I2 ->
  decode_mask cm_rgb_np = ret m ->
  result (train_sample st I1 I2 cm_rgb_np) =
    Ok (Build (imgs_1 st ++ raster_patches I1) (imgs_2 st ++ raster_patches I2)
              (labels st ++ label_blocks m) (n_pix st)
              (add_counts (n_pix st) (n_pixs st) m)).
Proof.
  intros Hrgb Hsz Hs1 Hwf1 Hs2 Hwf2 Hdec.
  destruct (decode_mask_spec cm_rgb_np h w Hrgb) as (m' & Hdec' & Hsh & _).
  assert (m' = m) as -> by (rewrite Hdec in Hdec'; inversion Hdec'; reflexivity).
  rewrite train_sample_decoded, Hdec. mstep. unfold add_counts.
  destruct (n_pixs st) as [[[[[[[n0 n1] n2] n3] n4] n5] n6] n7]. cbv zeta.
  rewrite append_label_patches_ok by (rewrite (size_mask m h w Hsh); assumption).
  mstep.
  erewrite result_bind_ok by (eapply append_image_patches_ok; eassumption).
  erewrite result_bind_ok by (eapply append_image_patches_ok; eassumption).
  reflexivity.
Qed.

(** Block [p] of the label list is a run of 256 * 256 consecutive
    row-major cells of the mask, not a spatial tile of it. *)
Lemma label_blocks_item (m : ndarray Z) (p r c : nat) (blk : ndarray Z) :
  label_blocks m !! p = Some blk ->
  shape blk = [256; 256] /\
  item blk [r; c] = flat m (p * (256 * 256) + r * 256 + c).
Proof.
  intros Hp. unfold label_blocks in Hp.
  apply list_lookup_fmap_Some in Hp as (q & -> & Hq).
  apply lookup_seq in Hq as [-> _]. cbn [Nat.add].
  split; [reflexivity|].
  unfold subarray, item.
  cbn [shape strides offset buf fresh tail hd c_strides prod fold_right dot].
  f_equal. lia.
Qed.

Lemma spatial_tile_item {A} (m : ndarray A) (h w ty tx p y x : nat) :
  shape m = [h; w] -> y < ty -> x < tx ->
  item (spatial_tile m ty tx p) [y; x] =
    item m [p / (w / tx) * ty + y; p mod (w / tx) * tx + x].
Proof.
  intros Hsh Hy Hx. unfold spatial_tile. rewrite Hsh, flat_fresh.
  cbn [nth dot c_strides prod fold_right].
  replace (y * (tx * 1) + (x * 1 + 0)) with (x + y * tx) by lia.
  rewrite Nat.div_add, Nat.Div0.mod_add, (Nat.div_small x tx), (Nat.mod_small x tx) by lia.
  reflexivity.
Qed.

(** C1 on a 1024 x 1024 label whose pixel at row 0, column 256 has
    class 1 and whose pixel at row 1, column 0 has class 0, with two
    1024 x 1024 rasters. The three lists get 16 entries each; entry 0 of
    the two image lists is the spatial tile at grid position (0, 0), but
    entry 0 of the label list holds class 1 at row 1, column 0, where
    that spatial tile of the mask holds class 0: the label entries are
    runs of consecutive row-major cells, not spatial tiles. *)
Theorem demo_labels_are_not_spatial_tiles :
  exists st' m img1 img2 lab0,
    result (train_sample (@build0 Q) demo_raster demo_raster demo_rgb) = Ok st' /\
    decode_mask demo_rgb = ret m /\
    length (imgs_1 st') = 16 /\ length (imgs_2 st') = 16 /\ length (labels st') = 16 /\
    imgs_1 st' !! 0 = Some img1 /\ imgs_2 st' !! 0 = Some img2 /\
    labels st' !! 0 = Some lab0 /\
    (forall b y x, b < 4 -> y < 256 -> x < 256 ->
       item img1 [b; y; x] = item demo_raster [y; x; b] /\
       item img2 [b; y; x] = item demo_raster [y; x; b]) /\
    item lab0 [1; 0] = 1%Z /\
    item (spatial_tile m 256 256 0) [1; 0] = 0%Z.
Proof.
  destruct (decode_mask_spec demo_rgb 1024 1024 eq_refl) as (m & Hdec & Hsh & Hit).
  assert (Hsz : 1024 * 1024 = 16 * 256 * 256) by lia.
  pose proof (train_sample_ok build0 demo_raster demo_raster demo_rgb m
                1024 1024 1024 1024 4 1024 1024 4
                eq_refl Hsz eq_refl eq_refl eq_refl eq_refl Hdec) as Hok.
  assert (Hlen : length (raster_patches demo_raster) = 16)
    by (rewrite (length_raster_patches demo_raster 1024 1024 4 eq_refl); reflexivity).
  destruct (lookup_lt_is_Some_2 (raster_patches demo_raster) 0) as [img Himg];
    [rewrite Hlen; lia|].
  destruct (lookup_lt_is_Some_2 (label_blocks m) 0) as [lab0 Hlab];
    [rewrite length_label_blocks; lia|].
  assert (Himg_item : forall b y x, b < 4 -> y < 256 -> x < 256 ->
            item img [b; y; x] = item demo_raster [y; x; b]).
  { intros b y x Hb Hy Hx.
    destruct (raster_patches_item demo_raster 1024 1024 4 0 b y x img
                eq_refl eq_refl Himg Hb Hy Hx) as [_ ->].
    reflexivity. }
  eexists _, m, img, img, lab0.
  split; [exact Hok|]. cbn [imgs_1 imgs_2 labels].
  split; [exact Hdec|].
  split; [exact Hlen|]. split; [exact Hlen|].
  split; [apply length_label_blocks|].
  split; [exact Himg|]. split; [exact Himg|]. split; [exact Hlab|].
  split; [intros; split; apply Himg_item; assumption|].
  split.
  - destruct (label_blocks_item m 0 1 0 lab0 Hlab) as [_ ->].
    rewrite (flat_dot m [0; 256]) by (rewrite Hsh; reflexivity).
    rewrite Hit by lia. vm_compute. reflexivity.
  - rewrite (spatial_tile_item m 1024 1024 256 256 0 1 0 Hsh) by lia.
    change (item m [0 / (1024 / 256) * 256 + 1; 0 mod (1024 / 256) * 256 + 0])
      with (item m [1; 0]).
    rewrite Hit by lia. vm_compute. reflexivity.
Qed.

(** ** Training mode: the pixel counters *)

Lemma value_of_ok {A} (m : M A) (a : A) : result m = Ok a -> value_of m = Some a.
Proof. unfold value_of. intros ->. reflexivity. Qed.

Lemma count_at_add_counts (n : nat) (c : nat * nat * nat * nat * nat * nat * nat * nat)
    (m : ndarray Z) (k : nat) :
  k < 8 ->
  count_at (add_counts n c m) k = count_at c k + count_eq m (Z.of_nat k).
Proof.
  intros Hk. destruct c as [[[[[[[n0 n1] n2] n3] n4] n5] n6] n7].
  do 8 (destruct k as [| k]; [reflexivity|]). lia.
Qed.

Lemma train_file_inv {F} (W : world F) (N : arith F)
    (config : gmap string (gmap string string)) (dir file : string) (st st1 : build F) :
  result (train_file W N config dir st file) = Ok st1 ->
  exists m, file_mask W dir file = Some m /\
            n_pixs st1 = add_counts (n_pix st) (n_pixs st) m.
Proof.
  unfold train_file. intros H.
  apply result_bind_inv in H as (dataset & _ & H).
  apply result_bind_inv in H as (boxes & _ & H).
  apply result_bind_inv in H as (I12 & _ & H).
  apply result_bind_inv in H as (rgb & Hrgb & H).
  rewrite train_sample_decoded in H.
  apply result_bind_inv in H as (m & Hm & H).
  exists m. split.
  - unfold file_mask. rewrite (value_of_ok _ _ Hrgb). cbn [mbind option_bind].
    apply value_of_ok. assumption.
  - unfold add_counts.
    destruct (n_pixs st) as [[[[[[[n0 n1] n2] n3] n4] n5] n6] n7]. cbv zeta in H.
    apply result_bind_inv in H as (labs & _ & H).
    apply result_bind_inv in H as (i1 & _ & H).
    apply result_bind_inv in H as (i2 & _ & H).
    cbn [result ret snd] in H. inversion H. reflexivity.
Qed.

Lemma train_files_counts {F} (W : world F) (N : arith F)
    (config : gmap string (gmap string string)) (dir : string) (files : list string)
    (st st' : build F) (k : nat) :
  result (for_each files (train_file W N config dir) st) = Ok st' -> k < 8 ->
  count_at (n_pixs st') k =
    count_at (n_pixs st) k + total_count (omap (file_mask W dir) files) k.
Proof.
  intros Hok Hk. revert st Hok.
  induction files as [| f files IH]; intros st Hok.
  - cbn in Hok. inversion Hok. cbn. lia.
  - apply for_each_cons_ok in Hok as (st1 & Hf & Hrest).
    apply train_file_inv in Hf as (m & Hm & Hc).
    rewrite (IH st1 Hrest), Hc, count_at_add_counts by assumption.
    cbn [omap list_omap]. rewrite Hm. unfold total_count. cbn [sum_list_with]. lia.
Qed.

Lemma train_location_counts {F} (W : world F) (N : arith F)
    (config : gmap string (gmap string string)) (label_path location : string)
    (st st' : build F) (k : nat) :
  result (train_location W N config label_path st location) = Ok st' -> k < 8 ->
  count_at (n_pixs st') k =
    count_at (n_pixs st) k + total_count (location_masks W label_path location) k.
Proof.
  unfold train_location. intros H Hk.
  apply result_bind_inv in H as (files & Hfiles & H).
  unfold location_masks. rewrite (value_of_ok _ _ Hfiles).
  eapply train_files_counts; eassumption.
Qed.

Lemma total_count_app (l1 l2 : list (ndarray Z)) (k : nat) :
  total_count (l1 ++ l2) k = total_count l1 k + total_count l2 k.
Proof. unfold total_count. apply sum_list_with_app. Qed.

Lemma train_locations_counts {F} (W : world F) (N : arith F)
    (config : gmap string (gmap string string)) (label_path : string)
    (locations : list string) (st st' : build F) (k : nat) :
  result (for_each locations (train_location W N config label_path) st) = Ok st' ->
  k < 8 ->
  count_at (n_pixs st') k =
    count_at (n_pixs st) k + total_count (locations ≫= location_masks W label_path) k.
Proof.
  intros Hok Hk. revert st Hok.
  induction locations as [| loc locations IH]; intros st Hok.
  - cbn in Hok. inversion Hok. cbn. lia.
  - apply for_each_cons_ok in Hok as (st1 & Hloc & Hrest).
    rewrite (IH st1 Hrest).
    rewrite (train_location_counts W N config label_path loc st st1 k Hloc Hk).
    cbn [mbind list_bind]. rewrite total_count_app. lia.
Qed.

Lemma count_at_build0 {F} (k : nat) : count_at (n_pixs (@build0 F)) k = 0.
Proof. do 8 (destruct k as [| k]; [reflexivity|]). destruct k; reflexivity. Qed.

(** After the loops of training mode, counter [k] is the number of
    pixels of class [k] over all the label masks of the corpus. *)
Lemma train_loop_counts {F} (W : world F) (N : arith F)
    (config : gmap string (gmap string string)) (label_path : string)
    (st : build F) (k : nat) :
  result (train_loop W N config label_path) = Ok st -> k < 8 ->
  count_at (n_pixs st) k = total_count (corpus_masks W label_path) k.
Proof.
  unfold train_loop. intros H Hk.
  apply result_bind_inv in H as (locations & Hlocs & H).
  unfold corpus_masks. rewrite (value_of_ok _ _ Hlocs).
  rewrite (train_locations_counts W N config label_path locations build0 st k H Hk).
  rewrite count_at_build0. reflexivity.
Qed.

(** ** Training mode: the weights *)

Lemma py_truediv_pos {F} (N : arith F) (a b : nat) :
  0 < b -> py_truediv N a b = ret (int_truediv N a b).
Proof.
  intros Hb. unfold py_truediv. destruct (Nat.eqb_spec b 0); [lia | reflexivity].
Qed.

Lemma py_truediv_zero {F} (N : arith F) (a : nat) :
  py_truediv N a 0 = raise ZeroDivisionError.
Proof. reflexivity. Qed.

Lemma py_truediv_cases {F} (N : arith F) (a b : nat) :
  (b = 0 /\ py_truediv N a b = raise ZeroDivisionError) \/
  (0 < b /\ py_truediv N a b = ret (int_truediv N a b)).
Proof.
  destruct b as [| b]; [left | right]; split; try reflexivity; try lia.
Qed.

Lemma inverse_weights_cases {F} (N : arith F)
    (c : nat * nat * nat * nat * nat * nat * nat * nat) :
  ((exists k, k < 8 /\ count_at c k = 0) /\
   inverse_weights N c = raise ZeroDivisionError) \/
  ((forall k, k < 8 -> 0 < count_at c k) /\
   inverse_weights N c =
     ret (map (fun k => int_truediv N 1 (count_at c k)) (seq 0 8))).
Proof.
  destruct c as [[[[[[[n0 n1] n2] n3] n4] n5] n6] n7]. unfold inverse_weights.
  destruct (py_truediv_cases N 1 n0) as [[Hz ->] | [H0 ->]];
    [left; split; [exists 0; split; [lia | exact Hz] | reflexivity] | mstep].
  destruct (py_truediv_cases N 1 n1) as [[Hz ->] | [H1 ->]];
    [left; split; [exists 1; split; [lia | exact Hz] | reflexivity] | mstep].
  destruct (py_truediv_cases N 1 n2) as [[Hz ->] | [H2 ->]];
    [left; split; [exists 2; split; [lia | exact Hz] | reflexivity] | mstep].
  destruct (py_truediv_cases N 1 n3) as [[Hz ->] | [H3 ->]];
    [left; split; [exists 3; split; [lia | exact Hz] | reflexivity] | mstep].
  destruct (py_truediv_cases N 1 n4) as [[Hz ->] | [H4 ->]];
    [left; split; [exists 4; split; [lia | exact Hz] | reflexivity] | mstep].
  destruct (py_truediv_cases N 1 n5) as [[Hz ->] | [H5 ->]];
    [left; split; [exists 5; split; [lia | exact Hz] | reflexivity] | mstep].
  destruct (py_truediv_cases N 1 n6) as [[Hz ->] | [H6 ->]];
    [left; split; [exists 6; split; [lia | exact Hz] | reflexivity] | mstep].
  destruct (py_truediv_cases N 1 n7) as [[Hz ->] | [H7 ->]];
    [left; split; [exists 7; split; [lia | exact Hz] | reflexivity] | ].
  right. split; [| reflexivity].
  intros k Hk. do 8 (destruct k as [| k]; [assumption|]). lia.
Qed.

(** C5. When training-mode construction completes, every class has been
    seen ([total_count[k] > 0] for each of the 8 classes) and the stored
    weight table has 8 entries with [weights[k] = 1 / total_count[k]],
    where [total_count[k]] is the sum, over all the label masks the walk
    processed, of the number of pixels of class [k]. *)
Theorem init_train_weights {F} (W : world F) (N : arith F)
    (config : gmap string (gmap string string)) (ds : ChangeDetectionDataset F) :
  result (init W N config true) = Ok ds ->
  exists weights,
    ds_weights ds = Some weights /\ length weights = 8 /\
    forall k, k < 8 ->
      0 < total_count (corpus_masks W (ds_label_path ds)) k /\
      weights !! k =
        Some (int_truediv N 1 (total_count (corpus_masks W (ds_label_path ds)) k)).
Proof.
  unfold init. intros H.
  apply result_bind_inv in H as (dataset & _ & H).
  apply result_bind_inv in H as (label_path & _ & H).
  apply result_bind_inv in H as (st & Hloop & H).
  apply result_bind_inv in H as (weights & Hw & H).
  cbn [result ret snd] in H. inversion H; subst ds. clear H.
  cbn [ds_weights ds_label_path].
  destruct (inverse_weights_cases N (n_pixs st)) as [[_ Hz] | [Hpos Heq]].
  - rewrite Hz in Hw. discriminate.
  - rewrite Heq in Hw. cbn [result ret snd] in Hw. inversion Hw; subst weights.
    eexists. split; [reflexivity|]. split; [reflexivity|].
    intros k Hk.
    rewrite <- (train_loop_counts W N config label_path st k Hloop Hk).
    split; [apply Hpos; assumption|].
    do 8 (destruct k as [| k]; [reflexivity|]). lia.
Qed.

(** C6. If the loops of training mode complete and some class [k] of
    the 8 has no pixel in any label mask, the constructor raises
    [ZeroDivisionError] when it computes the weights: that exception is
    the result of [__init__]. *)
Theorem init_train_zero_class {F} (W : world F) (N : arith F)
    (config : gmap string (gmap string string)) (dataset : gmap string string)
    (label_path : string) (st : build F) (k : nat) :
  config !! "dataset" = Some dataset ->
  dataset !! "semi_supervised_labels_path" = Some label_path ->
  result (train_loop W N config label_path) = Ok st ->
  k < 8 -> total_count (corpus_masks W label_path) k = 0 ->
  result (init W N config true) = Raise ZeroDivisionError.
Proof.
  intros Hd Hl Hloop Hk Hzero. unfold init, subscript. rewrite Hd. mstep.
  rewrite Hl. mstep.
  rewrite (result_bind_ok _ _ st Hloop).
  destruct (inverse_weights_cases N (n_pixs st)) as [[_ Hz] | [Hpos _]].
  - rewrite Hz. reflexivity.
  - specialize (Hpos k Hk).
    rewrite (train_loop_counts W N config label_path st k Hloop Hk) in Hpos. lia.
Qed.

(** ** Training mode in the small world *)

Lemma count_eq_pos (m : ndarray Z) (h w r c : nat) (v : Z) :
  shape m = [h; w] -> r < h -> c < w -> item m [r; c] = v -> 0 < count_eq m v.
Proof.
  intros Hsh Hr Hc Hv. unfold count_eq, count_nonzero.
  assert (Hin : true ∈ filter (fun b : bool => b) (elements (eq_scalar m v))).
  { apply list_elem_of_filter. split; [exact I|].
    unfold elements. apply (list_elem_of_fmap_2' _ _ (r * w + c)).
    - apply elem_of_seq. unfold size. cbn [shape eq_scalar map_nd].
      rewrite Hsh. cbn [prod fold_right]. nia.
    - change (flat (eq_scalar m v) (r * w + c)) with (Z.eqb (flat m (r * w + c)) v).
      rewrite (flat_dot m [r; c]).
      + symmetry. apply Z.eqb_eq. assumption.
      + rewrite Hsh. apply in_bounds2; assumption.
      + rewrite Hsh. cbn [dot c_strides prod fold_right]. lia. }
  destruct (filter _ _) as [| b l].
  - inversion Hin.
  - cbn. lia.
Qed.

Lemma demo_mask_classes (m : ndarray Z) :
  decode_mask demo_rgb = ret m ->
  shape m = [1024; 1024] /\ forall k, k < 8 -> 0 < count_eq m (Z.of_nat k).
Proof.
  intros Hdec.
  destruct (decode_mask_spec demo_rgb 1024 1024 eq_refl) as (m' & Hdec' & Hsh & Hit).
  assert (m' = m) as -> by (rewrite Hdec in Hdec'; inversion Hdec'; reflexivity).
  split; [assumption|]. intros k Hk.
  apply (count_eq_pos m 1024 1024 0 k); [assumption | lia | lia |].
  rewrite Hit by lia.
  do 8 (destruct k as [| k]; [vm_compute; reflexivity|]). lia.
Qed.

Lemma demo_rasters_read :
  exists R1 R2,
    read_and_normalized_planet_images_from_cm demo_world demo_arith
      "10N_1311_3077_13_2018-01_2018-02.png" "boxes" = ret (R1, R2) /\
    shape R1 = [2; 2; 1] /\ wf R1 /\ shape R2 = [2; 2; 1] /\ wf R2.
Proof.
  destruct (read_and_normalized_planet_images_from_cm demo_world demo_arith
              "10N_1311_3077_13_2018-01_2018-02.png" "boxes")
    as [out [[R1 R2] | e]] eqn:Hread;
    pose proof Hread as Hnf; vm_compute in Hnf; [| discriminate].
  injection Hnf as Hout HR1 HR2. subst out R1 R2.
  eexists _, _. split; [reflexivity|]. repeat split.
Qed.

Lemma demo_init_train_ok :
  exists ds, result (init demo_world demo_arith (demo_config "labels") true) = Ok ds.
Proof.
  destruct (decode_mask_spec demo_rgb 1024 1024 eq_refl) as (m & Hdec & Hsh & _).
  destruct (demo_mask_classes m Hdec) as [_ Hpos].
  destruct demo_rasters_read as (R1 & R2 & Hread & Hs1 & Hwf1 & Hs2 & Hwf2).
  pose proof (train_sample_ok build0 R1 R2 demo_rgb m 1024 1024 2 2 1 2 2 1
                eq_refl ltac:(lia) Hs1 Hwf1 Hs2 Hwf2 Hdec) as Hsample.
  unfold init, subscript, demo_config.
  rewrite (lookup_singleton_eq (M := gmap string)). mstep.
  unfold demo_dataset at 1. rewrite lookup_insert_eq. mstep.
  unfold train_loop.
  change (listdir demo_world "labels") with (@ret (list string) ["10N_1311_3077_13"]).
  mstep. cbn [for_each]. unfold train_location.
  change (path_join "labels" "10N_1311_3077_13") with "labels/10N_1311_3077_13".
  change (listdir demo_world "labels/10N_1311_3077_13")
    with (@ret (list string) ["10N_1311_3077_13_2018-01_2018-02.png"]).
  mstep. cbn [for_each]. unfold train_file, subscript.
  rewrite (lookup_singleton_eq (M := gmap string)). mstep.
  unfold demo_dataset at 1.
  rewrite lookup_insert_ne by discriminate. rewrite lookup_insert_eq. mstep.
  rewrite Hread. mstep. cbn [fst snd].
  change (image_open_rgb demo_world
            (path_join "labels/10N_1311_3077_13" "10N_1311_3077_13_2018-01_2018-02.png"))
    with (@ret (ndarray Z) demo_rgb).
  mstep. rewrite !bind_assoc.
  rewrite (result_bind_ok _ _ _ Hsample). msimpl. cbn [n_pixs].
  destruct (inverse_weights_cases demo_arith
              (add_counts (n_pix (@build0 Q)) (n_pixs (@build0 Q)) m))
    as [[(k & Hk & Hz) _] | [_ ->]].
  - rewrite count_at_add_counts in Hz by assumption.
    specialize (Hpos k Hk). lia.
  - mstep. eexists. reflexivity.
Qed.

(** An instance of C5 in the small world: construction completes on a
    corpus of one label that shows all 8 classes. *)
Lemma init_train_weights_witness :
  exists ds weights,
    result (init demo_world demo_arith (demo_config "labels") true) = Ok ds /\
    ds_weights ds = Some weights /\ length weights = 8 /\
    forall k, k < 8 ->
      0 < total_count (corpus_masks demo_world (ds_label_path ds)) k /\
      weights !! k =
        Some (int_truediv demo_arith 1
                (total_count (corpus_masks demo_world (ds_label_path ds)) k)).
Proof.
  destruct demo_init_train_ok as [ds Hds].
  destruct (init_train_weights demo_world demo_arith (demo_config "labels") ds Hds)
    as (weights & Hw & Hlen & Hall).
  exists ds, weights.
  split; [exact Hds|]. split; [exact Hw|]. split; [exact Hlen|]. exact Hall.
Defined.

(** ** Instances in the small world *)

(** C7 on a 2-band 4 x 6 array cut into 3 x 4 tiles: one tile, the last
    row and the last two columns dropped, the diagnostic printed. *)
Lemma cut_image_strided_tiles_witness :
  exists tiles,
    result (cut_image_strided demo_small (3, 4)) = Ok tiles /\
    shape tiles = [1; 1; 2; 3; 4] /\
    item tiles [0; 0; 1; 2; 3] = item demo_small [1; 2; 3] /\
    stdout (cut_image_strided demo_small (3, 4)) = [not_multiple_msg].
Proof.
  destruct (cut_image_strided_tiles demo_small 2 4 6 3 4 eq_refl eq_refl)
    as (tiles & Hres & Hsh & Hitem & _ & _ & _ & _ & _ & Hout); [lia | lia |].
  exists tiles. split; [exact Hres|]. split; [exact Hsh|].
  split; [apply (Hitem 0 0 1 2 3); cbn; lia | exact Hout].
Defined.

(** C8 on the same array cut into 2 x 3 tiles: a 2 x 2 grid of tiles. *)
Lemma untile_cut_image_strided_witness :
  exists tiles whole,
    result (cut_image_strided demo_small (2, 3)) = Ok tiles /\
    shape tiles = [2; 2; 2; 2; 3] /\
    untile tiles = Some whole /\
    shape whole = [2; 4; 6] /\
    item whole [1; 3; 5] = item demo_small [1; 3; 5].
Proof.
  destruct (untile_cut_image_strided demo_small 2 4 6 2 3 eq_refl eq_refl)
    as (tiles & whole & Hres & Hgrid & Hun & Hsh & Hitem);
    [lia | lia | reflexivity | reflexivity |].
  exists tiles, whole. split; [exact Hres|]. split; [exact Hgrid|].
  split; [exact Hun|]. split; [exact Hsh|].
  apply Hitem; lia.
Defined.

Lemma demo_small_rgb_unmatched : ~ in_palette (pixel demo_small_rgb 1 0).
Proof.
  intros (kv & Hin & Hkv). cbn in Hin.
  repeat (destruct Hin as [<- | Hin]; [discriminate Hkv|]). exact Hin.
Qed.

(** C4 on a 2 x 2 image whose pixel at row 1, column 0 is (1, 2, 3). *)
Lemma decode_unmatched_pixel_witness :
  exists m, decode_mask demo_small_rgb = ret m /\ shape m = [2; 2] /\
            item m [1; 0] = 0%Z.
Proof.
  apply (decode_unmatched_pixel demo_small_rgb 2 2 1 0 eq_refl);
    [lia | lia | exact demo_small_rgb_unmatched].
Defined.

(** C10 in the small world: a 2 x 2 label is refused; a 1024 x 1024
    label gives 16 label blocks beside one 256 x 256 raster (1 patch) and
    one 1024 x 1024 raster (16 patches). *)
Lemma label_chunking_fixed_witness :
  result (train_sample (@build0 Q) demo_band demo_raster demo_small_rgb)
    = Raise ValueError /\
  exists st',
    result (train_sample (@build0 Q) demo_band demo_raster demo_rgb) = Ok st' /\
    length (labels st') = 16 /\ length (imgs_1 st') = 1 /\ length (imgs_2 st') = 16.
Proof.
  split.
  - apply (label_chunking_fixed build0 demo_band demo_raster demo_small_rgb
             2 2 256 256 1 1024 1024 4 eq_refl eq_refl eq_refl eq_refl eq_refl).
    lia.
  - destruct (label_chunking_fixed build0 demo_band demo_raster demo_rgb
                1024 1024 256 256 1 1024 1024 4 eq_refl eq_refl eq_refl eq_refl eq_refl)
      as [_ Hok].
    destruct Hok as (st' & Hres & Hl & H1 & H2); [lia|].
    exists st'. split; [exact Hres|]. split; [exact Hl|]. split; [exact H1 | exact H2].
Defined.

(** ** [mask2rgb] *)

(** C9 on a mask of one row and two columns holding classes 0 and 1:
    [np.squeeze] drops the row axis with the band axis, the boolean mask
    of shape (2,) no longer matches the first axis (length 1) of the
    (1, 2, 3) output, and [mask2rgb] raises [IndexError]; there is no
    RGB image to decode. On a 2 x 2 mask the round trip returns the
    classes. *)
Theorem mask2rgb_single_row_raises :
  item demo_row_mask [0; 0; 0] = 0%Z /\ item demo_row_mask [0; 0; 1] = 1%Z /\
  (forall garbage, result (mask2rgb garbage demo_row_mask) = Raise IndexError) /\
  (forall garbage,
     result (let! rgb := mask2rgb garbage demo_square_mask in
             let! m := decode_mask rgb in ret (elements m))
       = Ok [3; 7; 0; 5]%Z).
Proof.
  split; [reflexivity|]. split; [reflexivity|].
  split; intros garbage; vm_compute; reflexivity.
Qed.

Lemma squeeze_mask {A} (mask : ndarray A) (h w s0 s1 s2 : nat) :
  shape mask = [1; h; w] -> strides mask = [s0; s1; s2] ->
  squeeze mask =
    NDArray (if h =? 1 then (if w =? 1 then [] else [w])
             else (if w =? 1 then [h] else [h; w]))
            (if h =? 1 then (if w =? 1 then [] else [s2])
             else (if w =? 1 then [s1] else [s1; s2]))
            (offset mask) (buf mask).
Proof.
  intros Hsh Hst. unfold squeeze. rewrite Hsh, Hst.
  cbn -[Nat.eqb]. destruct (h =? 1), (w =? 1); reflexivity.
Qed.

Lemma item_rgb_pos (h w r c j : nat) :
  r < h -> c < w -> j < 3 ->
  in_bounds [r; c; j] [h; w; 3] = true /\
  dot [r; c; j] (c_strides [h; w; 3]) mod 3 = j.
Proof.
  intros Hr Hc Hj. split; [apply in_bounds3; assumption|].
  cbn [dot c_strides prod fold_right].
  replace (r * (w * (3 * 1)) + (c * (3 * 1) + (j * 1 + 0))) with (j + (r * w + c) * 3) by lia.
  rewrite Nat.Div0.mod_add. apply Nat.mod_small. assumption.
Qed.

Lemma setitem_bool_mask (arr mask : ndarray Z) (h w : nat) (key : Z) (v : Z * Z * Z) :
  shape arr = [h; w; 3] -> shape mask = [1; h; w] -> wf mask ->
  h <> 1 \/ w = 1 ->
  exists arr',
    setitem_bool arr (eq_scalar (squeeze mask) key) v = ret arr' /\
    shape arr' = [h; w; 3] /\
    forall r c j, r < h -> c < w -> j < 3 ->
      item arr' [r; c; j] =
        if Z.eqb (item mask [0; r; c]) key then triple_nth v j else item arr [r; c; j].
Proof.
  intros Harr Hsh Hwf Hcase.
  destruct (wf_strides3 _ _ _ _ Hsh Hwf) as (s0 & s1 & s2 & Hst).
  rewrite (squeeze_mask mask h w s0 s1 s2 Hsh Hst).
  unfold setitem_bool, ndim. cbn [shape eq_scalar map_nd]. rewrite Harr.
  destruct (Nat.eqb_spec h 1) as [-> | Hh]; destruct (Nat.eqb_spec w 1) as [-> | Hw].
  - (* a single pixel: the squeezed mask is 0-d *)
    cbn [length Nat.eqb]. rewrite bool_decide_eq_true_2 by reflexivity.
    match goal with
    | |- context [item ?bm []] =>
        change (item bm []) with (Z.eqb (buf mask (offset mask + 0)) key)
    end.
    eexists. split; [reflexivity|].
    assert (Hm : forall r c, r < 1 -> c < 1 ->
              item mask [0; r; c] = buf mask (offset mask + 0)).
    { intros r c Hr Hc. unfold item. rewrite Hst. cbn [dot]. f_equal. nia. }
    split.
    + destruct (Z.eqb _ key); [reflexivity | assumption].
    + intros r c j Hr Hc Hj. rewrite (Hm r c Hr Hc).
      destruct (Z.eqb _ key); [| reflexivity].
      rewrite flat_fresh. f_equal.
      apply (item_rgb_pos 1 1 r c j); assumption.
  - exfalso. destruct Hcase; congruence.
  - (* one column: the squeezed mask is 1-d *)
    cbn [length Nat.eqb Nat.ltb Nat.leb take].
    rewrite bool_decide_eq_true_2 by reflexivity. cbn [negb].
    rewrite bool_decide_eq_true_2 by reflexivity.
    eexists. split; [reflexivity|]. split; [reflexivity|].
    intros r c j Hr Hc Hj. rewrite flat_fresh.
    destruct (item_rgb_pos h 1 r c j Hr Hc Hj) as [Hb Hmod].
    rewrite Hmod, (unravel_dot [h; 1; 3] [r; c; j] Hb). cbn [take].
    match goal with
    | |- context [item (eq_scalar ?a key) ?idx] =>
        replace (item (eq_scalar a key) idx) with (Z.eqb (item mask [0; r; c]) key)
    end.
    + destruct (Z.eqb _ key); [reflexivity|].
      apply flat_dot; rewrite Harr; [assumption | reflexivity].
    + unfold item. cbn [offset buf strides dot eq_scalar map_nd]. rewrite Hst. cbn [dot].
      do 2 f_equal. nia.
  - (* the squeezed mask is 2-d *)
    cbn [length Nat.eqb Nat.ltb Nat.leb take].
    rewrite bool_decide_eq_true_2 by reflexivity. cbn [negb].
    rewrite bool_decide_eq_true_2 by reflexivity.
    eexists. split; [reflexivity|]. split; [reflexivity|].
    intros r c j Hr Hc Hj. rewrite flat_fresh.
    destruct (item_rgb_pos h w r c j Hr Hc Hj) as [Hb Hmod].
    rewrite Hmod, (unravel_dot [h; w; 3] [r; c; j] Hb). cbn [take].
    match goal with
    | |- context [item (eq_scalar ?a key) ?idx] =>
        replace (item (eq_scalar a key) idx) with (Z.eqb (item mask [0; r; c]) key)
    end.
    + destruct (Z.eqb _ key); [reflexivity|].
      apply flat_dot; rewrite Harr; [assumption | reflexivity].
    + unfold item. cbn [offset buf strides dot eq_scalar map_nd]. rewrite Hst. cbn [dot].
      do 2 f_equal.
Qed.

Lemma mask2rgb_loop (arr mask : ndarray Z) (h w : nat) (l : list Z) :
  shape arr = [h; w; 3] -> shape mask = [1; h; w] -> wf mask -> h <> 1 \/ w = 1 ->
  Forall (fun key => dict_get color_label_dict key = ret (color_for key)) l ->
  exists arr',
    for_each l (fun maskRGB key =>
        let! pixel_value := dict_get color_label_dict key in
        setitem_bool maskRGB (eq_scalar (squeeze mask) key) pixel_value) arr
      = ret arr' /\
    shape arr' = [h; w; 3] /\
    forall r c j, r < h -> c < w -> j < 3 ->
      item arr' [r; c; j] =
        if existsb (Z.eqb (item mask [0; r; c])) l
        then triple_nth (color_for (item mask [0; r; c])) j
        else item arr [r; c; j].
Proof.
  intros Harr Hsh Hwf Hcase Hall. revert arr Harr.
  induction Hall as [| key l Hkey Hall IH]; intros arr Harr.
  - exists arr. repeat split; assumption.
  - destruct (setitem_bool_mask arr mask h w key (color_for key) Harr Hsh Hwf Hcase)
      as (arr1 & Hstep & Hsh1 & Hit1).
    destruct (IH arr1 Hsh1) as (arr' & Hloop & Hsh' & Hit').
    exists arr'. cbn [for_each]. rewrite Hkey. mstep. rewrite Hstep. mstep.
    split; [assumption|]. split; [assumption|].
    intros r c j Hr Hc Hj. rewrite (Hit' r c j Hr Hc Hj), (Hit1 r c j Hr Hc Hj).
    cbn [existsb].
    destruct (existsb _ l); [rewrite orb_true_r; reflexivity|].
    rewrite orb_false_r.
    destruct (Z.eqb_spec (item mask [0; r; c]) key) as [-> |]; reflexivity.
Qed.

Lemma mask2rgb_spec (garbage : nat -> Z) (mask : ndarray Z) (h w : nat) :
  shape mask = [1; h; w] -> wf mask -> h <> 1 \/ w = 1 ->
  exists rgb,
    mask2rgb garbage mask = ret rgb /\
    shape rgb = [h; w; 3] /\
    forall r c j k, r < h -> c < w -> j < 3 -> k < 8 ->
      item mask [0; r; c] = Z.of_nat k ->
      item rgb [r; c; j] = triple_nth (color_for (Z.of_nat k)) j.
Proof.
  intros Hsh Hwf Hcase. unfold mask2rgb, shape_at. rewrite Hsh.
  cbn [lookup list_lookup]. msimpl.
  destruct (mask2rgb_loop (empty garbage [h; w; 3]) mask h w
              (map fst color_label_dict) eq_refl Hsh Hwf Hcase)
    as (arr' & Hloop & Hsh' & Hit).
  { repeat constructor. }
  rewrite Hloop. mstep. eexists. split; [reflexivity|].
  unfold astype_uint8. rewrite Hsh'. split; [reflexivity|].
  intros r c j k Hr Hc Hj Hk Hmv. rewrite flat_fresh.
  rewrite (flat_dot arr' [r; c; j]);
    [| rewrite Hsh'; apply in_bounds3; assumption | rewrite Hsh'; reflexivity].
  rewrite (Hit r c j Hr Hc Hj), Hmv.
  do 8 (destruct k as [| k];
        [do 3 (destruct j as [| j]; [reflexivity|]); lia|]).
  lia.
Qed.

(** X10 ([mask2rgb], lines 56-77, with the decoder of lines 153-154).
    The round trip of C9 on every mask of shape (1, h, w) that is not a
    single row of two or more columns: encoding with [mask2rgb] and
    decoding returns class [k] wherever the mask holds [k] in 0..7. *)
Lemma mask2rgb_decode_roundtrip (garbage : nat -> Z) (mask : ndarray Z) (h w : nat) :
  shape mask = [1; h; w] -> wf mask -> h <> 1 \/ w = 1 ->
  exists rgb m,
    mask2rgb garbage mask = ret rgb /\ decode_mask rgb = ret m /\
    shape m = [h; w] /\
    forall r c k, r < h -> c < w -> k < 8 ->
      item mask [0; r; c] = Z.of_nat k -> item m [r; c] = Z.of_nat k.
Proof.
  intros Hsh Hwf Hcase.
  destruct (mask2rgb_spec garbage mask h w Hsh Hwf Hcase) as (rgb & Henc & Hrgb & Hpix).
  destruct (decode_mask_spec rgb h w Hrgb) as (m & Hdec & Hm & Hit).
  exists rgb, m. repeat split; try assumption.
  intros r c k Hr Hc Hk Hmv. rewrite (Hit r c Hr Hc). unfold pixel.
  rewrite (Hpix r c 0 k), (Hpix r c 1 k), (Hpix r c 2 k) by (assumption || lia).
  do 8 (destruct k as [| k]; [reflexivity|]). lia.
Qed.

(** X11 ([mask2rgb], lines 71-75). A mask of shape (1, 1, w) with w
    other than 1 is refused with [IndexError], whatever it holds:
    [np.squeeze] drops the row axis together with the band axis. *)
Lemma mask2rgb_single_row (garbage : nat -> Z) (mask : ndarray Z) (w : nat) :
  shape mask = [1; 1; w] -> wf mask -> w <> 1 ->
  result (mask2rgb garbage mask) = Raise IndexError.
Proof.
  intros Hsh Hwf Hw.
  destruct (wf_strides3 _ _ _ _ Hsh Hwf) as (s0 & s1 & s2 & Hst).
  unfold mask2rgb, shape_at. rewrite Hsh. cbn [lookup list_lookup]. msimpl.
  rewrite (squeeze_mask mask 1 w s0 s1 s2 Hsh Hst). cbn [Nat.eqb].
  destruct (Nat.eqb_spec w 1) as [| _]; [contradiction|].
  cbn [map fst color_label_dict for_each].
  change (dict_get color_label_dict 0%Z) with (@ret (Z * Z * Z) (0, 0, 0)%Z). mstep.
  unfold setitem_bool at 1, ndim. cbn [shape eq_scalar map_nd empty fresh length Nat.eqb Nat.ltb Nat.leb take].
  rewrite bool_decide_eq_false_2 by congruence. reflexivity.
Qed.

(** * Further properties of [utils.py] *)

(** ** Tiling *)

(** X1. A raster of shape (H, W, C) contributes (H/256) * (W/256)
    patches, each of shape (C, 256, 256); patch [p] is the spatial tile
    at row [p / (W/256)], column [p mod (W/256)] of the tile grid, bands
    first: the flattened grid is in row-major order. *)
Theorem image_patches_are_row_major_tiles {A} (imgs : list (ndarray A)) (I : ndarray A)
    (H W C : nat) :
  shape I = [H; W; C] -> wf I ->
  exists tiles,
    result (append_image_patches imgs I) = Ok (imgs ++ tiles) /\
    length tiles = H / 256 * (W / 256) /\
    forall p t b y x, tiles !! p = Some t -> b < C -> y < 256 -> x < 256 ->
      shape t = [C; 256; 256] /\
      item t [b; y; x] =
        item I [p / (W / 256) * 256 + y; p mod (W / 256) * 256 + x; b].
Proof.
  intros Hsh Hwf. exists (raster_patches I).
  split; [apply (append_image_patches_ok imgs I H W C Hsh Hwf)|].
  split; [apply (length_raster_patches I H W C Hsh)|].
  intros p t b y x Hp Hb Hy Hx.
  apply (raster_patches_item I H W C p b y x t Hsh Hwf Hp Hb Hy Hx).
Qed.

Lemma image_patches_are_row_major_tiles_witness :
  exists tiles,
    result (append_image_patches [] demo_raster) = Ok tiles /\ length tiles = 16.
Proof.
  destruct (image_patches_are_row_major_tiles [] demo_raster 1024 1024 4 eq_refl eq_refl)
    as (tiles & Hres & Hlen & _).
  exists tiles. split; [exact Hres | exact Hlen].
Defined.

Lemma flat_mask (m : ndarray Z) (h w k : nat) :
  shape m = [h; w] -> k < h * w -> flat m k = item m [k / w; k mod w].
Proof.
  intros Hsh Hk. assert (Hw : 0 < w) by nia.
  apply flat_dot; rewrite Hsh.
  - apply in_bounds2; [apply Nat.Div0.div_lt_upper_bound; lia
                      | apply Nat.mod_upper_bound; lia].
  - cbn [dot c_strides prod fold_right]. pose proof (Nat.div_mod_eq k w). lia.
Qed.

(** X2. A class-index mask of shape (h, w) with h * w = 16 * 256 * 256
    contributes 16 label entries of shape (256, 256); cell [r, c] of
    entry [p] is the mask cell at row-major position
    p * 65536 + r * 256 + c, so an entry is a run of 65536 consecutive
    row-major cells of the mask. *)
Theorem label_patches_are_row_major_runs (labels : list (ndarray Z)) (m : ndarray Z)
    (h w : nat) :
  shape m = [h; w] -> h * w = 16 * 256 * 256 ->
  exists blocks,
    append_label_patches labels m = ret (labels ++ blocks) /\
    length blocks = 16 /\
    forall p blk r c, blocks !! p = Some blk -> r < 256 -> c < 256 ->
      shape blk = [256; 256] /\
      item blk [r; c] =
        item m [(p * (256 * 256) + r * 256 + c) / w;
                (p * (256 * 256) + r * 256 + c) mod w].
Proof.
  intros Hsh Hsz. exists (label_blocks m).
  split; [apply append_label_patches_ok; rewrite (size_mask m h w Hsh); exact Hsz|].
  split; [apply length_label_blocks|].
  intros p blk r c Hp Hr Hc.
  assert (Hlt : p < 16).
  { apply lookup_lt_Some in Hp. rewrite length_label_blocks in Hp. exact Hp. }
  destruct (label_blocks_item m p r c blk Hp) as [Hshape ->].
  split; [exact Hshape|]. apply (flat_mask m h w); [exact Hsh | lia].
Qed.

Lemma label_patches_are_row_major_runs_witness :
  exists blocks,
    append_label_patches [] (fresh [1024; 1024] (fun k => Z.of_nat k))
      = ret blocks /\ length blocks = 16.
Proof.
  destruct (label_patches_are_row_major_runs []
              (fresh [1024; 1024] (fun k => Z.of_nat k)) 1024 1024 eq_refl)
    as (blocks & Hres & Hlen & _); [lia|].
  exists blocks. split; [exact Hres | exact Hlen].
Defined.

Lemma tile_coordinate_unique (T i i' y y' : nat) :
  y < T -> y' < T -> i * T + y = i' * T + y' -> i = i' /\ y = y'.
Proof.
  intros Hy Hy' Heq.
  assert (Hi : i = (i * T + y) / T) by (apply (Nat.div_unique _ _ _ y); lia).
  assert (Hi' : i' = (i' * T + y') / T) by (apply (Nat.div_unique _ _ _ y'); lia).
  assert (i = i') as -> by (rewrite Hi, Hi', Heq; reflexivity).
  split; [reflexivity | lia].
Qed.

Lemma item_fresh_id_inj (sh idx idx' : list nat) :
  in_bounds idx sh = true -> in_bounds idx' sh = true ->
  item (fresh sh (fun k => k)) idx = item (fresh sh (fun k => k)) idx' -> idx = idx'.
Proof.
  intros Hb Hb' Heq. rewrite !flat_fresh in Heq.
  rewrite <- (unravel_dot sh idx Hb), <- (unravel_dot sh idx' Hb'), Heq. reflexivity.
Qed.

(** X3. The tiles of [cut_image_strided] do not overlap: when the cells
    of the source are pairwise distinct, so are the cells of the tile
    grid, that is, no source cell is seen through two tile cells. *)
Theorem cut_image_strided_tiles_disjoint {A} (image tiles : ndarray A)
    (B H W Ty Tx : nat) :
  shape image = [B; H; W] -> wf image -> 0 < Ty -> 0 < Tx ->
  (forall idx idx', in_bounds idx [B; H; W] = true -> in_bounds idx' [B; H; W] = true ->
     item image idx = item image idx' -> idx = idx') ->
  result (cut_image_strided image (Ty, Tx)) = Ok tiles ->
  forall i j b y x i' j' b' y' x',
    in_bounds [i; j; b; y; x] (shape tiles) = true ->
    in_bounds [i'; j'; b'; y'; x'] (shape tiles) = true ->
    item tiles [i; j; b; y; x] = item tiles [i'; j'; b'; y'; x'] ->
    [i; j; b; y; x] = [i'; j'; b'; y'; x'].
Proof.
  intros Hsh Hwf HTy HTx Hinj Hres.
  destruct (wf_strides3 _ _ _ _ Hsh Hwf) as (s0 & s1 & s2 & Hst).
  rewrite (cut_image_strided_eq image B H W s0 s1 s2 Ty Tx Hsh Hst HTy HTx) in Hres.
  cbn [result snd] in Hres. injection Hres as <-. cbn [shape].
  intros i j b y x i' j' b' y' x' Hb Hb' Heq.
  cbn [in_bounds] in Hb, Hb'. rewrite !andb_true_iff, !Nat.ltb_lt in Hb, Hb'.
  destruct Hb as (Hi & Hj & Hbb & Hy & Hx & _).
  destruct Hb' as (Hi' & Hj' & Hbb' & Hy' & Hx' & _).
  pose proof (Nat.div_mod_eq H Ty) as HH. pose proof (Nat.div_mod_eq W Tx) as HW.
  assert (Hsrc : [b; i * Ty + y; j * Tx + x] = [b'; i' * Ty + y'; j' * Tx + x']).
  { apply Hinj.
    - apply in_bounds3; [assumption | nia | nia].
    - apply in_bounds3; [assumption | nia | nia].
    - unfold item in *. cbn [offset buf strides dot] in Heq. rewrite Hst. cbn [dot].
      etransitivity; [| etransitivity; [exact Heq|]]; f_equal; ring. }
  injection Hsrc as -> Hr Hc.
  destruct (tile_coordinate_unique Ty i i' y y' Hy Hy' Hr) as [-> ->].
  destruct (tile_coordinate_unique Tx j j' x x' Hx Hx' Hc) as [-> ->].
  reflexivity.
Qed.

Lemma cut_image_strided_tiles_disjoint_witness :
  exists tiles,
    result (cut_image_strided demo_small (2, 3)) = Ok tiles /\
    (item tiles [0; 1; 1; 0; 2] = item tiles [1; 0; 0; 1; 1] -> False).
Proof.
  destruct (cut_image_strided demo_small (2, 3)) as [out [tiles | e]] eqn:Hcut;
    [| discriminate Hcut].
  exists tiles. split; [reflexivity|]. intros Heq.
  pose proof (cut_image_strided_tiles_disjoint demo_small tiles 2 4 6 2 3
                eq_refl eq_refl ltac:(lia) ltac:(lia)
                (item_fresh_id_inj [2; 4; 6])
                (f_equal snd Hcut)) as Hdis.
  injection Hcut as <- <-.
  specialize (Hdis 0 1 1 0 2 1 0 0 1 1 eq_refl eq_refl Heq). discriminate Hdis.
Defined.

(** X4. A tile side of zero makes [cut_image_strided] raise
    [ZeroDivisionError] at the floor division, before anything is
    printed. *)
Theorem cut_image_strided_zero_side {A} (image : ndarray A) (Ty Tx : nat) :
  3 <= ndim image -> Ty = 0 \/ Tx = 0 ->
  cut_image_strided image (Ty, Tx) = raise ZeroDivisionError.
Proof.
  intros Hnd Hz. unfold ndim in Hnd.
  destruct (shape image) as [| B [| H [| W sh]]] eqn:Hsh; cbn [length] in Hnd; try lia.
  unfold cut_image_strided, shape_at, floordiv. rewrite Hsh.
  cbn [lookup list_lookup fst snd]. msimpl.
  destruct (Nat.eqb_spec Tx 0) as [| HTx]; [reflexivity|]. mstep.
  destruct (Nat.eqb_spec Ty 0) as [| HTy]; [reflexivity|]. lia.
Qed.

Lemma cut_image_strided_zero_side_witness :
  cut_image_strided demo_small (3, 0) = raise ZeroDivisionError.
Proof.
  apply (cut_image_strided_zero_side demo_small 3 0); [cbn; lia | right; reflexivity].
Defined.

(** ** The palette decoder *)

Lemma class_of_palette_color (k : nat) (p : Z * Z * Z) :
  k < 8 -> color_of k = Some p -> class_of_pixel p = Z.of_nat k.
Proof.
  intros Hk Hp.
  do 8 (destruct k as [| k]; [injection Hp as <-; reflexivity|]). lia.
Qed.

(** X5. In an RGB image of shape (h, w, 3), a pixel that has the palette
    colour of class [k] is decoded to [k] (exact match of all three
    channels), whatever the other pixels hold. *)
Theorem decode_palette_pixel (rgb : ndarray Z) (h w r c k : nat) :
  shape rgb = [h; w; 3] -> r < h -> c < w -> k < 8 ->
  color_of k = Some (pixel rgb r c) ->
  exists m, decode_mask rgb = ret m /\ shape m = [h; w] /\
            item m [r; c] = Z.of_nat k.
Proof.
  intros Hrgb Hr Hc Hk Hcol.
  destruct (decode_mask_spec rgb h w Hrgb) as (m & Hdec & Hsh & Hit).
  exists m. split; [exact Hdec|]. split; [exact Hsh|].
  rewrite (Hit r c Hr Hc). apply class_of_palette_color; assumption.
Qed.

Lemma decode_palette_pixel_witness :
  exists m, decode_mask demo_small_rgb = ret m /\ shape m = [2; 2] /\
            item m [1; 1] = 7%Z.
Proof.
  apply (decode_palette_pixel demo_small_rgb 2 2 1 1 7 eq_refl);
    [lia | lia | lia | reflexivity].
Defined.

Lemma triple_eqb_refl (p : Z * Z * Z) : triple_eqb p p = true.
Proof.
  destruct p as [[a b] c]. unfold triple_eqb. cbn [forallb seq triple_nth].
  rewrite !Z.eqb_refl. reflexivity.
Qed.

Lemma onehot_bit_one (p : Z * Z * Z) (j : nat) :
  onehot_bit p j = 1%Z <-> color_of j = Some p.
Proof.
  unfold onehot_bit. destruct (color_of j) as [col|]; [| split; discriminate].
  destruct (triple_eqb p col) eqn:Heq.
  - apply triple_eqb_eq in Heq as ->. split; reflexivity.
  - split; [discriminate|]. intros [= ->]. rewrite triple_eqb_refl in Heq. discriminate.
Qed.

Lemma color_of_inj (j j' : nat) (p : Z * Z * Z) :
  color_of j = Some p -> color_of j' = Some p -> j = j'.
Proof.
  intros Hj Hj'.
  assert (Hlt : forall i q, color_of i = Some q -> i < 8).
  { intros i q Hi. unfold color_of in Hi.
    destruct (find _ color_label_dict) as [kv|] eqn:Hfind; [| discriminate Hi].
    apply find_some in Hfind as [Hin Hkey]. apply Z.eqb_eq in Hkey.
    cbn in Hin.
    repeat (destruct Hin as [<- | Hin]; [cbn [fst] in Hkey; lia|]).
    contradiction. }
  pose proof (Hlt j p Hj) as H8. pose proof (Hlt j' p Hj') as H8'.
  rewrite <- Hj' in Hj. clear Hj' Hlt.
  do 8 (destruct j as [| j];
        [do 8 (destruct j' as [| j']; [first [reflexivity | discriminate Hj]|]); lia|]).
  lia.
Qed.

(** X6. The array that [rgb_to_onehot] returns for an image of shape
    (h, w, 3) has shape (h, w, 8) and holds only 0 and 1; the bit of
    class [j] at a pixel is 1 exactly when the pixel has the palette
    colour of [j], so a row holds at most one 1. *)
Theorem rgb_to_onehot_rows (rgb : ndarray Z) (h w : nat) :
  shape rgb = [h; w; 3] ->
  exists arr,
    rgb_to_onehot rgb = ret arr /\ shape arr = [h; w; 8] /\
    forall r c, r < h -> c < w ->
      (forall j, j < 8 -> item arr [r; c; j] = 0%Z \/ item arr [r; c; j] = 1%Z) /\
      (forall j, j < 8 ->
         (item arr [r; c; j] = 1%Z <-> color_of j = Some (pixel rgb r c))) /\
      (forall j j', j < 8 -> j' < 8 ->
         item arr [r; c; j] = 1%Z -> item arr [r; c; j'] = 1%Z -> j = j').
Proof.
  intros Hrgb.
  destruct (rgb_to_onehot_spec rgb h w Hrgb) as (arr & Heq & Hsh & Hit).
  exists arr. split; [exact Heq|]. split; [exact Hsh|].
  intros r c Hr Hc. split; [| split].
  - intros j Hj. rewrite (Hit r c j Hr Hc Hj). unfold onehot_bit.
    destruct (color_of j) as [col|]; [destruct (triple_eqb _ col)|]; auto.
  - intros j Hj. rewrite (Hit r c j Hr Hc Hj). apply onehot_bit_one.
  - intros j j' Hj Hj'. rewrite (Hit r c j Hr Hc Hj), (Hit r c j' Hr Hc Hj').
    rewrite !onehot_bit_one. apply color_of_inj.
Qed.

Lemma rgb_to_onehot_rows_witness :
  exists arr, rgb_to_onehot demo_small_rgb = ret arr /\ shape arr = [2; 2; 8] /\
              item arr [0; 1; 1] = 1%Z.
Proof.
  destruct (rgb_to_onehot_rows demo_small_rgb 2 2 eq_refl) as (arr & Heq & Hsh & Hrows).
  exists arr. split; [exact Heq|]. split; [exact Hsh|].
  destruct (Hrows 0 1) as (_ & Hone & _); [lia | lia |].
  apply (Hone 1); [lia | reflexivity].
Defined.

(** ** The pixel counter *)

Lemma argmax_from_bound (l : list Z) (best_i : nat) (best : Z) (i : nat) :
  best_i < i -> argmax_from best_i best i l < i + length l.
Proof.
  revert best_i best i. induction l as [| x l IH]; intros best_i best i Hlt.
  - cbn. lia.
  - cbn [argmax_from length]. destruct (best <? x)%Z.
    + specialize (IH i x (S i)). lia.
    + specialize (IH best_i best (S i)). lia.
Qed.

Lemma class_of_pixel_range (p : Z * Z * Z) : (0 <= class_of_pixel p < 8)%Z.
Proof.
  unfold class_of_pixel. cbn [seq map argmax_list].
  match goal with
  | |- context [argmax_from 0 ?b 1 ?l] =>
      pose proof (argmax_from_bound l 0 b 1 ltac:(lia)) as Hb; cbn [length] in Hb
  end.
  lia.
Qed.

Lemma elements_eq_scalar (m : ndarray Z) (v : Z) :
  elements (eq_scalar m v) = map (fun x => (x =? v)%Z) (elements m).
Proof. unfold elements. rewrite map_map. reflexivity. Qed.

Lemma count_true_cons (b : bool) (l : list bool) :
  length (filter (fun b : bool => b) (b :: l)) =
    (if b then 1 else 0) + length (filter (fun b : bool => b) l).
Proof. destruct b; reflexivity. Qed.

Lemma class_counts_total (xs : list Z) :
  Forall (fun x => (0 <= x < 8)%Z) xs ->
  sum_list_with
    (fun k => length (filter (fun b : bool => b) (map (fun x => (x =? Z.of_nat k)%Z) xs)))
    (seq 0 8) = length xs.
Proof.
  induction 1 as [| x xs Hx _ IH]; [reflexivity|].
  cbn [seq sum_list_with map] in *. rewrite !count_true_cons. cbn [length].
  assert (Hcases : (x = 0 \/ x = 1 \/ x = 2 \/ x = 3 \/ x = 4 \/ x = 5 \/ x = 6 \/ x = 7)%Z)
    by lia.
  revert IH.
  repeat match goal with
         | |- context [length (filter ?f (map ?g xs))] =>
             generalize (length (filter f (map g xs))); intro
         end.
  intros IH.
  destruct Hcases as [-> | [-> | [-> | [-> | [-> | [-> | [-> | ->]]]]]]];
    cbv -[Nat.add length]; lia.
Qed.

Lemma decoded_elements_range (rgb m : ndarray Z) (h w : nat) :
  shape rgb = [h; w; 3] -> decode_mask rgb = ret m ->
  shape m = [h; w] /\ Forall (fun x => (0 <= x < 8)%Z) (elements m).
Proof.
  intros Hrgb Hdec.
  destruct (decode_mask_spec rgb h w Hrgb) as (m' & Hdec' & Hsh & Hit).
  assert (m' = m) as -> by (rewrite Hdec in Hdec'; inversion Hdec'; reflexivity).
  split; [exact Hsh|]. unfold elements. apply List.Forall_forall. intros x Hin.
  apply in_map_iff in Hin as (k & <- & Hk). apply in_seq in Hk.
  rewrite (size_mask m h w Hsh) in Hk.
  assert (Hw : 0 < w) by nia.
  rewrite (flat_mask m h w k Hsh) by lia.
  rewrite Hit; [apply class_of_pixel_range | | ].
  - apply Nat.Div0.div_lt_upper_bound. lia.
  - apply Nat.mod_upper_bound. lia.
Qed.

(** X7. A decoded label mask holds only the classes 0..7, so
    [compute_for_INS_weights] leaves no pixel uncounted: the eight
    counters it returns add up to the eight it was given plus h * w. *)
Theorem decoded_mask_counts_total (rgb : ndarray Z) (h w : nat)
    (n n0 n1 n2 n3 n4 n5 n6 n7 : nat) :
  shape rgb = [h; w; 3] ->
  exists m,
    decode_mask rgb = ret m /\
    (forall r c, r < h -> c < w -> (0 <= item m [r; c] < 8)%Z) /\
    sum_list (counts_list (compute_for_INS_weights m n n0 n1 n2 n3 n4 n5 n6 n7))
      = n0 + n1 + n2 + n3 + n4 + n5 + n6 + n7 + h * w.
Proof.
  intros Hrgb.
  destruct (decode_mask_spec rgb h w Hrgb) as (m & Hdec & Hsh & Hit).
  exists m. split; [exact Hdec|]. split.
  - intros r c Hr Hc. rewrite (Hit r c Hr Hc). apply class_of_pixel_range.
  - destruct (decoded_elements_range rgb m h w Hrgb Hdec) as [_ Hrange].
    pose proof (class_counts_total (elements m) Hrange) as Htot.
    assert (Hlen : length (elements m) = h * w).
    { unfold elements. rewrite length_map, length_seq. apply size_mask. exact Hsh. }
    rewrite Hlen in Htot. cbn [seq sum_list_with] in Htot.
    unfold compute_for_INS_weights, counts_list, count_eq, count_nonzero.
    cbn [sum_list sum_list_with]. rewrite !elements_eq_scalar.
    change (Z.of_nat 0) with 0%Z in Htot. change (Z.of_nat 1) with 1%Z in Htot.
    change (Z.of_nat 2) with 2%Z in Htot. change (Z.of_nat 3) with 3%Z in Htot.
    change (Z.of_nat 4) with 4%Z in Htot. change (Z.of_nat 5) with 5%Z in Htot.
    change (Z.of_nat 6) with 6%Z in Htot. change (Z.of_nat 7) with 7%Z in Htot.
    unfold id. lia.
Qed.

Lemma decoded_mask_counts_total_witness :
  exists m,
    decode_mask demo_small_rgb = ret m /\
    sum_list (counts_list (compute_for_INS_weights m 0 1 0 0 0 0 0 0 2)) = 7.
Proof.
  destruct (decoded_mask_counts_total demo_small_rgb 2 2 0 1 0 0 0 0 0 0 2 eq_refl)
    as (m & Hdec & _ & Hsum).
  exists m. split; [exact Hdec | exact Hsum].
Defined.

(** ** [inverse_ohe] *)

Lemma inverse_ohe_loop (ohe img : ndarray Z) (h w C : nat) (l : list nat) :
  shape ohe = [h; w; C] -> shape img = [h; w; 1] ->
  exists img',
    for_each l (fun inverse_ohe_img ch =>
      if negb (ndim ohe =? 3) then raise ValueError
      else
        ret (fresh (shape inverse_ohe_img) (fun k =>
               match unravel (shape inverse_ohe_img) k with
               | y :: x :: _ =>
                   if negb (item ohe [y; x; ch] =? 0)%Z then Z.of_nat ch
                   else flat inverse_ohe_img k
               | _ => flat inverse_ohe_img k
               end))) img = ret img' /\
    shape img' = [h; w; 1] /\
    forall r c, r < h -> c < w ->
      item img' [r; c; 0] =
        fold_left (fun acc ch => if negb (Z.eqb (item ohe [r; c; ch]) 0) then Z.of_nat ch
                                 else acc) l (item img [r; c; 0]).
Proof.
  intros Hohe. revert img. induction l as [| ch l IH]; intros img Himg.
  - exists img. repeat split; assumption.
  - cbn [for_each]. unfold ndim at 1. rewrite Hohe. cbn [length Nat.eqb negb].
    mstep. rewrite Himg.
    match goal with
    | |- context [for_each l _ ?a] => destruct (IH a eq_refl) as (img' & Hloop & Hsh & Hit)
    end.
    exists img'. split; [exact Hloop|]. split; [exact Hsh|].
    intros r c Hr Hc. rewrite (Hit r c Hr Hc). cbn [fold_left]. f_equal.
    rewrite flat_fresh.
    assert (Hb : in_bounds [r; c; 0] [h; w; 1] = true) by (apply in_bounds3; lia).
    rewrite (unravel_dot [h; w; 1] [r; c; 0] Hb).
    destruct (negb (Z.eqb (item ohe [r; c; ch]) 0)); [reflexivity|].
    apply flat_dot; rewrite Himg; [exact Hb | reflexivity].
Qed.

Lemma last_hot_is_first_max (p : Z * Z * Z) :
  fold_left (fun acc ch => if negb (Z.eqb (onehot_bit p ch) 0) then Z.of_nat ch else acc)
            (seq 0 8) 0%Z
    = class_of_pixel p.
Proof.
  unfold class_of_pixel. cbn [seq fold_left map]. unfold onehot_bit.
  change (color_of 0) with (Some (0, 0, 0)%Z).
  change (color_of 1) with (Some (128, 0, 0)%Z).
  change (color_of 2) with (Some (0, 128, 0)%Z).
  change (color_of 3) with (Some (128, 128, 0)%Z).
  change (color_of 4) with (Some (0, 0, 128)%Z).
  change (color_of 5) with (Some (128, 0, 128)%Z).
  change (color_of 6) with (Some (0, 128, 128)%Z).
  change (color_of 7) with (Some (128, 128, 128)%Z).
  cbv match.
  do 8 (match goal with
        | |- context [triple_eqb p ?col] =>
            destruct (triple_eqb p col) eqn:?H;
            [match goal with
             | H : triple_eqb p col = true |- _ =>
                 apply triple_eqb_eq in H; subst p; vm_compute; reflexivity
             end |]
        end).
  reflexivity.
Qed.

(** X8. [inverse_ohe] undoes [rgb_to_onehot] the way the constructor's
    [argmax] does: for an image of shape (h, w, 3) the two compose
    without raising into an (h, w, 3) array whose three channels all hold
    the class index of the pixel, 0 for a colour outside the palette. *)
Theorem inverse_ohe_of_onehot (rgb : ndarray Z) (h w : nat) :
  shape rgb = [h; w; 3] ->
  exists img m,
    (let! ohe := rgb_to_onehot rgb in inverse_ohe ohe) = ret img /\
    decode_mask rgb = ret m /\
    shape img = [h; w; 3] /\
    forall r c j, r < h -> c < w -> j < 3 -> item img [r; c; j] = item m [r; c].
Proof.
  intros Hrgb.
  destruct (rgb_to_onehot_spec rgb h w Hrgb) as (ohe & Hohe & Hsh & Hbits).
  destruct (decode_mask_spec rgb h w Hrgb) as (m & Hdec & Hm & Hit).
  rewrite Hohe. mstep. unfold inverse_ohe. rewrite Hsh.
  cbn [last take app]. mstep.
  destruct (inverse_ohe_loop ohe (zeros [h; w; 1]) h w 8 (seq 0 8) Hsh eq_refl)
    as (img' & Hloop & Hsh' & Hcells).
  rewrite Hloop. mstep. rewrite Hsh'.
  eexists _, m. split; [reflexivity|]. split; [exact Hdec|]. split; [reflexivity|].
  intros r c j Hr Hc Hj. rewrite flat_fresh.
  assert (Hb : in_bounds [r; c; j] [h; w; 1 * 3] = true) by (apply in_bounds3; lia).
  rewrite (unravel_dot [h; w; 1 * 3] [r; c; j] Hb).
  rewrite (Nat.div_small j 3 Hj), (Hcells r c Hr Hc), (Hit r c Hr Hc).
  rewrite <- last_hot_is_first_max.
  change (item (zeros [h; w; 1]) [r; c; 0]) with 0%Z.
  cbn [seq fold_left].
  rewrite !Hbits by lia. reflexivity.
Qed.

Lemma inverse_ohe_of_onehot_witness :
  exists img m,
    (let! ohe := rgb_to_onehot demo_small_rgb in inverse_ohe ohe) = ret img /\
    decode_mask demo_small_rgb = ret m /\ shape img = [2; 2; 3] /\
    item img [1; 1; 2] = item m [1; 1].
Proof.
  destruct (inverse_ohe_of_onehot demo_small_rgb 2 2 eq_refl)
    as (img & m & Hinv & Hdec & Hsh & Hcells).
  exists img, m. split; [exact Hinv|]. split; [exact Hdec|]. split; [exact Hsh|].
  apply Hcells; lia.
Defined.

(** X9. A one-hot array that is not 3-D is refused: when its last axis
    is not empty, [inverse_ohe] raises [ValueError] at the first
    unpacking of [np.where]. *)
Theorem inverse_ohe_not_3d (ohe : ndarray Z) (n : nat) :
  ndim ohe <> 3 -> last (shape ohe) = Some (S n) ->
  result (inverse_ohe ohe) = Raise ValueError.
Proof.
  intros Hnd Hlast. unfold inverse_ohe. rewrite Hlast. mstep.
  cbn [seq for_each].
  destruct (Nat.eqb_spec (ndim ohe) 3) as [| _]; [contradiction|]. reflexivity.
Qed.

Lemma inverse_ohe_not_3d_witness :
  result (inverse_ohe (zeros [2; 8])) = Raise ValueError.
Proof.
  apply (inverse_ohe_not_3d (zeros [2; 8]) 7); [cbn; lia | reflexivity].
Defined.

(** ** [mask2rgb], continued *)

(** An instance of X10: the 2 x 2 mask of classes 3, 7, 0 and 5. *)
Lemma mask2rgb_decode_roundtrip_witness :
  exists rgb m,
    mask2rgb (fun _ => 0%Z) demo_square_mask = ret rgb /\ decode_mask rgb = ret m /\
    shape m = [2; 2] /\ item m [1; 1] = 5%Z.
Proof.
  destruct (mask2rgb_decode_roundtrip (fun _ => 0%Z) demo_square_mask 2 2
              eq_refl eq_refl)
    as (rgb & m & Henc & Hdec & Hsh & Hcells); [left; lia|].
  exists rgb, m. split; [exact Henc|]. split; [exact Hdec|]. split; [exact Hsh|].
  apply (Hcells 1 1 5); [lia | lia | lia | reflexivity].
Defined.

(** An instance of X11: the mask of one row and two columns. *)
Lemma mask2rgb_single_row_witness :
  result (mask2rgb (fun _ => 0%Z) demo_row_mask) = Raise IndexError.
Proof.
  apply (mask2rgb_single_row (fun _ => 0%Z) demo_row_mask 2 eq_refl eq_refl). lia.
Defined.

(** ** Inference mode, continued *)

Lemma result_for_each_cons {A S} (x : A) (xs : list A) (body : S -> A -> M S)
    (st st1 : S) :
  result (body st x) = Ok st1 ->
  result (for_each (x :: xs) body st) = result (for_each xs body st1).
Proof. intros H. cbn [for_each]. apply result_bind_ok. exact H. Qed.

Lemma for_each_preserves {A S} (P : S -> Prop) (l : list A) (body : S -> A -> M S)
    (st st' : S) :
  (forall s x s', result (body s x) = Ok s' -> P s -> P s') ->
  P st -> result (for_each l body st) = Ok st' -> P st'.
Proof.
  intros Hstep. revert st. induction l as [| x l IH]; intros st HP Hok.
  - cbn in Hok. inversion Hok. subst. exact HP.
  - apply for_each_cons_ok in Hok as (st1 & Hx & Hrest).
    eapply IH; [| exact Hrest]. eapply Hstep; eassumption.
Qed.

Lemma standardize_shape {F} (N : arith F) (I : ndarray F) :
  shape (standardize N I) = shape I /\ (wf I -> wf (standardize N I)).
Proof. split; [reflexivity | intros H; exact H]. Qed.

Lemma test_patches_read {F} (W : world F) (N : arith F) (dir name : string)
    (I : ndarray F) :
  result (imread W (path_join dir name)) = Ok I ->
  test_patches W N dir name = raster_patches (standardize N I).
Proof. intros H. unfold test_patches. rewrite (value_of_ok _ _ H). reflexivity. Qed.

Lemma test_pairs_from {F} (W : world F) (N : arith F) (dir : string)
    (names : list string) :
  length names = 24 ->
  Forall (fun name => readable_raster W (path_join dir name)) names ->
  forall suffix i st,
    drop i names = suffix ->
    exists st',
      result (for_each (zip (seq i (length suffix)) suffix) (fun st it =>
        let idx := fst it in
        let test_file_name := snd it in
        if negb (idx =? 23) then
          let original_image_path := path_join dir test_file_name in
          let! next_name := list_get names (idx + 1) in
          let changed_image_path := path_join dir next_name in
          let! I1 := imread W original_image_path in
          let! I2 := imread W changed_image_path in
          let I1 := standardize N I1 in
          let I2 := standardize N I2 in
          let! imgs_1 := append_image_patches (imgs_1 st) I1 in
          let! imgs_2 := append_image_patches (imgs_2 st) I2 in
          ret (Build imgs_1 imgs_2 (labels st) (n_pix st) (n_pixs st))
        else ret st) st) = Ok st' /\
      imgs_1 st' = imgs_1 st ++ (take (23 - i) suffix ≫= test_patches W N dir) /\
      imgs_2 st' =
        imgs_2 st ++ (take (23 - i) (drop (S i) names) ≫= test_patches W N dir).
Proof.
  intros Hlen Hread suffix.
  induction suffix as [| name suffix IH]; intros i st Hdrop.
  - exists st. split; [reflexivity|].
    assert (24 <= i).
    { destruct (le_lt_dec 24 i) as [|Hlt]; [assumption|].
      apply (f_equal length) in Hdrop. rewrite length_drop in Hdrop. cbn in Hdrop. lia. }
    replace (23 - i) with 0 by lia. cbn. rewrite !app_nil_r. split; reflexivity.
  - assert (Hi : names !! i = Some name).
    { assert (Hd0 : drop i names !! 0 = Some name) by (rewrite Hdrop; reflexivity).
      rewrite lookup_drop, Nat.add_0_r in Hd0. exact Hd0. }
    assert (Hrest : drop (S i) names = suffix).
    { pose proof (drop_S names name i Hi) as Hd0. rewrite Hdrop in Hd0.
      inversion Hd0. reflexivity. }
    assert (Hlt : i < 24) by (apply lookup_lt_Some in Hi; lia).
    cbn [length seq zip_with].
    destruct (Nat.eqb_spec i 23) as [-> | Hne].
    + erewrite result_for_each_cons by (cbn [fst snd Nat.eqb negb]; reflexivity).
      destruct (IH 24 st Hrest) as (st' & Hok & H1 & H2).
      exists st'. split; [exact Hok|]. cbn in H1, H2. cbn. split; assumption.
    + destruct suffix as [| next suffix'].
      { apply (f_equal length) in Hrest. rewrite length_drop in Hrest. cbn in Hrest. lia. }
      assert (Hnext : names !! (i + 1) = Some next).
      { assert (Hd0 : drop (S i) names !! 0 = Some next) by (rewrite Hrest; reflexivity).
        rewrite lookup_drop in Hd0. replace (S i + 0) with (i + 1) in Hd0 by lia.
        exact Hd0. }
      pose proof (proj1 (List.Forall_forall _ _) Hread) as Hall.
      destruct (Hall name) as (I1 & H1 & W1 & C1 & Hr1 & Hs1 & Hwf1).
      { apply list_elem_of_In. eapply list_elem_of_lookup_2. exact Hi. }
      destruct (Hall next) as (I2 & H2 & W2 & C2 & Hr2 & Hs2 & Hwf2).
      { apply list_elem_of_In. eapply list_elem_of_lookup_2. exact Hnext. }
      erewrite result_for_each_cons.
      2:{ cbn [fst snd]. rewrite (proj2 (Nat.eqb_neq i 23) Hne). cbn [negb].
          unfold list_get. rewrite Hnext. mstep.
          rewrite (result_bind_ok _ _ I1 Hr1), (result_bind_ok _ _ I2 Hr2).
          erewrite result_bind_ok
            by (apply (append_image_patches_ok _ (standardize N I1) H1 W1 C1);
                [exact Hs1 | exact Hwf1]).
          erewrite result_bind_ok
            by (apply (append_image_patches_ok _ (standardize N I2) H2 W2 C2);
                [exact Hs2 | exact Hwf2]).
          reflexivity. }
      match goal with
      | |- context [for_each _ _ ?s] => destruct (IH (S i) s Hrest) as (st' & Hok & Hi1 & Hi2)
      end.
      exists st'. split; [exact Hok|]. cbn [imgs_1 imgs_2] in Hi1, Hi2.
      rewrite Hi1, Hi2, Hrest.
      replace (23 - i) with (S (23 - S i)) by lia.
      assert (Hd : drop (S (S i)) names = suffix').
      { replace (i + 1) with (S i) in Hnext by lia.
        pose proof (drop_S names next (S i) Hnext) as Hd0. rewrite Hrest in Hd0.
        inversion Hd0. reflexivity. }
      rewrite Hd.
      rewrite <- (test_patches_read W N dir name I1 Hr1).
      rewrite <- (test_patches_read W N dir next I2 Hr2).
      destruct suffix' as [| x xs]; cbn [take mbind list_bind];
        rewrite <- !app_assoc; split; try reflexivity.
Qed.

(** X13 ([ChangeDetectionDataset.__init__], lines 184-202). On a location
    that lists exactly 24 rasters, each of which [io.imread] reads as a
    three-axis array, the loop completes and pairs consecutive rasters:
    the before list gains the patches of rasters 0..22, the after list
    the patches of rasters 1..23, both in list order, so the patches of
    raster [i] and of raster [i + 1] sit at the same positions; labels and
    counters are untouched. *)
Theorem test_pairs_consecutive {F} (W : world F) (N : arith F) (dir : string)
    (names : list string) (st : build F) :
  length names = 24 ->
  Forall (fun name => readable_raster W (path_join dir name)) names ->
  exists st',
    result (test_pairs W N dir names st) = Ok st' /\
    imgs_1 st' = imgs_1 st ++ (take 23 names ≫= test_patches W N dir) /\
    imgs_2 st' = imgs_2 st ++ (drop 1 names ≫= test_patches W N dir) /\
    labels st' = labels st /\ n_pixs st' = n_pixs st.
Proof.
  intros Hlen Hread.
  destruct (test_pairs_from W N dir names Hlen Hread names 0 st eq_refl)
    as (st' & Hok & H1 & H2).
  exists st'. split; [exact Hok|].
  split; [exact H1|].
  split.
  { rewrite H2. rewrite take_ge; [reflexivity|]. rewrite length_drop. lia. }
  unfold test_pairs, enumerate.
  refine (for_each_preserves
            (fun s => labels s = labels st /\ n_pixs s = n_pixs st) _ _ st st'
            _ (conj eq_refl eq_refl) Hok).
  intros s [idx name] s' Hbody [Hl Hn]. cbn [fst snd] in Hbody.
  destruct (negb (idx =? 23)).
  - apply result_bind_inv in Hbody as (next & _ & Hbody).
    apply result_bind_inv in Hbody as (I1 & _ & Hbody).
    apply result_bind_inv in Hbody as (I2 & _ & Hbody).
    apply result_bind_inv in Hbody as (l1 & _ & Hbody).
    apply result_bind_inv in Hbody as (l2 & _ & Hbody).
    inversion Hbody. subst s'. split; assumption.
  - inversion Hbody. subst s'. split; assumption.
Qed.

Lemma year_rasters_readable (dir : string) :
  Forall (fun name => readable_raster year_world (path_join dir name)) demo_months.
Proof.
  apply List.Forall_forall. intros name _.
  exists demo_band, 256, 256, 1.
  split; [reflexivity|]. split; reflexivity.
Qed.

Lemma year_filter_sorted :
  natsorted year_world (filter (fun n => str_contains "-01.tif" n) demo_months) =
  demo_months.
Proof. vm_compute. reflexivity. Qed.

Lemma year_init_ok :
  exists ds, result (init year_world demo_arith (demo_config "labels") false) = Ok ds.
Proof.
  destruct (test_pairs_from year_world demo_arith "test_boxes/10N/1311_3077_13/L3H-SR"
              demo_months eq_refl (year_rasters_readable _) demo_months 0 build0 eq_refl)
    as (st' & Hok & _).
  unfold init, subscript, demo_config.
  rewrite (lookup_singleton_eq (M := gmap string)). mstep.
  unfold demo_dataset at 1. rewrite lookup_insert_eq. mstep.
  unfold test_loop.
  change (listdir year_world "labels") with (@ret (list string) ["10N"]).
  mstep. cbn [for_each]. unfold test_lat, subscript.
  rewrite (lookup_singleton_eq (M := gmap string)). mstep.
  unfold demo_dataset at 1.
  rewrite lookup_insert_ne by discriminate.
  rewrite lookup_insert_ne by discriminate.
  rewrite (lookup_singleton_eq (M := gmap string)). mstep.
  change (path_join "test_boxes" "10N") with "test_boxes/10N".
  change (isfile year_world "test_boxes/10N") with false. cbn [negb].
  change (listdir year_world "test_boxes/10N") with (@ret (list string) ["1311_3077_13"]).
  mstep. cbn [for_each]. unfold test_location.
  change (path_join (path_join "test_boxes/10N" "1311_3077_13") "L3H-SR")
    with "test_boxes/10N/1311_3077_13/L3H-SR".
  change (listdir year_world "test_boxes/10N/1311_3077_13/L3H-SR")
    with (@ret (list string) demo_months).
  mstep. rewrite year_filter_sorted.
  rewrite !bind_assoc.
  unfold test_pairs, enumerate.
  rewrite (result_bind_ok _ _ _ Hok). msimpl.
  eexists. reflexivity.
Qed.

(** An instance of X13: the 24 monthly rasters of the one-location world. *)
Lemma test_pairs_consecutive_witness :
  exists st',
    result (test_pairs year_world demo_arith "test_boxes/10N/1311_3077_13/L3H-SR"
              demo_months build0) = Ok st' /\
    imgs_1 st' =
      imgs_1 (@build0 Q) ++
      (take 23 demo_months ≫=
         test_patches year_world demo_arith "test_boxes/10N/1311_3077_13/L3H-SR") /\
    imgs_2 st' =
      imgs_2 (@build0 Q) ++
      (drop 1 demo_months ≫=
         test_patches year_world demo_arith "test_boxes/10N/1311_3077_13/L3H-SR") /\
    labels st' = labels (@build0 Q) /\ n_pixs st' = n_pixs (@build0 Q).
Proof.
  apply (test_pairs_consecutive year_world demo_arith
           "test_boxes/10N/1311_3077_13/L3H-SR" demo_months build0).
  - reflexivity.
  - apply year_rasters_readable.
Defined.

(** X14 ([ChangeDetectionDataset.__init__], lines 175-202). Inference-mode
    construction returns only if every location folder it visits holds
    either no raster whose name contains [-01.tif] or exactly 24 of them:
    with any other number the last raster is asked for a successor and
    the constructor raises. *)
Theorem init_inference_needs_24 {F} (W : world F) (N : arith F)
    (config : gmap string (gmap string string)) (ds : ChangeDetectionDataset F)
    (dataset : gmap string string) (label_path test_boxes lat location : string)
    (lats locations names : list string) :
  result (init W N config false) = Ok ds ->
  config !! "dataset" = Some dataset ->
  dataset !! "semi_supervised_labels_path" = Some label_path ->
  dataset !! "planet_test_boxes_path" = Some test_boxes ->
  result (listdir W label_path) = Ok lats -> lat ∈ lats ->
  isfile W (path_join test_boxes lat) = false ->
  result (listdir W (path_join test_boxes lat)) = Ok locations ->
  location ∈ locations ->
  result (listdir W (path_join (path_join (path_join test_boxes lat) location) "L3H-SR"))
    = Ok names ->
  length (natsorted W (filter (fun n => str_contains "-01.tif" n) names)) = 0 \/
  length (natsorted W (filter (fun n => str_contains "-01.tif" n) names)) = 24.
Proof.
  intros Hinit Hds Hlp Htb Hlats Hlat Hfile Hlocs Hloc Hnames.
  unfold init, subscript in Hinit. rewrite Hds in Hinit. rewrite bind_ret in Hinit.
  cbv beta in Hinit. rewrite Hlp in Hinit. rewrite bind_ret in Hinit. cbv beta in Hinit.
  apply result_bind_inv in Hinit as (st & Hloop & _).
  unfold test_loop in Hloop.
  rewrite (result_bind_ok _ _ _ Hlats) in Hloop.
  destruct (for_each_ok_in _ _ _ _ Hloop lat Hlat) as (s & s1 & Hbody).
  unfold test_lat, subscript in Hbody. rewrite Hds in Hbody. rewrite bind_ret in Hbody.
  cbv beta in Hbody. rewrite Htb in Hbody. rewrite bind_ret in Hbody. cbv beta in Hbody.
  rewrite Hfile in Hbody. cbn [negb] in Hbody.
  rewrite (result_bind_ok _ _ _ Hlocs) in Hbody.
  destruct (for_each_ok_in _ _ _ _ Hbody location Hloc) as (s2 & s3 & Hlocation).
  unfold test_location in Hlocation.
  rewrite (result_bind_ok _ _ _ Hnames) in Hlocation.
  exact (test_pairs_ok_length W N _ _ _ _ Hlocation).
Qed.

(** An instance of X14: the world whose one location holds 24 rasters. *)
Lemma init_inference_needs_24_witness :
  length (natsorted year_world
            (filter (fun n => str_contains "-01.tif" n) demo_months)) = 0 \/
  length (natsorted year_world
            (filter (fun n => str_contains "-01.tif" n) demo_months)) = 24.
Proof.
  destruct year_init_ok as [ds Hds].
  apply (init_inference_needs_24 year_world demo_arith (demo_config "labels") ds
           (demo_dataset "labels") "labels" "test_boxes" "10N" "1311_3077_13"
           ["10N"] ["1311_3077_13"] demo_months Hds).
  - apply (lookup_singleton_eq (M := gmap string)).
  - unfold demo_dataset. apply lookup_insert_eq.
  - unfold demo_dataset. rewrite lookup_insert_ne by discriminate.
    rewrite lookup_insert_ne by discriminate.
    apply (lookup_singleton_eq (M := gmap string)).
  - reflexivity.
  - apply list_elem_of_singleton. reflexivity.
  - reflexivity.
  - reflexivity.
  - apply list_elem_of_singleton. reflexivity.
  - reflexivity.
Defined.

Lemma list_index_cases {A} (l : list A) (i : Z) :
  ((- Z.of_nat (length l) <= i < Z.of_nat (length l))%Z /\
   exists x, list_index l i = ret x /\
             l !! Z.to_nat (if (i <? 0)%Z then i + Z.of_nat (length l) else i)%Z = Some x) \/
  (~ (- Z.of_nat (length l) <= i < Z.of_nat (length l))%Z /\
   list_index l i = raise IndexError).
Proof.
  unfold list_index, list_get.
  destruct (Z.ltb_spec i 0) as [Hneg | Hpos].
  - destruct (Z.ltb_spec (i + Z.of_nat (length l)) 0) as [Hlow | Hin].
    + right. split; [lia | reflexivity].
    + left. split; [lia|].
      destruct (lookup_lt_is_Some_2 l (Z.to_nat (i + Z.of_nat (length l)))) as [x Hx];
        [lia|].
      exists x. rewrite Hx. split; reflexivity.
  - destruct (Z.ltb_spec i 0) as [|_]; [lia|].
    destruct (l !! Z.to_nat i) as [x |] eqn:Hx.
    + left. apply lookup_lt_Some in Hx as Hlt. split; [lia|].
      exists x. split; reflexivity.
    + right. apply lookup_ge_None_1 in Hx. split; [lia | reflexivity].
Qed.

(** X15 ([ChangeDetectionDataset.__init__], lines 129-141 and 175-202).
    A dataset built in inference mode has no label and no weight table,
    and therefore [get_img], which reads [labels[im_name]] in both modes,
    raises [IndexError] at every position. *)
Theorem init_inference_no_labels {F} (W : world F) (N : arith F)
    (config : gmap string (gmap string string)) (ds : ChangeDetectionDataset F) :
  result (init W N config false) = Ok ds ->
  ds_train ds = false /\ ds_labels ds = [] /\ ds_weights ds = None /\
  forall im_name, result (get_img ds im_name) = Raise IndexError.
Proof.
  intros Hinit. unfold init in Hinit.
  apply result_bind_inv in Hinit as (dataset & _ & Hinit).
  apply result_bind_inv in Hinit as (label_path & _ & Hinit).
  apply result_bind_inv in Hinit as (st & Hloop & Hinit).
  inversion Hinit. subst ds. clear Hinit. cbn [ds_train ds_labels ds_weights].
  assert (Hlabels : labels st = []).
  { unfold test_loop in Hloop.
    apply result_bind_inv in Hloop as (lats & _ & Hloop).
    refine (for_each_preserves (fun s => labels s = []) _ _ build0 st _ eq_refl Hloop).
    intros s lat s' Hlat Hs. unfold test_lat in Hlat.
    apply result_bind_inv in Hlat as (dataset' & _ & Hlat).
    apply result_bind_inv in Hlat as (boxes & _ & Hlat).
    destruct (negb (isfile W (path_join boxes lat)));
      [| inversion Hlat; subst s'; exact Hs].
    apply result_bind_inv in Hlat as (locations & _ & Hlat).
    refine (for_each_preserves (fun s => labels s = []) _ _ _ _ _ Hs Hlat).
    intros s2 location s2' Hlocation Hs2. unfold test_location in Hlocation.
    apply result_bind_inv in Hlocation as (names & _ & Hpairs).
    unfold test_pairs in Hpairs.
    refine (for_each_preserves (fun s => labels s = []) _ _ _ _ _ Hs2 Hpairs).
    intros s3 [idx name] s3' Hbody Hs3. cbn [fst snd] in Hbody.
    destruct (negb (idx =? 23)); [| inversion Hbody; subst s3'; exact Hs3].
    apply result_bind_inv in Hbody as (next & _ & Hbody).
    apply result_bind_inv in Hbody as (R1 & _ & Hbody).
    apply result_bind_inv in Hbody as (R2 & _ & Hbody).
    apply result_bind_inv in Hbody as (l1 & _ & Hbody).
    apply result_bind_inv in Hbody as (l2 & _ & Hbody).
    inversion Hbody. subst s3'. exact Hs3. }
  split; [reflexivity|]. split; [exact Hlabels|]. split; [reflexivity|].
  intros im_name. unfold get_img. cbn [ds_imgs_1 ds_imgs_2 ds_labels].
  rewrite Hlabels.
  destruct (list_index_cases (imgs_1 st) im_name) as [(_ & a & -> & _) | [_ ->]];
    [mstep | reflexivity].
  destruct (list_index_cases (imgs_2 st) im_name) as [(_ & b & -> & _) | [_ ->]];
    [mstep | reflexivity].
  destruct (list_index_cases (@nil (ndarray Z)) im_name) as [(Hr & _) | [_ ->]];
    [cbn [length] in Hr; lia | reflexivity].
Qed.

(** An instance of X15: the world whose one location holds 24 rasters. *)
Lemma init_inference_no_labels_witness :
  exists ds,
    result (init year_world demo_arith (demo_config "labels") false) = Ok ds /\
    ds_train ds = false /\ ds_labels ds = [] /\ ds_weights ds = None /\
    forall im_name, result (get_img ds im_name) = Raise IndexError.
Proof.
  destruct year_init_ok as [ds Hds]. exists ds. split; [exact Hds|].
  exact (init_inference_no_labels year_world demo_arith (demo_config "labels") ds Hds).
Defined.

(** ** [__getitem__] *)

(** X16 ([ChangeDetectionDataset.__getitem__], lines 210-220). The lookup
    returns exactly when the index is accepted by every list it reads
    (before, after and, in training mode, labels; a negative index counts
    from the end of each list separately), and then the sample holds the
    entries at those positions, with a label in training mode only; for
    every other index it raises [IndexError]. *)
Theorem getitem_ds_spec {F} (ds : ChangeDetectionDataset F) (idx : Z) :
  (valid_index (ds_imgs_1 ds) idx /\ valid_index (ds_imgs_2 ds) idx /\
   (ds_train ds = true -> valid_index (ds_labels ds) idx) /\
   exists s,
     getitem_ds ds idx = ret s /\
     ds_imgs_1 ds !! position (ds_imgs_1 ds) idx = Some (I1 s) /\
     ds_imgs_2 ds !! position (ds_imgs_2 ds) idx = Some (I2 s) /\
     label s = if ds_train ds then ds_labels ds !! position (ds_labels ds) idx
               else None) \/
  (~ (valid_index (ds_imgs_1 ds) idx /\ valid_index (ds_imgs_2 ds) idx /\
      (ds_train ds = true -> valid_index (ds_labels ds) idx)) /\
   getitem_ds ds idx = raise IndexError).
Proof.
  unfold getitem_ds, valid_index, position.
  destruct (list_index_cases (ds_imgs_1 ds) idx) as [(H1 & a & -> & Ha) | [H1 ->]];
    [| right; split; [tauto | destruct (ds_train ds); reflexivity]].
  destruct (list_index_cases (ds_imgs_2 ds) idx) as [(H2 & b & -> & Hb) | [H2 ->]];
    [| right; split; [tauto | destruct (ds_train ds); reflexivity]].
  destruct (ds_train ds).
  - destruct (list_index_cases (ds_labels ds) idx) as [(H3 & l & -> & Hl) | [H3 ->]].
    + left. split; [exact H1|]. split; [exact H2|]. split; [intros _; exact H3|].
      eexists. split; [reflexivity|]. cbn [I1 I2 label].
      split; [exact Ha|]. split; [exact Hb|]. symmetry. exact Hl.
    + right. split; [| reflexivity]. intros (_ & _ & H). apply H3, H. reflexivity.
  - left. split; [exact H1|]. split; [exact H2|]. split; [discriminate|].
    eexists. split; [reflexivity|]. cbn [I1 I2 label].
    split; [exact Ha|]. split; [exact Hb|]. reflexivity.
Qed.

(** ** Training mode: the three lists *)

Lemma append_image_patches_inv {A} (imgs l : list (ndarray A)) (R : ndarray A) :
  result (append_image_patches imgs R) = Ok l -> l = imgs ++ raster_patches R.
Proof.
  intros Hok. pose proof Hok as Hok'.
  unfold append_image_patches in Hok'.
  apply result_bind_inv in Hok' as (Rt & Ht & _).
  unfold transpose_201 in Ht.
  destruct (shape R) as [| d0 [| d1 [| d2 [| d3 ds]]]] eqn:Hsh; try discriminate.
  destruct (strides R) as [| s0 [| s1 [| s2 [| s3 ss]]]] eqn:Hst; try discriminate.
  rewrite (append_image_patches_ok imgs R d0 d1 d2 Hsh) in Hok.
  - inversion Hok. reflexivity.
  - unfold wf. rewrite Hsh, Hst. reflexivity.
Qed.

Lemma append_label_patches_inv (labels l : list (ndarray Z)) (m : ndarray Z) :
  result (append_label_patches labels m) = Ok l ->
  size m = 16 * 256 * 256 /\ l = labels ++ label_blocks m.
Proof.
  intros Hok. destruct (decide (size m = 16 * 256 * 256)) as [Hsz | Hsz].
  - rewrite (append_label_patches_ok labels m Hsz) in Hok. inversion Hok.
    split; [exact Hsz | reflexivity].
  - rewrite (append_label_patches_fail labels m Hsz) in Hok. discriminate.
Qed.

Lemma train_file_step {F} (W : world F) (N : arith F)
    (config : gmap string (gmap string string)) (dir file : string) (st st1 : build F) :
  result (train_file W N config dir st file) = Ok st1 ->
  exists m,
    file_mask W dir file = Some m /\ size m = 16 * 256 * 256 /\
    labels st1 = labels st ++ label_blocks m /\
    imgs_1 st1 = imgs_1 st ++ before_patches W N config file /\
    imgs_2 st1 = imgs_2 st ++ after_patches W N config file.
Proof.
  unfold train_file, subscript. intros H.
  apply result_bind_inv in H as (dataset & Hds & H).
  apply result_bind_inv in H as (boxes & Hboxes & H).
  apply result_bind_inv in H as (I12 & Hread & H).
  apply result_bind_inv in H as (rgb & Hrgb & H).
  rewrite train_sample_decoded in H.
  apply result_bind_inv in H as (m & Hm & H).
  destruct (n_pixs st) as [[[[[[[n0 n1] n2] n3] n4] n5] n6] n7]. cbv zeta in H.
  apply result_bind_inv in H as (labs & Hlabs & H).
  apply result_bind_inv in H as (i1 & Hi1 & H).
  apply result_bind_inv in H as (i2 & Hi2 & H).
  cbn [result ret snd] in H. inversion H. subst st1. clear H.
  cbn [labels imgs_1 imgs_2].
  apply append_label_patches_inv in Hlabs as [Hsz ->].
  apply append_image_patches_inv in Hi1 as ->.
  apply append_image_patches_inv in Hi2 as ->.
  assert (Hr : file_rasters W N config file = Some I12).
  { unfold file_rasters.
    destruct (config !! "dataset") as [d |]; [| discriminate].
    inversion Hds. subst d. cbn [mbind option_bind].
    destruct (dataset !! "planet_boxes_path") as [b |]; [| discriminate].
    inversion Hboxes. subst b. cbn [mbind option_bind].
    apply value_of_ok. exact Hread. }
  exists m. split.
  { unfold file_mask. rewrite (value_of_ok _ _ Hrgb). cbn [mbind option_bind].
    apply value_of_ok. exact Hm. }
  split; [exact Hsz|]. split; [reflexivity|].
  unfold before_patches, after_patches. rewrite Hr. split; reflexivity.
Qed.

Lemma train_files_lists {F} (W : world F) (N : arith F)
    (config : gmap string (gmap string string)) (dir : string) (files : list string)
    (st st' : build F) :
  result (for_each files (train_file W N config dir) st) = Ok st' ->
  Forall (fun m => size m = 16 * 256 * 256) (omap (file_mask W dir) files) /\
  length (omap (file_mask W dir) files) = length files /\
  labels st' = labels st ++ (omap (file_mask W dir) files ≫= label_blocks) /\
  imgs_1 st' = imgs_1 st ++ (files ≫= before_patches W N config) /\
  imgs_2 st' = imgs_2 st ++ (files ≫= after_patches W N config).
Proof.
  revert st. induction files as [| f files IH]; intros st Hok.
  - cbn in Hok. inversion Hok. cbn [omap list_omap mbind list_bind length].
    rewrite !app_nil_r.
    split; [apply List.Forall_nil|]. split; [reflexivity|]. split; [reflexivity|].
    split; reflexivity.
  - apply for_each_cons_ok in Hok as (st1 & Hf & Hrest).
    apply train_file_step in Hf as (m & Hm & Hsz & Hl & H1 & H2).
    destruct (IH st1 Hrest) as (Hall & Hlen & Hl' & H1' & H2').
    cbn [omap list_omap]. rewrite Hm. cbn [mbind list_bind length].
    split; [apply List.Forall_cons; [exact Hsz | exact Hall]|].
    split; [rewrite <- Hlen; reflexivity|].
    rewrite Hl', H1', H2', Hl, H1, H2, <- !app_assoc.
    split; [reflexivity|]. split; reflexivity.
Qed.

Lemma train_location_lists {F} (W : world F) (N : arith F)
    (config : gmap string (gmap string string)) (label_path location : string)
    (st st' : build F) :
  result (train_location W N config label_path st location) = Ok st' ->
  Forall (fun m => size m = 16 * 256 * 256) (location_masks W label_path location) /\
  length (location_masks W label_path location) =
    length (location_files W label_path location) /\
  labels st' = labels st ++ (location_masks W label_path location ≫= label_blocks) /\
  imgs_1 st' =
    imgs_1 st ++ (location_files W label_path location ≫= before_patches W N config) /\
  imgs_2 st' =
    imgs_2 st ++ (location_files W label_path location ≫= after_patches W N config).
Proof.
  unfold train_location. intros H.
  apply result_bind_inv in H as (files & Hfiles & H).
  unfold location_masks, location_files. rewrite (value_of_ok _ _ Hfiles).
  cbn [default]. eapply train_files_lists. exact H.
Qed.

Lemma train_locations_lists {F} (W : world F) (N : arith F)
    (config : gmap string (gmap string string)) (label_path : string)
    (locations : list string) (st st' : build F) :
  result (for_each locations (train_location W N config label_path) st) = Ok st' ->
  Forall (fun m => size m = 16 * 256 * 256)
    (locations ≫= location_masks W label_path) /\
  length (locations ≫= location_masks W label_path) =
    length (locations ≫= location_files W label_path) /\
  labels st' =
    labels st ++ ((locations ≫= location_masks W label_path) ≫= label_blocks) /\
  imgs_1 st' =
    imgs_1 st ++
    ((locations ≫= location_files W label_path) ≫= before_patches W N config) /\
  imgs_2 st' =
    imgs_2 st ++
    ((locations ≫= location_files W label_path) ≫= after_patches W N config).
Proof.
  revert st. induction locations as [| loc locations IH]; intros st Hok.
  - cbn in Hok. inversion Hok. cbn [omap list_omap mbind list_bind length].
    rewrite !app_nil_r.
    split; [apply List.Forall_nil|]. split; [reflexivity|]. split; [reflexivity|].
    split; reflexivity.
  - apply for_each_cons_ok in Hok as (st1 & Hloc & Hrest).
    apply train_location_lists in Hloc as (Hall & Hlen & Hl & H1 & H2).
    destruct (IH st1 Hrest) as (Hall' & Hlen' & Hl' & H1' & H2').
    cbn [mbind list_bind]. rewrite !bind_app, !length_app.
    split; [apply Forall_app; split; [exact Hall | exact Hall']|].
    split; [rewrite Hlen, Hlen'; reflexivity|].
    rewrite Hl', H1', H2', Hl, H1, H2, <- !app_assoc.
    split; [reflexivity|]. split; reflexivity.
Qed.

Lemma train_loop_lists {F} (W : world F) (N : arith F)
    (config : gmap string (gmap string string)) (label_path : string) (st : build F) :
  result (train_loop W N config label_path) = Ok st ->
  Forall (fun m => size m = 16 * 256 * 256) (corpus_masks W label_path) /\
  length (corpus_masks W label_path) = length (corpus_files W label_path) /\
  labels st = corpus_masks W label_path ≫= label_blocks /\
  imgs_1 st = corpus_files W label_path ≫= before_patches W N config /\
  imgs_2 st = corpus_files W label_path ≫= after_patches W N config.
Proof.
  unfold train_loop. intros H.
  apply result_bind_inv in H as (locations & Hlocs & H).
  unfold corpus_masks, corpus_files. rewrite (value_of_ok _ _ Hlocs).
  exact (train_locations_lists W N config label_path locations build0 st H).
Qed.

Lemma length_label_runs (masks : list (ndarray Z)) :
  length (masks ≫= label_blocks) = 16 * length masks.
Proof.
  induction masks as [| m masks IH]; [reflexivity|].
  cbn [mbind list_bind length]. rewrite length_app, IH, length_label_blocks. lia.
Qed.

Lemma length_bind_sum {A B} (f : A -> list B) (l : list A) :
  length (l ≫= f) = sum_list_with (fun x => length (f x)) l.
Proof.
  induction l as [| x l IH]; [reflexivity|].
  cbn [mbind list_bind sum_list_with]. rewrite length_app, IH. reflexivity.
Qed.

Lemma init_train_inv {F} (W : world F) (N : arith F)
    (config : gmap string (gmap string string)) (ds : ChangeDetectionDataset F) :
  result (init W N config true) = Ok ds ->
  exists st,
    result (train_loop W N config (ds_label_path ds)) = Ok st /\
    ds_train ds = true /\
    ds_imgs_1 ds = imgs_1 st /\ ds_imgs_2 ds = imgs_2 st /\ ds_labels ds = labels st.
Proof.
  intros Hinit. unfold init in Hinit.
  apply result_bind_inv in Hinit as (dataset & _ & Hinit).
  apply result_bind_inv in Hinit as (label_path & _ & Hinit).
  apply result_bind_inv in Hinit as (st & Hloop & Hinit).
  apply result_bind_inv in Hinit as (weights & _ & Hinit).
  inversion Hinit. subst ds. exists st. cbn.
  split; [exact Hloop|]. split; [reflexivity|]. split; [reflexivity|].
  split; reflexivity.
Qed.

(** X17 ([ChangeDetectionDataset.__init__], lines 144-159). When
    training-mode construction returns, every label file of the walk was
    decoded to a mask of exactly 16 * 256 * 256 pixels, and the label list
    is, in walk order, the 16 row-major runs of each of these masks: 16
    labels per label file, whatever the sizes of the rasters. *)
Theorem init_train_labels {F} (W : world F) (N : arith F)
    (config : gmap string (gmap string string)) (ds : ChangeDetectionDataset F) :
  result (init W N config true) = Ok ds ->
  Forall (fun m => size m = 16 * 256 * 256) (corpus_masks W (ds_label_path ds)) /\
  ds_labels ds = corpus_masks W (ds_label_path ds) ≫= label_blocks /\
  length (ds_labels ds) = 16 * length (corpus_files W (ds_label_path ds)).
Proof.
  intros Hinit.
  destruct (init_train_inv W N config ds Hinit) as (st & Hloop & _ & _ & _ & Hl).
  destruct (train_loop_lists W N config _ st Hloop) as (Hall & Hlen & Hlabels & _).
  split; [exact Hall|].
  split; [rewrite Hl; exact Hlabels|].
  rewrite Hl, Hlabels, length_label_runs, Hlen. reflexivity.
Qed.

(** An instance of X17: the corpus of one 1024 x 1024 label. *)
Lemma init_train_labels_witness :
  exists ds,
    result (init demo_world demo_arith (demo_config "labels") true) = Ok ds /\
    Forall (fun m => size m = 16 * 256 * 256)
      (corpus_masks demo_world (ds_label_path ds)) /\
    ds_labels ds = corpus_masks demo_world (ds_label_path ds) ≫= label_blocks /\
    length (ds_labels ds) = 16 * length (corpus_files demo_world (ds_label_path ds)).
Proof.
  destruct demo_init_train_ok as [ds Hds]. exists ds. split; [exact Hds|].
  exact (init_train_labels demo_world demo_arith (demo_config "labels") ds Hds).
Defined.

(** X18 ([ChangeDetectionDataset.__init__], lines 144-171, and [__len__]).
    When training-mode construction returns, the before and after lists
    are, in walk order, the row-major 256 x 256 tiles of the two
    normalised rasters of each label file, and the length of the dataset
    is the sum, over the label files, of floor(H/256) * floor(W/256) for
    the before raster of shape (H, W, C). *)
Theorem init_train_images {F} (W : world F) (N : arith F)
    (config : gmap string (gmap string string)) (ds : ChangeDetectionDataset F) :
  result (init W N config true) = Ok ds ->
  ds_imgs_1 ds = corpus_files W (ds_label_path ds) ≫= before_patches W N config /\
  ds_imgs_2 ds = corpus_files W (ds_label_path ds) ≫= after_patches W N config /\
  len ds =
    sum_list_with
      (fun file =>
         match file_rasters W N config file with
         | Some R => nth 0 (shape (fst R)) 0 / 256 * (nth 1 (shape (fst R)) 0 / 256)
         | None => 0
         end)
      (corpus_files W (ds_label_path ds)).
Proof.
  intros Hinit.
  destruct (init_train_inv W N config ds Hinit) as (st & Hloop & _ & H1 & H2 & _).
  destruct (train_loop_lists W N config _ st Hloop) as (_ & _ & _ & Hb & Ha).
  split; [rewrite H1; exact Hb|].
  split; [rewrite H2; exact Ha|].
  unfold len. rewrite H1, Hb, length_bind_sum. clear Hb Ha.
  induction (corpus_files W (ds_label_path ds)) as [| file files IH]; [reflexivity|].
  cbn [sum_list_with]. rewrite IH. f_equal.
  unfold before_patches. destruct (file_rasters W N config file) as [R |]; [| reflexivity].
  unfold raster_patches. cbv zeta. rewrite List.length_map, length_seq. reflexivity.
Qed.

(** ** [load_config] and the configuration keys *)

(** X19 ([load_config], lines 19-30). [load_config] returns a
    configuration exactly when the file opens and its text parses, and
    then it returns the parsed document; a failure to open the file is
    not caught and reaches the caller as it is. *)
Theorem load_config_returns_iff {F} (W : world F) (configfile : string) :
  (forall config,
     result (load_config W configfile) = Ok config <->
     exists stream,
       result (read_text W configfile) = Ok stream /\
       result (safe_load W stream) = Ok config) /\
  (forall e,
     result (read_text W configfile) = Raise e ->
     result (load_config W configfile) = Raise e).
Proof.
  split.
  - intros config. split.
    + intros Hok. unfold load_config in Hok.
      apply result_bind_inv in Hok as (stream & Hread & Hok).
      exists stream. split; [exact Hread|].
      apply result_bind_inv in Hok as (parsed & Hparse & Hok).
      destruct (safe_load W stream) as [out [c | e]]; cbn [result snd] in *.
      * inversion Hparse. subst parsed. inversion Hok. reflexivity.
      * destruct e; try discriminate. inversion Hparse. subst parsed. discriminate.
    + intros (stream & Hread & Hparse). unfold load_config.
      rewrite (result_bind_ok _ _ _ Hread).
      destruct (safe_load W stream) as [out [c | e]]; cbn [result snd] in Hparse;
        [| discriminate].
      inversion Hparse. subst c. reflexivity.
  - intros e Hread. unfold load_config. apply result_bind_raise. exact Hread.
Qed.

(** X20 ([ChangeDetectionDataset.__init__], line 125). For a
    configuration that is a mapping of section names to mappings of
    strings: if it has no [dataset] section, or its [dataset] section has
    no [semi_supervised_labels_path], the constructor raises [KeyError]
    in either mode, with nothing printed, whatever the file system
    holds. *)
Theorem init_missing_label_path {F} (W : world F) (N : arith F)
    (config : gmap string (gmap string string)) (train : bool) :
  config !! "dataset" ≫= (fun dataset => dataset !! "semi_supervised_labels_path") = None ->
  init W N config train = raise KeyError.
Proof.
  intros Hkey. unfold init, subscript.
  destruct (config !! "dataset") as [dataset |]; [| reflexivity].
  cbn [mbind option_bind] in Hkey. mstep. rewrite Hkey. reflexivity.
Qed.

(** An instance of X20: a configuration whose [dataset] section only
    names the raster folder. *)
Lemma init_missing_label_path_witness :
  init demo_world demo_arith {[ "dataset" := {[ "planet_boxes_path" := "boxes" ]} ]} true
    = raise KeyError.
Proof.
  apply init_missing_label_path.
  rewrite (lookup_singleton_eq (M := gmap string)). cbn [mbind option_bind].
  apply lookup_singleton_ne. discriminate.
Defined.

(** ** The naming convention of the rasters *)

Lemma string_app_cons (c : ascii) (a b : string) :
  String c a +:+ b = String c (a +:+ b).
Proof. reflexivity. Qed.

Lemma string_length_app (a b : string) :
  String.length (a +:+ b) = String.length a + String.length b.
Proof.
  induction a as [| c a IH]; [reflexivity|].
  rewrite string_app_cons. cbn [String.length Nat.add]. rewrite IH. reflexivity.
Qed.

Lemma string_app_assoc (a b c : string) : (a +:+ b) +:+ c = a +:+ (b +:+ c).
Proof.
  induction a as [| x a IH]; [reflexivity|].
  rewrite !string_app_cons. rewrite IH. reflexivity.
Qed.

Lemma substring_app_take (a b : string) :
  String.substring 0 (String.length a) (a +:+ b) = a.
Proof.
  induction a as [| c a IH]; [destruct b; reflexivity|].
  rewrite string_app_cons. cbn [String.length String.substring]. rewrite IH. reflexivity.
Qed.

Lemma substring_middle (a b c : string) :
  String.substring (String.length a) (String.length b) (a +:+ b +:+ c) = b.
Proof.
  induction a as [| x a IH]; [exact (substring_app_take b c)|].
  rewrite string_app_cons. cbn [String.length String.substring]. exact IH.
Qed.

Lemma split_head_app (p rest : string) :
  str_contains "_" p = false -> split_head "_" (p +:+ String "_" rest) = p.
Proof.
  induction p as [| c p IH]; intros Hno; [reflexivity|].
  rewrite string_app_cons. cbn [split_head]. cbn [str_contains] in Hno.
  apply orb_false_iff in Hno as [Hc Hp].
  destruct (Ascii.eqb_spec c "_") as [-> | Hne].
  - cbn in Hc. destruct p; discriminate.
  - rewrite (IH Hp). reflexivity.
Qed.

(** X21 ([read_and_normalized_planet_images_from_cm], lines 40-53). For a
    label file named [<parallel>_<folder>_<token1>_<token2><ext>], with a
    3-character parallel that has no underscore, two 7-character tokens
    and a 4-character extension, the raster read as the original image
    [I1] is the one of the last token, [token2], and the raster read as
    the changed image [I2] is the one of [token1]; both are looked up
    under [<boxes>/<parallel>/<folder>/L3H-SR] and rescaled to [-1, 1]. *)
Theorem planet_images_by_name {F} (W : world F) (N : arith F)
    (planet_boxes_path parallel folder token1 token2 ext : string) :
  String.length parallel = 3 -> str_contains "_" parallel = false ->
  String.length token1 = 7 -> String.length token2 = 7 -> String.length ext = 4 ->
  read_and_normalized_planet_images_from_cm W N
    (parallel +:+ "_" +:+ folder +:+ "_" +:+ token1 +:+ "_" +:+ token2 +:+ ext)
    planet_boxes_path =
  (let! I1 := imread W (planet_path planet_boxes_path parallel folder token2) in
   let! I2 := imread W (planet_path planet_boxes_path parallel folder token1) in
   let! I1 := rescale N I1 (-1) 1 in
   let! I2 := rescale N I2 (-1) 1 in
   ret (I1, I2)).
Proof.
  intros Hp Hno H1 H2 He.
  set (name := parallel +:+ "_" +:+ folder +:+ "_" +:+ token1 +:+ "_" +:+ token2 +:+ ext).
  assert (Hlen : String.length name = String.length folder + 24).
  { unfold name. rewrite !string_length_app, Hp, H1, H2, He. cbn [String.length]. lia. }
  assert (Hhead : split_head "_" name = parallel).
  { unfold name. apply (split_head_app parallel). exact Hno. }
  assert (Hfolder : py_slice name 4 (-20) = folder).
  { unfold py_slice, slice_bound. rewrite Hlen.
    change (4 <? 0)%Z with false. change (-20 <? 0)%Z with true. cbv iota.
    replace (Nat.min (Z.to_nat 4) (String.length folder + 24))
      with (String.length (parallel +:+ "_"))
      by (rewrite string_length_app, Hp; cbn [String.length]; lia).
    replace (Z.to_nat (Z.of_nat (String.length folder + 24) + -20) -
             String.length (parallel +:+ "_")) with (String.length folder)
      by (rewrite string_length_app, Hp; cbn [String.length]; lia).
    unfold name. rewrite <- (string_app_assoc parallel "_").
    apply substring_middle. }
  assert (Htok1 : py_slice name (-19) (-12) = token1).
  { unfold py_slice, slice_bound. rewrite Hlen.
    change (-19 <? 0)%Z with true. change (-12 <? 0)%Z with true. cbv iota.
    replace (Z.to_nat (Z.of_nat (String.length folder + 24) + -19))
      with (String.length (parallel +:+ "_" +:+ folder +:+ "_"))
      by (rewrite !string_length_app, Hp; cbn [String.length]; lia).
    replace (Z.to_nat (Z.of_nat (String.length folder + 24) + -12) -
             String.length (parallel +:+ "_" +:+ folder +:+ "_"))
      with (String.length token1)
      by (rewrite !string_length_app, Hp, H1; cbn [String.length]; lia).
    replace name
      with ((parallel +:+ "_" +:+ folder +:+ "_") +:+ token1 +:+ "_" +:+ token2 +:+ ext)
      by (unfold name; rewrite !string_app_assoc; reflexivity).
    apply substring_middle. }
  assert (Htok2 : py_slice name (-11) (-4) = token2).
  { unfold py_slice, slice_bound. rewrite Hlen.
    change (-11 <? 0)%Z with true. change (-4 <? 0)%Z with true. cbv iota.
    replace (Z.to_nat (Z.of_nat (String.length folder + 24) + -11))
      with (String.length (parallel +:+ "_" +:+ folder +:+ "_" +:+ token1 +:+ "_"))
      by (rewrite !string_length_app, Hp, H1; cbn [String.length]; lia).
    replace (Z.to_nat (Z.of_nat (String.length folder + 24) + -4) -
             String.length (parallel +:+ "_" +:+ folder +:+ "_" +:+ token1 +:+ "_"))
      with (String.length token2)
      by (rewrite !string_length_app, Hp, H1, H2; cbn [String.length]; lia).
    replace name
      with ((parallel +:+ "_" +:+ folder +:+ "_" +:+ token1 +:+ "_") +:+ token2 +:+ ext)
      by (unfold name; rewrite !string_app_assoc; reflexivity).
    apply substring_middle. }
  unfold read_and_normalized_planet_images_from_cm. cbv zeta.
  rewrite Hhead, Hfolder, Htok1, Htok2. reflexivity.
Qed.

(** An instance of X21: the label file of the small world. *)
Lemma planet_images_by_name_witness :
  read_and_normalized_planet_images_from_cm demo_world demo_arith
    ("10N" +:+ "_" +:+ "1311_3077_13" +:+ "_" +:+ "2018-01" +:+ "_" +:+ "2018-02" +:+ ".png")
    "boxes" =
  (let! I1 := imread demo_world (planet_path "boxes" "10N" "1311_3077_13" "2018-02") in
   let! I2 := imread demo_world (planet_path "boxes" "10N" "1311_3077_13" "2018-01") in
   let! I1 := rescale demo_arith I1 (-1) 1 in
   let! I2 := rescale demo_arith I2 (-1) 1 in
   ret (I1, I2)).
Proof.
  apply (planet_images_by_name demo_world demo_arith "boxes" "10N" "1311_3077_13"
           "2018-01" "2018-02" ".png"); reflexivity.
Defined.

(** ** Training on full-size data *)

Lemma rescale_ok {F} (N : arith F) (I : ndarray F) (new_min new_max : Z) :
  0 < size I ->
  exists R, rescale N I new_min new_max = ret R /\
            shape R = shape I /\ strides R = strides I.
Proof.
  intros Hsz. unfold rescale, np_min, np_max, elements.
  destruct (size I) as [| n]; [lia|]. cbn [seq map]. msimpl.
  eexists. split; [reflexivity|]. split; reflexivity.
Qed.

Lemma tile_rasters_read :
  exists R1 R2,
    result (read_and_normalized_planet_images_from_cm tile_world demo_arith
              "10N_1311_3077_13_2018-01_2018-02.png" "boxes") = Ok (R1, R2) /\
    shape R1 = [1024; 1024; 4] /\ wf R1 /\ shape R2 = [1024; 1024; 4] /\ wf R2.
Proof.
  assert (Hsz : 0 < size demo_raster).
  { unfold size, demo_raster. cbn [shape fresh prod fold_right]. lia. }
  destruct (rescale_ok demo_arith demo_raster (-1) 1 Hsz) as (R & HR & Hsh & Hst).
  exists R, R.
  unfold read_and_normalized_planet_images_from_cm. cbv zeta.
  repeat match goal with
         | |- context [imread tile_world ?p] =>
             assert (imread tile_world p = ret demo_raster) as ->
               by (vm_compute; reflexivity)
         end.
  msimpl. rewrite HR. msimpl.
  split; [reflexivity|].
  assert (Hwf : wf R).
  { unfold wf. rewrite Hsh, Hst. reflexivity. }
  split; [rewrite Hsh; reflexivity|]. split; [exact Hwf|].
  split; [rewrite Hsh; reflexivity | exact Hwf].
Qed.

Ltac tile_walk root rgb Hread Hsample :=
  unfold train_loop, demo_config;
  change (listdir tile_world root) with (@ret (list string) ["10N_1311_3077_13"]);
  mstep; cbn [for_each]; unfold train_location;
  match goal with
  | |- context [listdir tile_world ?p] =>
      assert (listdir tile_world p = ret ["10N_1311_3077_13_2018-01_2018-02.png"]) as ->
        by (vm_compute; reflexivity)
  end;
  mstep; cbn [for_each]; unfold train_file, subscript;
  rewrite (lookup_singleton_eq (M := gmap string)); mstep;
  unfold demo_dataset at 1;
  rewrite lookup_insert_ne by discriminate; rewrite lookup_insert_eq; mstep;
  rewrite !bind_assoc;
  rewrite (result_bind_ok _ _ _ Hread); cbn [fst snd];
  match goal with
  | |- context [image_open_rgb tile_world ?p] =>
      assert (image_open_rgb tile_world p = ret rgb) as -> by (vm_compute; reflexivity)
  end;
  mstep; rewrite (result_bind_ok _ _ _ Hsample); msimpl; reflexivity.

Lemma tile_train_loop_labels (m : ndarray Z) :
  decode_mask demo_rgb = ret m ->
  exists R1 R2,
    shape R1 = [1024; 1024; 4] /\ shape R2 = [1024; 1024; 4] /\
    result (train_loop tile_world demo_arith (demo_config "labels") "labels") =
      Ok (Build ([] ++ raster_patches R1) ([] ++ raster_patches R2)
                ([] ++ label_blocks m) 0
                (add_counts 0 (n_pixs (@build0 Q)) m)).
Proof.
  intros Hdec.
  destruct tile_rasters_read as (R1 & R2 & Hread & Hs1 & Hwf1 & Hs2 & Hwf2).
  exists R1, R2. split; [exact Hs1|]. split; [exact Hs2|].
  pose proof (train_sample_ok build0 R1 R2 demo_rgb m 1024 1024 1024 1024 4 1024 1024 4
                eq_refl ltac:(lia) Hs1 Hwf1 Hs2 Hwf2 Hdec) as Hsample.
  tile_walk "labels" demo_rgb Hread Hsample.
Qed.

Lemma tile_train_loop_dark (m : ndarray Z) :
  decode_mask dark_rgb = ret m ->
  exists R1 R2,
    result (train_loop tile_world demo_arith (demo_config "dark") "dark") =
      Ok (Build ([] ++ raster_patches R1) ([] ++ raster_patches R2)
                ([] ++ label_blocks m) 0
                (add_counts 0 (n_pixs (@build0 Q)) m)).
Proof.
  intros Hdec.
  destruct tile_rasters_read as (R1 & R2 & Hread & Hs1 & Hwf1 & Hs2 & Hwf2).
  exists R1, R2.
  pose proof (train_sample_ok build0 R1 R2 dark_rgb m 1024 1024 1024 1024 4 1024 1024 4
                eq_refl ltac:(lia) Hs1 Hwf1 Hs2 Hwf2 Hdec) as Hsample.
  tile_walk "dark" dark_rgb Hread Hsample.
Qed.

Lemma tile_corpus_masks (root : string) (rgb m : ndarray Z) :
  listdir tile_world root = ret ["10N_1311_3077_13"] ->
  listdir tile_world (path_join root "10N_1311_3077_13") =
    ret ["10N_1311_3077_13_2018-01_2018-02.png"] ->
  image_open_rgb tile_world
    (path_join (path_join root "10N_1311_3077_13")
               "10N_1311_3077_13_2018-01_2018-02.png") = ret rgb ->
  decode_mask rgb = ret m ->
  corpus_masks tile_world root = [m].
Proof.
  intros Hlocs Hfiles Hrgb Hdec.
  unfold corpus_masks. rewrite Hlocs. cbn [value_of result ret snd mbind list_bind].
  unfold location_masks. rewrite Hfiles. cbn [value_of result ret snd omap list_omap].
  unfold file_mask. rewrite Hrgb. cbn [value_of result ret snd mbind option_bind].
  rewrite Hdec. reflexivity.
Qed.

Lemma filter_all_false (l : list bool) :
  Forall (fun b => b = false) l -> filter (fun b : bool => b) l = [].
Proof.
  induction 1 as [| b l Hb _ IH]; [reflexivity|]. subst b.
  rewrite filter_cons_False by (cbn; auto). exact IH.
Qed.

Lemma count_eq_zero (m : ndarray Z) (h w : nat) (v : Z) :
  shape m = [h; w] ->
  (forall r c, r < h -> c < w -> item m [r; c] <> v) ->
  count_eq m v = 0.
Proof.
  intros Hsh Hne. unfold count_eq, count_nonzero.
  rewrite filter_all_false; [reflexivity|].
  rewrite elements_eq_scalar. apply List.Forall_forall. intros b Hin.
  apply in_map_iff in Hin as (x & <- & Hx).
  unfold elements in Hx. apply in_map_iff in Hx as (k & <- & Hk).
  apply in_seq in Hk. rewrite (size_mask m h w Hsh) in Hk.
  assert (Hw : 0 < w) by nia.
  rewrite (flat_mask m h w k Hsh) by lia.
  apply Z.eqb_neq. apply Hne.
  - apply Nat.Div0.div_lt_upper_bound. lia.
  - apply Nat.mod_upper_bound. lia.
Qed.

Lemma dark_mask_classes (m : ndarray Z) :
  decode_mask dark_rgb = ret m ->
  0 < count_eq m 0 /\ count_eq m 1 = 0.
Proof.
  intros Hdec.
  destruct (decode_mask_spec dark_rgb 1024 1024 eq_refl) as (m' & Hdec' & Hsh & Hit).
  assert (m' = m) as -> by (rewrite Hdec in Hdec'; inversion Hdec'; reflexivity).
  assert (Hcell : forall r c, r < 1024 -> c < 1024 -> item m [r; c] = 0%Z).
  { intros r c Hr Hc. rewrite (Hit r c Hr Hc). reflexivity. }
  split.
  - apply (count_eq_pos m 1024 1024 0 0 0 Hsh); [lia | lia | apply Hcell; lia].
  - apply (count_eq_zero m 1024 1024 1 Hsh). intros r c Hr Hc.
    rewrite (Hcell r c Hr Hc). discriminate.
Qed.

Lemma tile_init_train_ok :
  exists ds,
    result (init tile_world demo_arith (demo_config "labels") true) = Ok ds /\
    length (ds_imgs_1 ds) = 16 /\ length (ds_imgs_2 ds) = 16 /\
    length (ds_labels ds) = 16.
Proof.
  destruct (decode_mask_spec demo_rgb 1024 1024 eq_refl) as (m & Hdec & _).
  destruct (demo_mask_classes m Hdec) as [_ Hpos].
  destruct (tile_train_loop_labels m Hdec) as (R1 & R2 & Hs1 & Hs2 & Hloop).
  assert (Hd : demo_config "labels" !! "dataset" = Some (demo_dataset "labels"))
    by apply lookup_singleton_eq.
  assert (Hl : demo_dataset "labels" !! "semi_supervised_labels_path" = Some "labels")
    by apply lookup_insert_eq.
  unfold init, subscript. rewrite Hd. mstep. rewrite Hl. mstep.
  rewrite (result_bind_ok _ _ _ Hloop). cbn [n_pixs imgs_1 imgs_2 labels].
  destruct (inverse_weights_cases demo_arith (add_counts 0 (n_pixs (@build0 Q)) m))
    as [[(k & Hk & Hz) _] | [_ ->]].
  - rewrite count_at_add_counts in Hz by assumption.
    specialize (Hpos k Hk). lia.
  - mstep. eexists. split; [reflexivity|].
    cbn [ds_imgs_1 ds_imgs_2 ds_labels]. rewrite !app_nil_l.
    rewrite (length_raster_patches R1 1024 1024 4 Hs1).
    rewrite (length_raster_patches R2 1024 1024 4 Hs2).
    split; [reflexivity|]. split; reflexivity.
Qed.

(** An instance of C6 on a corpus that holds a label: the all-black
    1024 x 1024 label is decoded, its pixels are all counted for class 0,
    class 1 has no pixel, and the constructor raises. *)
Lemma init_train_zero_class_witness :
  exists m,
    corpus_masks tile_world "dark" = [m] /\
    0 < total_count (corpus_masks tile_world "dark") 0 /\
    total_count (corpus_masks tile_world "dark") 1 = 0 /\
    result (init tile_world demo_arith (demo_config "dark") true)
      = Raise ZeroDivisionError.
Proof.
  destruct (decode_mask_spec dark_rgb 1024 1024 eq_refl) as (m & Hdec & _).
  destruct (dark_mask_classes m Hdec) as [Hpos Hzero].
  destruct (tile_train_loop_dark m Hdec) as (R1 & R2 & Hloop).
  assert (Hmasks : corpus_masks tile_world "dark" = [m]).
  { apply (tile_corpus_masks "dark" dark_rgb m);
      [reflexivity | vm_compute; reflexivity | vm_compute; reflexivity | exact Hdec]. }
  assert (H0 : total_count (corpus_masks tile_world "dark") 0 = count_eq m 0 + 0)
    by (rewrite Hmasks; reflexivity).
  assert (H1 : total_count (corpus_masks tile_world "dark") 1 = count_eq m 1 + 0)
    by (rewrite Hmasks; reflexivity).
  exists m. split; [exact Hmasks|].
  split; [rewrite H0; lia|].
  split; [rewrite H1; lia|].
  refine (init_train_zero_class tile_world demo_arith (demo_config "dark")
            (demo_dataset "dark") "dark" _ 1 _ _ Hloop _ _).
  - apply lookup_singleton_eq.
  - apply lookup_insert_eq.
  - lia.
  - rewrite H1. lia.
Defined.

(** An instance of X18: the corpus of one label with two 1024 x 1024
    rasters, 16 tiles each. *)
Lemma init_train_images_witness :
  exists ds,
    result (init tile_world demo_arith (demo_config "labels") true) = Ok ds /\
    len ds = 16 /\ length (ds_imgs_2 ds) = 16 /\
    ds_imgs_1 ds =
      corpus_files tile_world (ds_label_path ds) ≫=
        before_patches tile_world demo_arith (demo_config "labels") /\
    ds_imgs_2 ds =
      corpus_files tile_world (ds_label_path ds) ≫=
        after_patches tile_world demo_arith (demo_config "labels") /\
    len ds =
      sum_list_with
        (fun file =>
           match file_rasters tile_world demo_arith (demo_config "labels") file with
           | Some R => nth 0 (shape (fst R)) 0 / 256 * (nth 1 (shape (fst R)) 0 / 256)
           | None => 0
           end)
        (corpus_files tile_world (ds_label_path ds)).
Proof.
  destruct tile_init_train_ok as (ds & Hds & Hlen1 & Hlen2 & _).
  exists ds. split; [exact Hds|]. split; [exact Hlen1|]. split; [exact Hlen2|].
  exact (init_train_images tile_world demo_arith (demo_config "labels") ds Hds).
Defined.
